(** * OpenNMT-py training loop: statistics, sharded loss, trainer and
    early stopping.

    A shallow embedding of [onmt/Loss.py], [onmt/Trainer.py] and the
    training script [train.py].  Python integers are [Z], Python floats are
    the kernel's binary64 floats, dictionaries keyed by strings are
    [gmap string _] (or association lists where the iteration order
    matters), exceptions are an explicit result type, and calls to the
    collaborators (model, optimiser, autograd) are recorded in a trace. *)

From Stdlib Require Import ZArith List Bool Lia Floats.
From stdpp Require Import base gmap list strings.

Local Open Scope Z_scope.

(** ** Python values and exceptions *)

Module Py.

Inductive exn : Type :=
| AssertionError
| IndexError
| ZeroDivisionError
| OverflowError
| KeyError
| RuntimeError.

Inductive result (A : Type) : Type :=
| Ok (a : A)
| Raise (e : exn).
Arguments Ok {A} a.
Arguments Raise {A} e.

Definition bind {A B : Type} (r : result A) (k : A -> result B) : result B :=
  match r with
  | Ok a => k a
  | Raise e => Raise e
  end.

(** [a < b] and [a > b] on floats: IEEE comparisons, false on NaN. *)
Definition float_lt (a b : float) : bool := (a <? b)%float.
Definition float_gt (a b : float) : bool := (b <? a)%float.
Definition float_eq (a b : float) : bool := (a =? b)%float.

(** The float an integer converts to when it meets a float in an arithmetic
    operation: the nearest one, and OverflowError past the largest. *)
Definition float_of_int (n : Z) : result float :=
  let f := SF2Prim (binary_normalize prec emax n 0 false) in
  if is_infinity f then Raise OverflowError else Ok f.


(** [a / n] for a float [a] and an integer [n] (true division). *)
Definition truediv (a : float) (n : Z) : result float :=
  match float_of_int n with
  | Raise e => Raise e
  | Ok b => if (b =? 0)%float then Raise ZeroDivisionError else Ok (a / b)%float
  end.

(** [min(x, 100)]: the builtin keeps its first argument unless the second
    is strictly smaller; the integer 100 then reaches [math.exp] as the
    float 100.0. *)
Definition min_100 (x : float) : float :=
  if (100 <? x)%float then 100%float else x.

(** [math.exp(min(loss / n_words, 100))], the body of both [ppl] methods;
    [math_exp] is the math library's function. *)
Definition ppl_of (math_exp : float -> result float)
    (loss : float) (n_words : Z) : result float :=
  match truediv loss n_words with
  | Raise e => Raise e
  | Ok q => math_exp (min_100 q)
  end.

(** An integer as an unrounded float, and [a / b] on two integers (true
    division): the quotient rounded once to the nearest float. *)
Definition Z2SF (n : Z) : spec_float :=
  match n with
  | Z0 => S754_zero false
  | Zpos m => S754_finite false m 0
  | Zneg m => S754_finite true m 0
  end.

Definition int_truediv (a b : Z) : result float :=
  if b =? 0 then Raise ZeroDivisionError
  else
    let f := SF2Prim (SFdiv prec emax (Z2SF a) (Z2SF b)) in
    if is_infinity f then Raise OverflowError else Ok f.

(** [n / b] for an integer [n] and a float [b]. *)
Definition int_div_float (n : Z) (b : float) : result float :=
  match float_of_int n with
  | Raise e => Raise e
  | Ok a => if (b =? 0)%float then Raise ZeroDivisionError else Ok (a / b)%float
  end.

End Py.

(** [x ← r; k] sequences two steps and stops at the first exception. *)
#[global] Instance result_ret : MRet Py.result := @Py.Ok.
#[global] Instance result_bind : MBind Py.result :=
fun A B k r => Py.bind r k.

(** ** The class [EarlyStopping] of [Trainer.py] *)

Module EarlyStopping.

Inductive PatienceEnum : Type := IMPROVING | DECREASING | STOPPED.

Definition PatienceEnum_eqb (a b : PatienceEnum) : bool :=
  match a, b with
  | IMPROVING, IMPROVING | DECREASING, DECREASING | STOPPED, STOPPED => true
  | _, _ => false
  end.

(** The fields [__init__] sets, the ones [__call__] never reads
    ([epochs], [trainer], the scorer) apart. *)
Record t : Type := mk {
  tolerance : Z;
  current_tolerance : Z;
  best_score : float;
  status : PatienceEnum
}.

(** [__init__(tolerance, ...)]. *)
Definition init (tol : Z) : t :=
  {| tolerance := tol;
     current_tolerance := tol;
     best_score := infinity;
     status := IMPROVING |}.

(** [__call__(valid_stats, ...)], where [score] is the value of
    [self.early_stopping_scorer(valid_stats)].  The messages printed and the
    checkpoint written by [trainer.drop_best_earlystopping] are not part of
    the state; [saves_best] tells when the checkpoint is written. *)
Definition call (self : t) (score : float) : t :=
  if Py.float_lt score (best_score self) then
    {| tolerance := tolerance self;
       current_tolerance := tolerance self;
       best_score := score;
       status := IMPROVING |}
  else
    let tol' :=
      if Py.float_gt score (best_score self)
      then current_tolerance self - 1
      else current_tolerance self in
    {| tolerance := tolerance self;
       current_tolerance := tol';
       best_score := best_score self;
       status := if 0 <? tol' then DECREASING else STOPPED |}.

Definition saves_best (self : t) (score : float) : bool :=
  Py.float_lt score (best_score self).

Definition is_improving (self : t) : bool :=
  PatienceEnum_eqb (status self) IMPROVING.

Definition has_stopped (self : t) : bool :=
  PatienceEnum_eqb (status self) STOPPED.

(** One call per score; the state after each call, in order. *)
Fixpoint feed (self : t) (scores : list float) : list t :=
  match scores with
  | [] => []
  | x :: xs => let self' := call self x in self' :: feed self' xs
  end.

(** The states a machine built with [tol] can be in. *)
Inductive reachable (tol : Z) : t -> Prop :=
| reach_init : reachable tol (init tol)
| reach_call s x : reachable tol s -> reachable tol (call s x).

(** STOPPED exactly when no tolerance is left; the two queries exclude
    each other. *)
Definition patience_inv (s : t) : Prop :=
  (status s = STOPPED <-> current_tolerance s <= 0) /\
  (is_improving s && has_stopped s = false).

End EarlyStopping.

(** ** The tensor runtime, as far as the sharding code uses it *)

Module Torch.

(** A tensor seen along dimension 0: [data] lists its slices in order, the
    flags are those [shardVariables] reads or sets on a [Variable]. *)
Record tensor (A : Type) : Type := mk_tensor {
  data : list A;
  is_variable : bool;
  requires_grad : bool;
  volatile : bool
}.
Arguments mk_tensor {A} data is_variable requires_grad volatile.
Arguments data {A} t.
Arguments is_variable {A} t.
Arguments requires_grad {A} t.
Arguments volatile {A} t.

(** [t.size(0)]. *)
Definition size0 {A : Type} (t : tensor A) : Z := Z.of_nat (length (data t)).

(** [t.narrow(0, start, len)]: a view with the flags of [t]. *)
Definition narrow {A : Type} (t : tensor A) (start len : nat) : tensor A :=
  mk_tensor (take len (drop start (data t)))
            (is_variable t) (requires_grad t) (volatile t).

(** [t[start:]]. *)
Definition slice_from {A : Type} (t : tensor A) (start : nat) : tensor A :=
  mk_tensor (drop start (data t))
            (is_variable t) (requires_grad t) (volatile t).

(** [torch.split(t, split_size)] along dimension 0: chunks of [split_size]
    slices, the last one with what is left.  The chunk count and the width
    of the last chunk are computed as torch computes them: a negative split
    size is refused, a zero one is refused unless the tensor has no slice,
    and there is always at least one chunk, so that a tensor without slices
    gives one empty chunk. *)
Definition split {A : Type} (t : tensor A) (split_size : Z)
  : Py.result (list (tensor A)) :=
  let dim_size := length (data t) in
  if split_size <? 0 then Py.Raise Py.RuntimeError
  else if (split_size =? 0) && negb (dim_size =? 0)%nat
  then Py.Raise Py.RuntimeError
  else
    let w := Z.to_nat split_size in
    let num_splits :=
      if split_size =? 0 then 1%nat
      else Nat.max ((dim_size + w - 1) / w) 1 in
    let last_split_size := (w - (w * num_splits - dim_size))%nat in
    Py.Ok (map (fun i : nat =>
                  narrow t (i * w)
                    (if (i <? num_splits - 1)%nat then w else last_split_size))
               (seq 0 num_splits)).

(** ceil(n / w), the number of chunks that [n >= 1] slices give by [w];
    the number of chunks [split] returns, which is never 0; and the [i]-th
    chunk of width [w]: what [split] returns, index by index. *)
Definition num_chunks (n w : nat) : nat := ((n + w - 1) / w)%nat.

Definition num_splits (n w : nat) : nat := Nat.max (num_chunks n w) 1.

Definition chunk {A : Type} (w i : nat) (t : tensor A) : tensor A :=
  mk_tensor (take w (drop (i * w) (data t)))
            (is_variable t) (requires_grad t) (volatile t).

(** [torch.cat(ts)] along dimension 0, on the contents. *)
Definition cat_data {A : Type} (ts : list (tensor A)) : list A :=
  concat (map data ts).

End Torch.

(** ** [Loss.py] *)

Module Loss.
Import Torch.

(** The class [Statistics] of [Loss.py], the wall-clock field apart. *)
Module Statistics.

Record t : Type := mk {
  loss : float;
  reg : float;
  n_words : Z;
  n_correct : Z;
  n_src_words : Z
}.

(** [Statistics()] with its default arguments. *)
Definition init : t := mk 0%float 0%float 0 0 0.

Definition update (self stat : t) : t :=
  mk (loss self + loss stat)%float (reg self + reg stat)%float
     (n_words self + n_words stat)
     (n_correct self + n_correct stat)
     (n_src_words self).

Definition ppl (math_exp : float -> Py.result float) (self : t)
  : Py.result float :=
  Py.ppl_of math_exp (loss self) (n_words self).

(** [100 * (self.n_correct / float(self.n_words))]. *)
Definition accuracy (self : t) : Py.result float :=
  match Py.float_of_int (n_words self) with
  | Py.Raise e => Py.Raise e
  | Py.Ok d =>
      match Py.int_div_float (n_correct self) d with
      | Py.Raise e => Py.Raise e
      | Py.Ok q => Py.Ok (100 * q)%float
      end
  end.

End Statistics.

(** The dummy [shardVariables] makes of one variable: a fresh leaf on the
    same data for a [Variable] that requires gradients, the variable itself
    otherwise. *)
Definition dummy {A : Type} (v : tensor A) (eval : bool) : tensor A :=
  if is_variable v && requires_grad v
  then mk_tensor (data v) true (negb eval) eval
  else v.

(** [for i, v in enumerate(splits): shards[i][k] = v], from index [i] on.
    [shards[i]] raises IndexError past the end of the list. *)
Fixpoint store_splits {A : Type} (k : string) (i : nat)
    (splits : list (tensor A)) (shards : list (gmap string (tensor A)))
  : Py.result (list (gmap string (tensor A))) :=
  match splits with
  | [] => Py.Ok shards
  | v :: rest =>
      match shards !! i with
      | None => Py.Raise Py.IndexError
      | Some s => store_splits k (S i) rest (<[i := <[k := v]> s]> shards)
      end
  end.

(** The loop [for k in variables] of [shardVariables], on the items in the
    dictionary's order. *)
Fixpoint shard_loop {A : Type} (variables : list (string * tensor A))
    (batches : Z) (eval : bool)
    (shards : list (gmap string (tensor A)))
    (dummies : gmap string (tensor A))
  : Py.result (list (gmap string (tensor A)) * gmap string (tensor A)) :=
  match variables with
  | [] => Py.Ok (shards, dummies)
  | (k, v) :: rest =>
      let d := dummy v eval in
      splits ← split d batches;
      shards' ← store_splits k 0 splits shards;
      shard_loop rest batches eval shards' (<[k := d]> dummies)
  end.

(** [shardVariables(variables, batches, eval)].  The dictionary is the list
    of its items in order (keys without repetition); [list(...)[0]] fails
    on an empty one and [// batches] on a zero width. *)
Definition shardVariables {A : Type} (variables : list (string * tensor A))
    (batches : Z) (eval : bool)
  : Py.result (list (gmap string (tensor A)) * gmap string (tensor A)) :=
  match variables with
  | [] => Py.Raise Py.IndexError
  | (_, first) :: _ =>
      if batches =? 0 then Py.Raise Py.ZeroDivisionError
      else
        let n_shards := (size0 first - 1) / batches + 1 in
        let shards := replicate (Z.to_nat n_shards) (∅ : gmap string (tensor A)) in
        shard_loop variables batches eval shards ∅
  end.

(** The entries of key [k] in the shards, in order. *)
Definition shard_column {A : Type} (k : string)
    (shards : list (gmap string (tensor A))) : list (tensor A) :=
  omap (fun s : gmap string (tensor A) => s !! k) shards.

(** The attributes of a batch the loss and the trainer read: the sentence
    count under the name each of them uses, the target and the alignment. *)
Record Batch (A : Type) : Type := mk_Batch {
  batchSize : Z;
  batch_size : Z;
  tgt : tensor A;
  alignment : tensor A
}.
Arguments mk_Batch {A} batchSize batch_size tgt alignment.
Arguments batchSize {A} b.
Arguments batch_size {A} b.
Arguments tgt {A} b.
Arguments alignment {A} b.

(** The class [MemoryEfficientLoss]. *)
Module MemoryEfficientLoss.

(** The settings that [loss] branches on. *)
Record t : Type := mk {
  eval : bool;
  max_batches : Z;
  copy_loss : bool;
  coverage_loss : bool;
  exhaustion_loss : bool;
  fertility_loss : bool
}.

(** [attns[key]]. *)
Definition getitem {A : Type} (attns : gmap string (tensor A)) (key : string)
  : Py.result (tensor A) :=
  match attns !! key with
  | Some v => Py.Ok v
  | None => Py.Raise Py.KeyError
  end.

(** The dictionary [original] that [loss] builds before sharding. *)
Definition original {A : Type} (self : t) (batch : Batch A)
    (outputs : tensor A) (attns : gmap string (tensor A))
  : Py.result (list (string * tensor A)) :=
  let o0 := [("out_t"%string, outputs);
             ("targ_t"%string, slice_from (tgt batch) 1)] in
  o1 ← (if coverage_loss self
        then c ← getitem attns "coverage"; Py.Ok (o0 ++ [("coverage_t"%string, c)])
        else Py.Ok o0);
  o2 ← (if copy_loss self
        then c ← getitem attns "copy";
             Py.Ok (o1 ++ [("attn_t"%string, c);
                           ("align_t"%string, slice_from (alignment batch) 1)])
        else Py.Ok o1);
  o3 ← (if exhaustion_loss self
        then c ← getitem attns "upper_bounds";
             Py.Ok (o2 ++ [("upper_bounds_t"%string, c)])
        else Py.Ok o2);
  if fertility_loss self
  then t ← getitem attns "true_fertility_vals";
       p ← getitem attns "predicted_fertility_vals";
       Py.Ok (o3 ++ [("true_fertility_vals_t"%string, t);
                     ("predicted_fertility_vals_t"%string, p)])
  else Py.Ok o3.

(** The keys of [attns] that [loss] reads for the enabled terms, and the
    keys it gives [original], both in the order of the code. *)
Definition required_keys (self : t) : list string :=
  (if coverage_loss self then ["coverage"%string] else []) ++
  (if copy_loss self then ["copy"%string] else []) ++
  (if exhaustion_loss self then ["upper_bounds"%string] else []) ++
  (if fertility_loss self
   then ["true_fertility_vals"%string; "predicted_fertility_vals"%string]
   else []).

Definition original_keys (self : t) : list string :=
  ["out_t"%string; "targ_t"%string] ++
  (if coverage_loss self then ["coverage_t"%string] else []) ++
  (if copy_loss self then ["attn_t"%string; "align_t"%string] else []) ++
  (if exhaustion_loss self then ["upper_bounds_t"%string] else []) ++
  (if fertility_loss self
   then ["true_fertility_vals_t"%string; "predicted_fertility_vals_t"%string]
   else []).

(** What the autograd runtime is asked to do:
    [Backward l d] stands for [l.div(d).backward()]. *)
Inductive autograd_call (L : Type) : Type :=
| Backward (l : L) (divisor : Z).
Arguments Backward {L} l divisor.

Section loss.
Context {A L : Type}.

(** The body of the shard loop up to [self.score(...)]: the generator, the
    criterion and the optional terms give the shard's [loss_t], [score]
    gives its statistics; any of them may raise. *)
Variable shard_forward : gmap string (tensor A) -> Py.result (L * Statistics.t).

(** [for s in shards: ...]: the calls made so far survive an exception. *)
Fixpoint shard_steps (self : t) (batch : Batch A)
    (shards : list (gmap string (tensor A))) (stats : Statistics.t)
    (trace : list (autograd_call L))
  : list (autograd_call L) * Py.result Statistics.t :=
  match shards with
  | [] => (trace, Py.Ok stats)
  | s :: rest =>
      match shard_forward s with
      | Py.Raise e => (trace, Py.Raise e)
      | Py.Ok (loss_t, shard_stats) =>
          let stats' := Statistics.update stats shard_stats in
          let trace' :=
            if negb (eval self)
            then trace ++ [Backward loss_t (batchSize batch)]
            else trace in
          shard_steps self batch rest stats' trace'
      end
  end.

(** [MemoryEfficientLoss.loss(batch, outputs, attns)]: the statistics it
    returns and the backward calls it makes.  The gradients that
    [collectGrads] reads back from the runtime are not modelled. *)
Definition loss (self : t) (batch : Batch A)
    (outputs : tensor A) (attns : gmap string (tensor A))
  : list (autograd_call L) * Py.result Statistics.t :=
  match original self batch outputs attns with
  | Py.Raise e => ([], Py.Raise e)
  | Py.Ok vars =>
      match shardVariables vars (max_batches self) (eval self) with
      | Py.Raise e => ([], Py.Raise e)
      | Py.Ok (shards, _) =>
          shard_steps self batch shards Statistics.init []
      end
  end.

End loss.

End MemoryEfficientLoss.

End Loss.

(** ** [Trainer.py] *)

(** The class [Statistics] of [Trainer.py], the wall-clock field apart. *)
Module Statistics.

Record t : Type := mk {
  loss : float;
  n_words : Z;
  n_correct : Z;
  n_src_words : Z;
  n_mt_words : Z
}.

(** [Statistics()] with its default arguments. *)
Definition init : t := mk 0%float 0 0 0 0.

Definition update (self stat : t) : t :=
  mk (loss self + loss stat)%float
     (n_words self + n_words stat)
     (n_correct self + n_correct stat)
     (n_src_words self) (n_mt_words self).

Definition ppl (math_exp : float -> Py.result float) (self : t)
  : Py.result float :=
  Py.ppl_of math_exp (loss self) (n_words self).

(** [100 * (self.n_correct / self.n_words)], under true division. *)
Definition accuracy (self : t) : Py.result float :=
  match Py.int_truediv (n_correct self) (n_words self) with
  | Py.Raise e => Py.Raise e
  | Py.Ok q => Py.Ok (100 * q)%float
  end.

(** [self.loss / self.n_words]. *)
Definition xent (self : t) : Py.result float :=
  Py.truediv (loss self) (n_words self).

End Statistics.

(** The class [Trainer]. *)
Module Trainer.
Import Torch.

(** What the trainer asks of the model, the loss objects and the
    optimiser. *)
Inductive call (B : Type) : Type :=
| ModelTrain
| ModelEval
| ModelZeroGrad
| ModelForward (training : bool) (batch : B)
| MonolithicComputeLoss (batch : B)
| ShardedComputeLoss (batch : B) (normalization : Z)
| OptimStep.
Arguments ModelTrain {B}.
Arguments ModelEval {B}.
Arguments ModelZeroGrad {B}.
Arguments ModelForward {B} training batch.
Arguments MonolithicComputeLoss {B} batch.
Arguments ShardedComputeLoss {B} batch normalization.
Arguments OptimStep {B}.

(** The model's mode ([model.training]) and the calls made so far. *)
Record world (B : Type) : Type := mk_world {
  training : bool;
  log : list (call B)
}.
Arguments mk_world {B} training log.
Arguments training {B} w.
Arguments log {B} w.

Definition model_train {B : Type} (w : world B) : world B :=
  mk_world true (log w ++ [ModelTrain]).

Definition model_eval {B : Type} (w : world B) : world B :=
  mk_world false (log w ++ [ModelEval]).

Definition record {B : Type} (c : call B) (w : world B) : world B :=
  mk_world (training w) (log w ++ [c]).

(** The attributes [__init__] stores. *)
Record t : Type := mk {
  trunc_size : Z;
  shard_size : Z;
  data_type : string;
  norm_method : string;
  grad_accum_count : Z;
  progress_step : Z;
  elmo : bool
}.

(** [Trainer.__init__]: the two assertions, then [self.model.train()]. *)
Definition init {B : Type} (w : world B)
    (trunc_size shard_size : Z) (data_type norm_method : string)
    (grad_accum_count : Z) (elmo : bool)
  : world B * Py.result t :=
  if negb (0 <? grad_accum_count) then (w, Py.Raise Py.AssertionError)
  else if (1 <? grad_accum_count) && negb (trunc_size =? 0)
  then (w, Py.Raise Py.AssertionError)
  else (model_train w,
        Py.Ok (mk trunc_size shard_size data_type norm_method
                  grad_accum_count 0 elmo)).

(** [batch.tgt[1:].data.view(-1).ne(padding_idx).sum()] on a target of
    token ids, one row per time step. *)
Definition num_tokens (padding_idx : Z) (b : Loss.Batch (list Z)) : Z :=
  Z.of_nat (length (filter (fun x => x ≠ padding_idx)
                      (concat (data (slice_from (Loss.tgt b) 1))))).

(** What one batch adds to [normalization] in [train]. *)
Definition normalization_step (self : t) (padding_idx : Z)
    (normalization : Z) (b : Loss.Batch (list Z)) : Z :=
  if String.eqb (norm_method self) "tokens"
  then normalization + num_tokens padding_idx b
  else normalization + Loss.batch_size b.

(** The loop of [train] as far as the grouping goes: the calls
    [self._gradient_accumulation(true_batchs, ..., normalization)] it makes,
    in order, each with its batches and its normalization constant.
    [true_batchs], [accum] and [normalization] are the loop's variables. *)
Fixpoint train_loop (self : t) (padding_idx : Z)
    (train_iter true_batchs : list (Loss.Batch (list Z)))
    (accum normalization : Z)
  : list (list (Loss.Batch (list Z)) * Z) :=
  match train_iter with
  | [] =>
      match true_batchs with
      | [] => []
      | _ :: _ => [(true_batchs, normalization)]
      end
  | batch :: rest =>
      let true_batchs' := true_batchs ++ [batch] in
      let accum' := accum + 1 in
      let normalization' :=
        normalization_step self padding_idx normalization batch in
      if accum' =? grad_accum_count self
      then (true_batchs', normalization')
           :: train_loop self padding_idx rest [] 0 0
      else train_loop self padding_idx rest true_batchs' accum' normalization'
  end.

Definition train_groups (self : t) (padding_idx : Z)
    (train_iter : list (Loss.Batch (list Z)))
  : list (list (Loss.Batch (list Z)) * Z) :=
  train_loop self padding_idx train_iter [] 0 0.

Section validate.
Context {B Out : Type}.

(** [self.model(src, tgt, src_lengths, ...)] on the features of a batch and
    [self.valid_loss.monolithic_compute_loss(batch, outputs, attns)]; both
    may raise. *)
Variable model_forward : B -> Py.result Out.
Variable monolithic_compute_loss : B -> Out -> Py.result Statistics.t.

(** [for batch in valid_iter: ...]. *)
Fixpoint validate_loop (batches : list B) (stats : Statistics.t) (w : world B)
  : world B * Py.result Statistics.t :=
  match batches with
  | [] => (w, Py.Ok stats)
  | batch :: rest =>
      let w1 := record (ModelForward (training w) batch) w in
      match model_forward batch with
      | Py.Raise e => (w1, Py.Raise e)
      | Py.Ok outputs =>
          let w2 := record (MonolithicComputeLoss batch) w1 in
          match monolithic_compute_loss batch outputs with
          | Py.Raise e => (w2, Py.Raise e)
          | Py.Ok batch_stats =>
              validate_loop rest (Statistics.update stats batch_stats) w2
          end
      end
  end.

(** A batch whose forward pass and loss both return, and a batch on which
    one of the two raises [e]. *)
Definition batch_ok (b : B) (st : Statistics.t) : Prop :=
  exists out, model_forward b = Py.Ok out /\
              monolithic_compute_loss b out = Py.Ok st.

Definition batch_raises (b : B) (e : Py.exn) : Prop :=
  model_forward b = Py.Raise e \/
  exists out, model_forward b = Py.Ok out /\
              monolithic_compute_loss b out = Py.Raise e.

(** The calls of a complete pass over [batches] in evaluation mode, and the
    calls made on a batch up to the one that raises. *)
Definition eval_calls (batches : list B) : list (call B) :=
  flat_map (fun b => [ModelForward false b; MonolithicComputeLoss b]) batches.

Definition calls_until_raise (b : B) : list (call B) :=
  match model_forward b with
  | Py.Raise _ => [ModelForward false b]
  | Py.Ok _ => [ModelForward false b; MonolithicComputeLoss b]
  end.

(** [Trainer.validate(valid_iter)]. *)
Definition validate (valid_iter : list B) (w : world B)
  : world B * Py.result Statistics.t :=
  match validate_loop valid_iter Statistics.init (model_eval w) with
  | (w', Py.Raise e) => (w', Py.Raise e)
  | (w', Py.Ok stats) => (model_train w', Py.Ok stats)
  end.

End validate.

End Trainer.

(** ** Orders and sums used in the statements *)

(** The place of a float that is not NaN in the order: its class (the
    infinities, the negative and positive finite numbers, zero), then
    exponent and mantissa. *)
Definition sf_key (x : spec_float) : option (Z * Z * Z) :=
  match x with
  | S754_nan => None
  | S754_infinity true => Some (-2, 0, 0)
  | S754_infinity false => Some (2, 0, 0)
  | S754_zero _ => Some (0, 0, 0)
  | S754_finite false m e => Some (1, e, Zpos m)
  | S754_finite true m e => Some (-1, - e, Zneg m)
  end.

Definition key_lt (a b : Z * Z * Z) : Prop :=
  a.1.1 < b.1.1 \/
  (a.1.1 = b.1.1 /\ (a.1.2 < b.1.2 \/ (a.1.2 = b.1.2 /\ a.2 < b.2))).

(** The sum of an integer field over a list of statistics. *)
Definition total {S : Type} (field : S -> Z) (sts : list S) : Z :=
  foldr Z.add 0 (map field sts).

(** What one batch contributes to the normalization constant of
    [Trainer.train]. *)
Definition batch_norm (self : Trainer.t) (padding_idx : Z)
    (b : Loss.Batch (list Z)) : Z :=
  Trainer.normalization_step self padding_idx 0 b.

(** ** [Trainer._gradient_accumulation] *)

Module GradientAccumulation.

(** [range(start, stop, step)]: the list of its values, or the ValueError
    of a zero step. *)
Inductive range_result : Type :=
| RangeOk (values : list Z)
| RangeValueError.

Definition range_len (start stop step : Z) : Z :=
  if 0 <? step
  then (if start <? stop then (stop - start - 1) / step + 1 else 0)
  else (if stop <? start then (start - stop - 1) / (- step) + 1 else 0).

Definition py_range (start stop step : Z) : range_result :=
  if step =? 0 then RangeValueError
  else RangeOk (map (fun i : nat => start + Z.of_nat i * step)
                    (seq 0 (Z.to_nat (range_len start stop step)))).

(** What the method asks of the model, the loss object and the optimiser.
    [Forward b j stop carried] is the call of the model on
    [tgt_outer[j:stop]], with or without a decoder state carried over from
    the previous window; [ShardedLoss] carries the arguments of
    [sharded_compute_loss] after the outputs. *)
Inductive call (B : Type) : Type :=
| ZeroGrad
| Forward (batch : B) (j stop : Z) (carried : bool)
| ShardedLoss (batch : B) (cur_trunc trunc_size shard_size normalization : Z)
| Step
| Detach.
Arguments ZeroGrad {B}.
Arguments Forward {B} batch j stop carried.
Arguments ShardedLoss {B} batch cur_trunc trunc_size shard_size normalization.
Arguments Step {B}.
Arguments Detach {B}.

(** How a run ends: normally, with the exception of one of the calls, or
    with the ValueError of [range]. *)
Inductive outcome : Type :=
| Completed
| Raised (e : Py.exn)
| RaisedValueError.

(** The two statistics objects the method updates, which [train] passes as
    two distinct objects, and the calls made. *)
Record state (B : Type) : Type := mk_state {
  total_stats : Statistics.t;
  report_stats : Statistics.t;
  calls : list (call B)
}.
Arguments mk_state {B} total_stats report_stats calls.
Arguments total_stats {B} s.
Arguments report_stats {B} s.
Arguments calls {B} s.

Definition emit {B : Type} (c : call B) (st : state B) : state B :=
  mk_state (total_stats st) (report_stats st) (calls st ++ [c]).

Definition emit_if {B : Type} (cond : bool) (c : call B) (st : state B)
  : state B :=
  if cond then emit c st else st.

(** [report_stats.n_src_words += n]. *)
Definition add_src_words {B : Type} (n : Z) (st : state B) : state B :=
  let r := report_stats st in
  mk_state (total_stats st)
           (Statistics.mk (Statistics.loss r) (Statistics.n_words r)
              (Statistics.n_correct r) (Statistics.n_src_words r + n)
              (Statistics.n_mt_words r))
           (calls st).

(** [total_stats.update(batch_stats); report_stats.update(batch_stats)]. *)
Definition update_both {B : Type} (batch_stats : Statistics.t) (st : state B)
  : state B :=
  mk_state (Statistics.update (total_stats st) batch_stats)
           (Statistics.update (report_stats st) batch_stats)
           (calls st).

(** [x is not None]. *)
Definition is_not_None {T : Type} (x : option T) : bool :=
  match x with Some _ => true | None => false end.

(** A call that returns nothing and may raise: it is recorded, and its
    exception ends the run.  [returns] tells, from the calls made before
    it, whether it returns. *)
Definition effect {B : Type} (returns : list (call B) -> Py.result unit)
    (c : call B) (st : state B) : state B * outcome :=
  match returns (calls st) with
  | Py.Ok _ => (emit c st, Completed)
  | Py.Raise e => (emit c st, Raised e)
  end.

Definition effect_if {B : Type} (cond : bool)
    (returns : list (call B) -> Py.result unit) (c : call B) (st : state B)
  : state B * outcome :=
  if cond then effect returns c st else (st, Completed).

(** What follows a step is run only when the step completed. *)
Definition next {B : Type} (r : state B * outcome)
    (k : state B -> state B * outcome) : state B * outcome :=
  match r with
  | (st, Completed) => k st
  | (st, o) => (st, o)
  end.

Section accumulation.
Context {B S Out : Type}.

(** [batch.tgt.size(0)] and, for text data, [src_lengths.sum()]. *)
Variable target_size : B -> Z.
Variable src_lengths_sum : B -> Z.

(** [self.model(src, tgt_outer[j:stop], src_lengths, dec_state, ...)], which
    returns the outputs and the new decoder state, and
    [self.train_loss.sharded_compute_loss(batch, outputs, attns, j,
    trunc_size, shard_size, normalization)]; both may raise. *)
Variable model_forward :
  B -> Z -> Z -> option S -> Py.result (Out * option S).
Variable sharded_compute_loss :
  B -> Out -> Z -> Z -> Z -> Z -> Py.result Statistics.t.

(** [self.model.zero_grad()], [self.optim.step()] and [dec_state.detach()]:
    each may raise, depending on what happened before, given as the calls
    made so far. *)
Variable zero_grad : list (call B) -> Py.result unit.
Variable optim_step : list (call B) -> Py.result unit.
Variable detach : list (call B) -> Py.result unit.

(** The truncation in force for a batch: [self.trunc_size] unless it is
    zero. *)
Definition effective_trunc (self : Trainer.t) (batch : B) : Z :=
  if Trainer.trunc_size self =? 0 then target_size batch
  else Trainer.trunc_size self.

(** The windows [(j, j + trunc_size)] of a batch. *)
Definition windows (self : Trainer.t) (batch : B) : range_result :=
  py_range 0 (target_size batch - 1) (effective_trunc self batch).

(** The body of [for j in range(0, target_size-1, trunc_size)] up to the
    update of the statistics; [dec_state] is the decoder state the model
    returned. *)
Definition window_body (self : Trainer.t) (batch : B)
    (trunc_size normalization j : Z) (dec_state : option S) (st : state B)
  : state B * outcome * option S :=
  let once := Trainer.grad_accum_count self =? 1 in
  match effect_if once zero_grad ZeroGrad st with
  | (st1, Completed) =>
      let st2 :=
        emit (Forward batch j (j + trunc_size) (is_not_None dec_state)) st1 in
      match model_forward batch j (j + trunc_size) dec_state with
      | Py.Raise e => (st2, Raised e, dec_state)
      | Py.Ok (outputs, dec_state') =>
          let st3 :=
            emit (ShardedLoss batch j trunc_size (Trainer.shard_size self)
                    normalization) st2 in
          match sharded_compute_loss batch outputs j trunc_size
                  (Trainer.shard_size self) normalization with
          | Py.Raise e => (st3, Raised e, dec_state')
          | Py.Ok batch_stats =>
              match effect_if once optim_step Step st3 with
              | (st4, Completed) =>
                  let st5 := update_both batch_stats st4 in
                  (effect_if (is_not_None dec_state') detach Detach st5,
                   dec_state')
              | (st4, o) => (st4, o, dec_state')
              end
          end
      end
  | (st1, o) => (st1, o, dec_state)
  end.

(** [for j in range(0, target_size-1, trunc_size): ...]. *)
Fixpoint window_steps (self : Trainer.t) (batch : B)
    (trunc_size normalization : Z) (js : list Z) (dec_state : option S)
    (st : state B) : state B * outcome :=
  match js with
  | [] => (st, Completed)
  | j :: rest =>
      match window_body self batch trunc_size normalization j dec_state st
      with
      | (st', Completed, dec_state') =>
          window_steps self batch trunc_size normalization rest dec_state' st'
      | (st', o, _) => (st', o)
      end
  end.

(** [for batch in true_batchs: ...]. *)
Fixpoint batch_steps (self : Trainer.t) (normalization : Z)
    (true_batchs : list B) (st : state B) : state B * outcome :=
  match true_batchs with
  | [] => (st, Completed)
  | batch :: rest =>
      let trunc_size := effective_trunc self batch in
      let st1 :=
        if String.eqb (Trainer.data_type self) "text"
        then add_src_words (src_lengths_sum batch) st else st in
      match windows self batch with
      | RangeValueError => (st1, RaisedValueError)
      | RangeOk js =>
          next (window_steps self batch trunc_size normalization js None st1)
               (batch_steps self normalization rest)
      end
  end.

(** [Trainer._gradient_accumulation(true_batchs, total_stats, report_stats,
    normalization)]. *)
Definition _gradient_accumulation (self : Trainer.t) (true_batchs : list B)
    (total report : Statistics.t) (normalization : Z) : state B * outcome :=
  let many := 1 <? Trainer.grad_accum_count self in
  next (effect_if many zero_grad ZeroGrad (mk_state total report []))
       (fun st0 =>
          next (batch_steps self normalization true_batchs st0)
               (effect_if many optim_step Step)).

(** The number of windows of a batch. *)
Definition window_count (self : Trainer.t) (batch : B) : nat :=
  match windows self batch with
  | RangeOk js => length js
  | RangeValueError => 0%nat
  end.

(** The source words of a list of batches, counted for text data only. *)
Definition src_words (self : Trainer.t) (batches : list B) : Z :=
  if String.eqb (Trainer.data_type self) "text"
  then total src_lengths_sum batches else 0.

(** The number of windows of a list of batches. *)
Definition windows_total (self : Trainer.t) (batches : list B) : nat :=
  foldr Nat.add 0%nat (map (window_count self) batches).

End accumulation.

(** The number of calls of a kind in a trace. *)
Definition is_step {B : Type} (c : call B) : bool :=
  match c with Step => true | _ => false end.
Definition is_zero_grad {B : Type} (c : call B) : bool :=
  match c with ZeroGrad => true | _ => false end.
Definition is_forward {B : Type} (c : call B) : bool :=
  match c with Forward _ _ _ _ => true | _ => false end.
Definition is_sharded_loss {B : Type} (c : call B) : bool :=
  match c with ShardedLoss _ _ _ _ _ => true | _ => false end.

Definition count {B : Type} (kind : call B -> bool) (cs : list (call B)) : nat :=
  length (List.filter kind cs).

(** What a trace may contain for a trainer and a normalization constant:
    sharded losses with that constant only, and no [ZeroGrad] or [Step]
    inside the loops unless the accumulation count is 1. *)
Definition loop_call {B : Type} (self : Trainer.t) (normalization : Z)
    (c : call B)
  : Prop :=
  match c with
  | ShardedLoss _ _ _ sz nz => nz = normalization /\ sz = Trainer.shard_size self
  | ZeroGrad | Step => Trainer.grad_accum_count self = 1
  | _ => True
  end.

(** The same updates reach both statistics objects; only the report
    statistics count source words. *)
Definition same_updates {B : Type} (st st' : state B) : Prop :=
  Statistics.n_words (total_stats st') - Statistics.n_words (total_stats st)
  = Statistics.n_words (report_stats st') - Statistics.n_words (report_stats st)
  /\
  Statistics.n_correct (total_stats st') - Statistics.n_correct (total_stats st)
  = Statistics.n_correct (report_stats st')
    - Statistics.n_correct (report_stats st) /\
  Statistics.n_src_words (total_stats st') = Statistics.n_src_words (total_stats st).

(** [same_updates] with the source-word count unchanged too. *)
Definition same_stats {B : Type} (st st' : state B) : Prop :=
  same_updates st st' /\
  Statistics.n_src_words (report_stats st')
  = Statistics.n_src_words (report_stats st).

End GradientAccumulation.

(** ** [train.py] *)

Module Train.

(** [a % b] on integers. *)
Definition py_mod (a b : Z) : Py.result Z :=
  if b =? 0 then Py.Raise Py.ZeroDivisionError else Py.Ok (a mod b).

Section report_func.

(** [report_stats.output(...)] with the optional logging to the experiment
    server and to tensorboard: they print and send, and may raise. *)
Variable output : Statistics.t -> Py.result unit.

(** [report_func(epoch, batch, num_batches, progress_step, start_time, lr,
    report_stats)] for [opt.report_every]: the statistics it returns. *)
Definition report_func (report_every batch : Z) (report_stats : Statistics.t)
  : Py.result Statistics.t :=
  m1 ← py_mod batch report_every;
  m2 ← py_mod (-1) report_every;
  if m1 =? m2
  then _ ← output report_stats; Py.Ok Statistics.init
  else Py.Ok report_stats.

End report_func.

(** An example, as far as [batch_size_fn] looks at it, and the two globals
    the function keeps. *)
Record example : Type := mk_example {
  src : list Z;
  tgt : list Z
}.

Record globals : Type := mk_globals {
  max_src_in_batch : Z;
  max_tgt_in_batch : Z
}.

(** [batch_size_fn(new, count, sofar)] of [make_dataset_iter]: the globals
    after the call and the value returned. *)
Definition batch_size_fn (new : example) (count sofar : Z) (g : globals)
  : globals * Z :=
  let g1 := if count =? 1 then mk_globals 0 0 else g in
  let ms := Z.max (max_src_in_batch g1) (Z.of_nat (length (src new)) + 2) in
  let mt := Z.max (max_tgt_in_batch g1) (Z.of_nat (length (tgt new)) + 1) in
  let src_elements := count * ms in
  let tgt_elements := count * mt in
  (mk_globals ms mt, Z.max src_elements tgt_elements).

(** The calls made while a batch is filled: the examples one by one, with
    [count] the number of examples so far and [sofar] the previous value;
    the values returned, in order. *)
Fixpoint fill_batch (examples : list example) (count sofar : Z) (g : globals)
  : list Z :=
  match examples with
  | [] => []
  | new :: rest =>
      let '(g', size) := batch_size_fn new count sofar g in
      size :: fill_batch rest (count + 1) size g'
  end.

(** [sub in s] on strings. *)
Definition contains (sub s : string) : bool :=
  match String.index 0 sub s with
  | Some _ => true
  | None => false
  end.

(** The truth value of a string, and [a or b] where [a] is a string and
    [b] a boolean. *)
Definition truthy (s : string) : bool := negb (String.eqb s "").

Definition str_or_bool (a : string) (b : bool) : bool :=
  if truthy a then true else b.

(** [tally_parameters(model)] on [model.named_parameters()] given as names
    with their numbers of elements: the total and the two counters it
    prints. *)
Definition tally_step (acc : Z * Z) (p : string * Z) : Z * Z :=
  let '(enc, dec) := acc in
  let '(name, nelement) := p in
  if contains "encoder" name then (enc + nelement, dec)
  else if str_or_bool "decoder" (contains "generator" name)
       then (enc, dec + nelement)
       else (enc, dec).

Definition tally_parameters (named_parameters : list (string * Z))
  : Z * Z * Z :=
  let n_params := foldr Z.add 0 (map snd named_parameters) in
  let '(enc, dec) := foldl tally_step (0, 0) named_parameters in
  (n_params, enc, dec).

(** What [train_model] does per epoch with the plain trainer. *)
Inductive epoch_call : Type :=
| TrainEpoch (epoch : Z)
| Validate (epoch : Z)
| EpochStep (epoch : Z) (ppl : float)
| SaveBest (epoch : Z)
| DropCheckpoint (epoch : Z).

(** [opt.earlystop_tolerance] is [None] or an integer; the patience object
    exists when it is true, that is neither [None] nor 0. *)
Definition make_patience (earlystop_tolerance : option Z)
  : option EarlyStopping.t :=
  match earlystop_tolerance with
  | None => None
  | Some tol => if tol =? 0 then None else Some (EarlyStopping.init tol)
  end.

(** The epoch loop of [train_model] with the plain trainer
    ([use_simple_trainer]), over the epochs of [range(start_epoch,
    epochs + 1)]; [valid_ppl epoch] is the perplexity of the validation run
    of the epoch. *)
Fixpoint epoch_loop (start_checkpoint_at : Z) (valid_ppl : Z -> float)
    (epochs : list Z) (patience : option EarlyStopping.t)
  : list epoch_call * option EarlyStopping.t :=
  match epochs with
  | [] => ([], patience)
  | epoch :: rest =>
      let ppl := valid_ppl epoch in
      let head := [TrainEpoch epoch; Validate epoch; EpochStep epoch ppl] in
      let drop :=
        if start_checkpoint_at <=? epoch then [DropCheckpoint epoch] else [] in
      match patience with
      | None =>
          let '(calls, p) :=
            epoch_loop start_checkpoint_at valid_ppl rest None in
          (head ++ drop ++ calls, p)
      | Some p0 =>
          let save :=
            if EarlyStopping.saves_best p0 ppl then [SaveBest epoch] else [] in
          let p1 := EarlyStopping.call p0 ppl in
          if EarlyStopping.has_stopped p1
          then (head ++ save, Some p1)
          else
            let '(calls, p) :=
              epoch_loop start_checkpoint_at valid_ppl rest (Some p1) in
            (head ++ save ++ drop ++ calls, p)
      end
  end.

Definition train_model (earlystop_tolerance : option Z)
    (start_epoch last_epoch start_checkpoint_at : Z) (valid_ppl : Z -> float)
  : list epoch_call * option EarlyStopping.t :=
  epoch_loop start_checkpoint_at valid_ppl
    (map (fun i : nat => start_epoch + Z.of_nat i)
         (seq 0 (Z.to_nat (last_epoch + 1 - start_epoch))))
    (make_patience earlystop_tolerance).

(** The epochs trained, and the epochs for which a checkpoint was dropped,
    in a trace. *)
Definition trained (calls : list epoch_call) : list Z :=
  omap (fun c => match c with TrainEpoch e => Some e | _ => None end) calls.

Definition dropped (calls : list epoch_call) : list Z :=
  omap (fun c => match c with DropCheckpoint e => Some e | _ => None end) calls.

Definition saved (calls : list epoch_call) : list Z :=
  omap (fun c => match c with SaveBest e => Some e | _ => None end) calls.

(** The calls of an epoch that runs to its end without patience. *)
Definition plain_epoch (start_checkpoint_at : Z) (valid_ppl : Z -> float)
    (epoch : Z) : list epoch_call :=
  [TrainEpoch epoch; Validate epoch; EpochStep epoch (valid_ppl epoch)] ++
  (if start_checkpoint_at <=? epoch then [DropCheckpoint epoch] else []).

(** The widest padded source and target of a list of examples. *)
Definition widest_src (es : list example) : Z :=
  foldr (fun e m => Z.max m (Z.of_nat (length (src e)) + 2)) 0 es.
Definition widest_tgt (es : list example) : Z :=
  foldr (fun e m => Z.max m (Z.of_nat (length (tgt e)) + 1)) 0 es.

End Train.

(** ** The class [DatasetLazyIter] of [train.py] *)

Module DatasetLazyIter.

Section iterator.
Context {D B : Type}.

(** One pass over [onmt.io.OrderedIterator(dataset=d, ..., repeat=False)]:
    the batches it yields, and its [len], which may raise. *)
Variable batches_of : D -> list B.
Variable iter_len : D -> Py.result Z.

(** [self.datasets] is the generator [train.py] passes, seen as the datasets
    it has not produced yet; [cur_dataset] is unset until the first dataset
    is loaded; [cur_iter] is [None] or the iterator over a dataset. *)
Record t : Type := mk {
  datasets : list D;
  cur_dataset : option D;
  cur_iter : option D
}.

(** [self.cur_iter = self._next_dataset_iterator(it)] for an iterator [it]
    that draws from [self.datasets]. *)
Definition _next_dataset_iterator (self : t) : t :=
  match datasets self with
  | [] => mk [] (cur_dataset self) None
  | d :: rest => mk rest (Some d) (Some d)
  end.

(** [DatasetLazyIter(datasets, ...)]. *)
Definition init (ds : list D) : Py.result t :=
  let self := _next_dataset_iterator (mk ds None None) in
  match cur_iter self with
  | None => Py.Raise Py.AssertionError
  | Some _ => Py.Ok self
  end.

(** The batches of an iterator, each with what [get_cur_dataset()] returns
    while the generator is suspended at its [yield]. *)
Definition yields (self : t) (d : D) : list (B * option D) :=
  map (fun b => (b, cur_dataset self)) (batches_of d).

(** The loop [while self.cur_iter is not None] of [__iter__], run to its
    end, from the point where the current iterator is used up. *)
Fixpoint drain (rest : list D) (self : t) : list (B * option D) * t :=
  match rest with
  | [] => ([], _next_dataset_iterator self)
  | d :: rest' =>
      let self' := _next_dataset_iterator self in
      let '(ys, final) := drain rest' self' in
      (yields self' d ++ ys, final)
  end.

(** [list(iter(self))] with the current dataset seen at each batch, and the
    object afterwards. *)
Definition __iter__ (self : t) : list (B * option D) * t :=
  match cur_iter self with
  | None => ([], self)
  | Some d =>
      let '(ys, final) := drain (datasets self) self in
      (yields self d ++ ys, final)
  end.

(** [len(self)]. *)
Definition __len__ (self : t) : Py.result Z :=
  match cur_iter self with
  | None => Py.Raise Py.AssertionError
  | Some d => iter_len d
  end.

End iterator.

End DatasetLazyIter.

(** ** Concrete inputs *)

Module Examples.
Import Torch.

(** The scores of the patience scenario, and what is observed of a state. *)
Definition scenario_scores : list float :=
  [5%float; 4%float; 4.5%float; 4.5%float; 6%float].

Definition observed (s : EarlyStopping.t) : EarlyStopping.PatienceEnum * Z :=
  (EarlyStopping.status s, EarlyStopping.current_tolerance s).

(** Tensors that are not variables. *)
Definition plain (l : list Z) : tensor Z := mk_tensor l false false false.

Definition ids (l : list (list Z)) : tensor (list Z) :=
  mk_tensor l false false false.

(** Two sentences, target rows [2 2], [3 4], [5 0] with padding id 0: three
    tokens after the first row. *)
Definition example_batch : Loss.Batch (list Z) :=
  Loss.mk_Batch 2 2 (ids [[2; 2]; [3; 4]; [5; 0]]) (ids []).

Definition example_outputs : tensor (list Z) := ids [[10; 11]; [12; 13]].

(** A training loss with shards of width 1 and no optional term. *)
Definition example_loss : Loss.MemoryEfficientLoss.t :=
  Loss.MemoryEfficientLoss.mk false 1 false false false false.

(** A forward computation that gives every shard the loss 7. *)
Definition example_forward (s : gmap string (tensor (list Z)))
  : Py.result (Z * Loss.Statistics.t) :=
  Py.Ok (7, Loss.Statistics.init).

Definition example_trainer (norm_method : string) : Trainer.t :=
  Trainer.mk 0 32 "text" norm_method 1 0 false.

(** A model that fails on the batch 0 and a loss that always returns. *)
Definition failing_forward (b : Z) : Py.result Z :=
  if b =? 0 then Py.Raise Py.RuntimeError else Py.Ok b.

Definition constant_loss (b out : Z) : Py.result Statistics.t :=
  Py.Ok (Statistics.mk 1%float 1 1 0 0).

(** A stand-in for the library's exponential: (1 + x / 1024) ^ 1024. *)
Definition example_exp (x : float) : Py.result float :=
  let sq (y : float) := (y * y)%float in
  Py.Ok (sq (sq (sq (sq (sq (sq (sq (sq (sq (sq (1 + x / 1024)%float)))))))))).

(** A forward computation that fails when the shard's output is the row
    [12 13]. *)
Definition failing_shard_forward (s : gmap string (Torch.tensor (list Z)))
  : Py.result (Z * Loss.Statistics.t) :=
  match s !! "out_t"%string with
  | Some v =>
      if bool_decide (Torch.data v = [[12; 13]]) then Py.Raise Py.RuntimeError
      else Py.Ok (7, Loss.Statistics.init)
  | None => Py.Raise Py.KeyError
  end.

(** Batches that are their own target size, with 3 source words each; a
    model that always returns a decoder state, and a loss that counts one
    word. *)
Definition size_of (b : Z) : Z := b.
Definition three_words (b : Z) : Z := 3.
Definition steady_model (b j stop : Z) (dec_state : option unit)
  : Py.result (unit * option unit) := Py.Ok (tt, Some tt).
Definition one_word_loss (b : Z) (out : unit)
    (cur_trunc trunc_size shard_size normalization : Z)
  : Py.result Statistics.t := Py.Ok (Statistics.mk 1%float 1 1 0 0).

Definition truncating_trainer (grad_accum_count : Z) : Trainer.t :=
  Trainer.mk 4 32 "text" "sents" grad_accum_count 0 false.

(** A trainer that accumulates over 2 batches, without truncation as
    [__init__] requires; a model that fails on the batch 6; calls that
    always return, and one that always raises. *)
Definition accumulating_trainer : Trainer.t :=
  Trainer.mk 0 32 "text" "sents" 2 0 false.

Definition model_failing_on_6 (b j stop : Z) (dec_state : option unit)
  : Py.result (unit * option unit) :=
  if b =? 6 then Py.Raise Py.RuntimeError else Py.Ok (tt, Some tt).

Definition returns (before : list (GradientAccumulation.call Z))
  : Py.result unit := Py.Ok tt.

Definition raises (before : list (GradientAccumulation.call Z))
  : Py.result unit := Py.Raise Py.RuntimeError.

End Examples.

(** * Properties *)

(** ** Facts on float comparison *)

Section float_facts.

Lemma SFcompare_Eq_sym (x y : spec_float) :
  SFcompare x y = Some Eq -> SFcompare y x = Some Eq.
Proof.
  destruct x as [sx|sx| |sx mx ex], y as [sy|sy| |sy my ey]; simpl;
    try discriminate; try reflexivity;
    try (destruct sx; discriminate); try (destruct sy; discriminate);
    try (destruct sx, sy; (discriminate || reflexivity)).
  change (PosDef.Pos.compare_cont Eq mx my) with (Pos.compare mx my).
  change (PosDef.Pos.compare_cont Eq my mx) with (Pos.compare my mx).
  destruct sx, sy; try discriminate;
    (destruct (Z.compare_spec ex ey) as [He|He|He]; try discriminate;
     subst ey; rewrite Z.compare_refl;
     destruct (Pos.compare_spec mx my) as [Hm|Hm|Hm]; simpl; try discriminate;
     subst my; now rewrite Pos.compare_refl).
Qed.

(** Equal floats are on neither side of each other. *)
Lemma float_eq_not_lt (a b : float) :
  Py.float_eq a b = true ->
  Py.float_lt a b = false /\ Py.float_gt a b = false.
Proof.
  unfold Py.float_eq, Py.float_lt, Py.float_gt.
  rewrite FloatAxioms.eqb_spec, !FloatAxioms.ltb_spec. unfold SFeqb, SFltb.
  destruct (SFcompare (Prim2SF a) (Prim2SF b)) as [[ | | ]|] eqn:E;
    try discriminate.
  intros _. now rewrite (SFcompare_Eq_sym _ _ E).
Qed.

End float_facts.

(** ** The patience state machine *)

Section early_stopping.
Import EarlyStopping Examples.

Lemma status_stopped_tolerance (tol : Z) (s : t) :
  reachable tol s -> status s = STOPPED -> current_tolerance s <= 0.
Proof.
  induction 1 as [|s x Hs IH]; [discriminate|].
  unfold call.
  destruct (Py.float_lt x (best_score s)); simpl; [discriminate|].
  destruct (Py.float_gt x (best_score s));
    case_eq (0 <? current_tolerance s - 1);
    case_eq (0 <? current_tolerance s); intros H1 H2;
    rewrite ?H1, ?H2; try discriminate; intros _;
    apply Z.ltb_ge in H1 || apply Z.ltb_ge in H2; lia.
Qed.

Lemma call_tolerance (s : t) (x : float) : tolerance (call s x) = tolerance s.
Proof. unfold call. now destruct (Py.float_lt x (best_score s)). Qed.

Lemma call_inv (s : t) (x : float) :
  0 < tolerance s -> patience_inv (call s x).
Proof.
  intros Htol. unfold patience_inv, is_improving, has_stopped, call.
  destruct (Py.float_lt x (best_score s)); simpl.
  - split; [|reflexivity]. split; [discriminate|lia].
  - set (tol' := if Py.float_gt x (best_score s) then _ else _).
    destruct (0 <? tol') eqn:E; simpl.
    + apply Z.ltb_lt in E. split; [|reflexivity].
      split; [discriminate|lia].
    + apply Z.ltb_ge in E. split; [|reflexivity]. split; auto.
Qed.

(** C1 (as the code behaves): with tolerance 1 the scores
    5.0, 4.0, 4.5, 4.5, 6.0 give IMPROVING, IMPROVING, then STOPPED with
    0 tolerance left, STOPPED with -1 (the second 4.5 is again above the
    best score 4.0) and STOPPED with -2. *)
Theorem patience_scenario :
  map observed (feed (init 1) scenario_scores) =
  [(IMPROVING, 1); (IMPROVING, 1); (STOPPED, 0); (STOPPED, -1);
   (STOPPED, -2)].
Proof. vm_compute. reflexivity. Qed.

(** C1 as stated fails: the observed sequence is not IMPROVING, IMPROVING,
    DECREASING with 0 left, DECREASING with 0 left, STOPPED. *)
Lemma patience_scenario_not_as_stated :
  ~ (exists t5 : Z,
       map observed (feed (init 1) scenario_scores) =
       [(IMPROVING, 1); (IMPROVING, 1); (DECREASING, 0); (DECREASING, 0);
        (STOPPED, t5)]).
Proof. intros [t5 H]. vm_compute in H. discriminate H. Qed.

(** C2 (as the code behaves): from a reachable STOPPED state a call keeps
    STOPPED unless the score is strictly below the best score, in which
    case the machine is IMPROVING again with its tolerance reset. *)
Theorem stopped_unless_new_best (tol : Z) (s : t) (x : float) :
  reachable tol s -> status s = STOPPED ->
  if Py.float_lt x (best_score s)
  then status (call s x) = IMPROVING /\
       current_tolerance (call s x) = tolerance s
  else status (call s x) = STOPPED.
Proof.
  intros Hr Hs. pose proof (status_stopped_tolerance tol s Hr Hs) as Hle.
  unfold call. destruct (Py.float_lt x (best_score s)); simpl; [auto|].
  destruct (Py.float_gt x (best_score s)).
  - destruct (0 <? current_tolerance s - 1) eqn:E; [|reflexivity].
    apply Z.ltb_lt in E. lia.
  - destruct (0 <? current_tolerance s) eqn:E; [|reflexivity].
    apply Z.ltb_lt in E. lia.
Qed.

Lemma stopped_unless_new_best_witness :
  let s := call (call (init 1) 5%float) 6%float in
  reachable 1 s /\ status s = STOPPED /\
  status (call s 7%float) = STOPPED.
Proof.
  split; [do 2 constructor; constructor|].
  split; [reflexivity|].
  exact (stopped_unless_new_best 1 (call (call (init 1) 5%float) 6%float)
           7%float
           (reach_call 1 _ _ (reach_call 1 _ _ (reach_init 1)))
           eq_refl).
Defined.

(** C2 as stated fails: after 5.0 and 6.0 a machine with tolerance 1 is
    STOPPED, and the score 4.0 makes it IMPROVING. *)
Lemma stopped_not_terminal :
  ~ (forall (tol : Z) (s : t) (x : float),
       reachable tol s -> status s = STOPPED ->
       status (call s x) = STOPPED).
Proof.
  intros H.
  specialize (H 1 (call (call (init 1) 5%float) 6%float) 4%float
                (reach_call 1 _ _ (reach_call 1 _ _ (reach_init 1)))
                eq_refl).
  vm_compute in H. discriminate H.
Qed.

(** C3 (as the code behaves): a score equal to the best score leaves the
    remaining tolerance and the best score as they are, and sets the
    status to DECREASING when tolerance remains and to STOPPED
    otherwise. *)
Theorem equal_score (s : t) (x : float) :
  Py.float_eq x (best_score s) = true ->
  current_tolerance (call s x) = current_tolerance s /\
  best_score (call s x) = best_score s /\
  status (call s x) =
    if 0 <? current_tolerance s then DECREASING else STOPPED.
Proof.
  intros H. apply float_eq_not_lt in H as [Hlt Hgt].
  unfold call. rewrite Hlt, Hgt. simpl. auto.
Qed.

Lemma equal_score_witness :
  let s := call (init 1) 5%float in
  Py.float_eq 5%float (best_score s) = true /\
  current_tolerance (call s 5%float) = current_tolerance s /\
  best_score (call s 5%float) = best_score s /\
  status (call s 5%float) = DECREASING.
Proof.
  split; [reflexivity|].
  exact (equal_score (call (init 1) 5%float) 5%float eq_refl).
Defined.

(** C3 as stated fails: an IMPROVING machine fed its best score again
    becomes DECREASING. *)
Lemma equal_score_changes_status :
  ~ (forall (s : t) (x : float),
       Py.float_eq x (best_score s) = true ->
       current_tolerance (call s x) = current_tolerance s /\
       status (call s x) = status s).
Proof.
  intros H.
  destruct (H (call (init 1) 5%float) 5%float eq_refl) as [_ H2].
  vm_compute in H2. discriminate H2.
Qed.

(** C10: for a configured tolerance above 0, the invariant (STOPPED
    exactly when the remaining tolerance is at most 0, and is_improving
    and has_stopped never both true) holds after construction and after
    every call. *)
Theorem patience_invariant (tol : Z) :
  0 < tol ->
  patience_inv (init tol) /\
  (forall (s : t) (x : float),
     tolerance s = tol -> patience_inv s ->
     patience_inv (call s x) /\ tolerance (call s x) = tol) /\
  (forall s : t, reachable tol s -> patience_inv s).
Proof.
  intros Htol. split; [|split].
  - unfold patience_inv, init; simpl. split; [|reflexivity].
    split; [discriminate|lia].
  - intros s x Hs _. split; [apply call_inv; lia|].
    now rewrite call_tolerance.
  - intros s Hr.
    assert (tolerance s = tol /\ patience_inv s) as [_ H]; [|exact H].
    induction Hr as [|s x Hr [IH1 IH2]].
    + split; [reflexivity|]. unfold patience_inv, init; simpl.
      split; [|reflexivity]. split; [discriminate|lia].
    + split; [now rewrite call_tolerance|apply call_inv; lia].
Qed.

Lemma patience_invariant_witness :
  0 < 1 /\ patience_inv (init 1).
Proof.
  split; [lia|]. exact (proj1 (patience_invariant 1 eq_refl)).
Defined.

End early_stopping.

(** ** Sharding *)

Section sharding.
Import Torch Loss.
Context {A : Type}.
Implicit Types (t v : tensor A) (l : list A) (w n : nat).

Lemma num_chunks_bounds n w :
  (0 < w)%nat ->
  (n <= num_chunks n w * w)%nat /\
  (0 < n -> 0 < num_chunks n w /\ (num_chunks n w - 1) * w < n)%nat /\
  (n = 0 -> num_chunks n w = 0)%nat.
Proof.
  intros Hw. unfold num_chunks.
  pose proof (Nat.div_mod_eq (n + w - 1) w) as E.
  pose proof (Nat.mod_upper_bound (n + w - 1) w ltac:(lia)) as U.
  set (q := ((n + w - 1) / w)%nat) in *.
  set (r := ((n + w - 1) mod w)%nat) in *.
  repeat split; nia.
Qed.

Lemma num_splits_pos n w :
  (0 < n)%nat -> (0 < w)%nat -> num_splits n w = num_chunks n w.
Proof.
  intros Hn Hw. unfold num_splits.
  destruct (num_chunks_bounds n w Hw) as (_ & B & _).
  destruct (B Hn) as [B' _]. lia.
Qed.

Lemma num_splits_0 w : (0 < w)%nat -> num_splits 0 w = 1%nat.
Proof.
  intros Hw. unfold num_splits.
  destruct (num_chunks_bounds 0 w Hw) as (_ & _ & B).
  rewrite B by reflexivity. reflexivity.
Qed.

Lemma num_chunks_le_splits n w : (num_chunks n w <= num_splits n w)%nat.
Proof. unfold num_splits. lia. Qed.

Lemma split_chunks t (split_size : Z) :
  0 < split_size ->
  split t split_size =
  Py.Ok (map (fun i => chunk (Z.to_nat split_size) i t)
             (seq 0 (num_splits (length (data t)) (Z.to_nat split_size)))).
Proof.
  intros Hw. unfold split.
  destruct (split_size <? 0) eqn:E; [apply Z.ltb_lt in E; lia|].
  destruct (split_size =? 0) eqn:E0; [apply Z.eqb_eq in E0; lia|].
  cbn [andb].
  fold (num_chunks (length (data t)) (Z.to_nat split_size)).
  fold (num_splits (length (data t)) (Z.to_nat split_size)).
  f_equal. apply map_ext_in. intros i Hi. apply in_seq in Hi.
  set (w := Z.to_nat split_size) in *.
  assert (Hw' : (0 < w)%nat) by (unfold w; lia).
  destruct (num_chunks_bounds (length (data t)) w Hw') as (B1 & B2 & B3).
  unfold narrow, chunk. f_equal.
  destruct (length (data t)) as [|n'] eqn:En.
  - rewrite num_splits_0 in * by exact Hw'.
    assert (i = 0)%nat as -> by lia. simpl.
    apply length_zero_iff_nil in En. rewrite En, drop_nil, !take_nil.
    reflexivity.
  - rewrite num_splits_pos in * by lia.
    set (N := num_chunks (S n') w) in *.
    destruct (i <? N - 1)%nat eqn:Ei; [reflexivity|].
    apply Nat.ltb_ge in Ei.
    assert (i = N - 1)%nat as -> by lia.
    destruct (B2 ltac:(lia)) as [B4 B5].
    rewrite !take_ge; [reflexivity| |]; rewrite length_drop; nia.
Qed.

Lemma concat_chunks l w m :
  concat (map (fun i => take w (drop (i * w) l)) (seq 0 m)) = take (m * w) l.
Proof.
  induction m as [|m IH]; [reflexivity|].
  rewrite seq_S, map_app, concat_app, IH. simpl.
  rewrite app_nil_r.
  rewrite take_take_drop. f_equal. lia.
Qed.


Lemma cat_chunks t w :
  (0 < w)%nat ->
  cat_data (map (fun i => chunk w i t) (seq 0 (num_chunks (length (data t)) w)))
  = data t.
Proof.
  intros Hw. unfold cat_data. rewrite map_map. simpl.
  rewrite concat_chunks. apply take_ge.
  destruct (num_chunks_bounds (length (data t)) w Hw) as [B _]. lia.
Qed.

Lemma cat_splits t w :
  (0 < w)%nat ->
  cat_data (map (fun i => chunk w i t) (seq 0 (num_splits (length (data t)) w)))
  = data t.
Proof.
  intros Hw. unfold cat_data. rewrite map_map. simpl.
  rewrite concat_chunks. apply take_ge.
  destruct (num_chunks_bounds (length (data t)) w Hw) as [B _].
  pose proof (num_chunks_le_splits (length (data t)) w). nia.
Qed.

Lemma n_shards_num_chunks t (batches : Z) :
  0 < batches ->
  Z.to_nat ((size0 t - 1) / batches + 1) =
  num_chunks (length (data t)) (Z.to_nat batches).
Proof.
  intros Hw. unfold size0.
  assert (Hw' : (0 < Z.to_nat batches)%nat) by lia.
  destruct (num_chunks_bounds (length (data t)) (Z.to_nat batches) Hw')
    as (B1 & B2 & B3).
  set (N := num_chunks (length (data t)) (Z.to_nat batches)) in *.
  set (n := length (data t)) in *.
  pose proof (Z.div_mod (Z.of_nat n - 1) batches ltac:(lia)) as E.
  pose proof (Z.mod_pos_bound (Z.of_nat n - 1) batches Hw) as U.
  set (q := (Z.of_nat n - 1) / batches) in *.
  set (r := (Z.of_nat n - 1) mod batches) in *.
  destruct n as [|n'].
  - rewrite B3 by reflexivity. assert (q = -1) by nia. lia.
  - destruct (B2 ltac:(lia)) as [B4 B5].
    assert (q = Z.of_nat N - 1) by nia. lia.
Qed.

Lemma store_splits_ok (k : string) (splits : list (tensor A)) :
  forall (i : nat) (shards : list (gmap string (tensor A))),
  (i + length splits <= length shards)%nat ->
  exists shards',
    store_splits k i splits shards = Py.Ok shards' /\
    length shards' = length shards /\
    (forall j, (j < i \/ i + length splits <= j)%nat ->
               shards' !! j = shards !! j) /\
    (forall j v s, splits !! j = Some v -> shards !! (i + j)%nat = Some s ->
                   shards' !! (i + j)%nat = Some (<[k := v]> s)).
Proof.
  induction splits as [|v rest IH]; intros i shards Hlen; simpl in *.
  - exists shards. repeat split; auto. intros j v s H. discriminate.
  - destruct (shards !! i) as [s|] eqn:Es.
    2:{ apply lookup_ge_None in Es. lia. }
    destruct (IH (S i) (<[i := <[k := v]> s]> shards)) as (sh & E & L & P1 & P2).
    { rewrite length_insert. lia. }
    exists sh. split; [exact E|]. rewrite length_insert in L.
    split; [exact L|]. split.
    + intros j Hj. rewrite P1 by lia.
      apply list_lookup_insert_ne. lia.
    + intros [|j] v' s' Hv Hs; simpl in Hv.
      * injection Hv as <-. rewrite Nat.add_0_r in *.
        rewrite P1 by lia. rewrite Es in Hs. injection Hs as <-.
        apply list_lookup_insert_eq. apply lookup_lt_Some in Es. lia.
      * replace (i + S j)%nat with (S i + j)%nat in * by lia.
        apply (P2 j v' s' Hv).
        rewrite list_lookup_insert_ne by lia. exact Hs.
Qed.

Lemma store_splits_fail (k : string) (splits : list (tensor A)) :
  forall (i : nat) (shards : list (gmap string (tensor A))),
  (i <= length shards < i + length splits)%nat ->
  store_splits k i splits shards = Py.Raise Py.IndexError.
Proof.
  induction splits as [|v rest IH]; intros i shards Hlen; simpl in *; [lia|].
  destruct (shards !! i) as [s|] eqn:Es; [|reflexivity].
  apply lookup_lt_Some in Es.
  apply IH. rewrite length_insert. lia.
Qed.


Lemma dummy_data v (eval : bool) : data (dummy v eval) = data v.
Proof. unfold dummy. now destruct (is_variable v && requires_grad v). Qed.

(** What the loop leaves in the shards when no tensor has more chunks than
    there are shards. *)
Lemma shard_loop_ok (batches : Z) (eval : bool)
    (variables : list (string * tensor A)) :
  0 < batches ->
  NoDup variables.*1 ->
  forall (shards : list (gmap string (tensor A)))
         (dummies : gmap string (tensor A)),
  Forall (fun kt => (num_splits (length (data kt.2)) (Z.to_nat batches)
                     <= length shards)%nat) variables ->
  exists shards' dummies',
    shard_loop variables batches eval shards dummies = Py.Ok (shards', dummies') /\
    length shards' = length shards /\
    (forall k t, (k, t) ∈ variables ->
       forall j s0 s', shards !! j = Some s0 -> shards' !! j = Some s' ->
       s' !! k =
       if decide (j < num_splits (length (data t)) (Z.to_nat batches))%nat
       then Some (chunk (Z.to_nat batches) j (dummy t eval))
       else s0 !! k) /\
    (forall k, k ∉ variables.*1 ->
       forall j s0 s', shards !! j = Some s0 -> shards' !! j = Some s' ->
       s' !! k = s0 !! k).
Proof.
  intros Hw. induction variables as [|[k v] rest IH];
    intros Hnd shards dummies Hall; simpl.
  - exists shards, dummies. repeat split; auto.
    + intros k t Hin. inversion Hin.
    + intros k _ j s0 s' H0 H'. congruence.
  - simpl in Hnd. apply NoDup_cons in Hnd as [Hk Hnd].
    apply Forall_cons in Hall as [Hv Hall]. simpl in Hv.
    rewrite split_chunks by exact Hw. simpl.
    rewrite dummy_data.
    set (w := Z.to_nat batches) in *.
    set (Nk := num_splits (length (data v)) w) in *.
    set (splits := map (fun i => chunk w i (dummy v eval)) (seq 0 Nk)).
    assert (Hls : length splits = Nk)
      by (unfold splits; now rewrite length_map, length_seq).
    destruct (store_splits_ok k splits 0 shards) as (sh1 & E1 & L1 & P1 & P2).
    { simpl. lia. }
    rewrite E1. simpl.
    destruct (IH Hnd sh1 (<[k := dummy v eval]> dummies))
      as (sh2 & d2 & E2 & L2 & Pa & Pb).
    { rewrite L1. exact Hall. }
    exists sh2, d2. split; [exact E2|]. split; [congruence|].
    assert (Hs1 : forall j s0, shards !! j = Some s0 ->
              exists s1, sh1 !! j = Some s1 /\
                s1 !! k = (if decide (j < Nk)%nat
                           then Some (chunk w j (dummy v eval)) else s0 !! k) /\
                forall k', k' <> k -> s1 !! k' = s0 !! k').
    { intros j s0 H0. destruct (decide (j < Nk)%nat) as [Hj|Hj].
      - assert (splits !! j = Some (chunk w j (dummy v eval))) as Hsp.
        { unfold splits. rewrite list_lookup_fmap.
          rewrite lookup_seq_lt by exact Hj. reflexivity. }
        pose proof (P2 j _ s0 Hsp H0) as H1. simpl in H1.
        eexists. split; [exact H1|]. split.
        + apply lookup_insert_eq.
        + intros k' Hk'. now apply lookup_insert_ne.
      - exists s0. rewrite P1 by lia. auto. }
    split.
    + intros k' t Hin j s0 s' H0 H'.
      destruct (Hs1 j s0 H0) as (s1 & H1 & Hk1 & Hother).
      apply elem_of_cons in Hin as [Heq|Hin].
      * injection Heq as -> ->.
        rewrite (Pb k Hk j s1 s' H1 H'). exact Hk1.
      * rewrite (Pa k' t Hin j s1 s' H1 H').
        assert (k' <> k) as Hne.
        { intros ->. apply Hk. apply list_elem_of_fmap.
          exists (k, t). auto. }
        now rewrite (Hother k' Hne).
    + intros k' Hk' j s0 s' H0 H'.
      destruct (Hs1 j s0 H0) as (s1 & H1 & Hk1 & Hother).
      apply not_elem_of_cons in Hk' as [Hne Hk'].
      rewrite (Pb k' Hk' j s1 s' H1 H'). now apply Hother.
Qed.

(** A tensor with more chunks than there are shards stops the loop. *)
Lemma shard_loop_fail (batches : Z) (eval : bool)
    (variables : list (string * tensor A)) :
  0 < batches ->
  forall (shards : list (gmap string (tensor A)))
         (dummies : gmap string (tensor A)),
  Exists (fun kt => (length shards <
                     num_splits (length (data kt.2)) (Z.to_nat batches))%nat)
         variables ->
  shard_loop variables batches eval shards dummies = Py.Raise Py.IndexError.
Proof.
  intros Hw. induction variables as [|[k v] rest IH];
    intros shards dummies Hex; [inversion Hex|].
  simpl. rewrite split_chunks by exact Hw. simpl. rewrite dummy_data.
  set (w := Z.to_nat batches) in *.
  set (Nk := num_splits (length (data v)) w) in *.
  set (splits := map (fun i => chunk w i (dummy v eval)) (seq 0 Nk)).
  assert (Hls : length splits = Nk)
    by (unfold splits; now rewrite length_map, length_seq).
  destruct (decide (length shards < Nk)%nat) as [Hlt|Hge].
  - rewrite (store_splits_fail k splits 0 shards) by (simpl; lia).
    reflexivity.
  - destruct (store_splits_ok k splits 0 shards) as (sh1 & E1 & L1 & _).
    { simpl. lia. }
    rewrite E1. simpl. apply IH. rewrite L1.
    apply Exists_cons in Hex as [Hex|Hex]; [destruct (Hge Hex)|exact Hex].
Qed.

Lemma omap_column (k : string) (f : nat -> tensor A)
    (shards : list (gmap string (tensor A))) :
  forall off : nat,
  (forall j s, shards !! j = Some s -> s !! k = Some (f (off + j)%nat)) ->
  omap (fun s : gmap string (tensor A) => s !! k) shards =
  map f (seq off (length shards)).
Proof.
  induction shards as [|s rest IH]; intros off H; [reflexivity|].
  simpl. rewrite (H 0%nat s eq_refl), Nat.add_0_r. f_equal.
  apply IH. intros j s' Hj.
  rewrite (H (S j) s' Hj). do 2 f_equal. lia.
Qed.


(** C7: for a non-empty variable set (a dictionary: no key twice) whose
    tensors all have extent [n >= 1] along dimension 0 and a width [w > 0],
    [shardVariables] returns exactly ceil(n / w) shards (the count [c] with
    [w * (c - 1) < n <= w * c]); shard [j] holds, for every tensor, the
    contiguous slice that starts at [j * w] and is [min w (n - j * w)] wide
    (the last one possibly narrower); and the shards of every tensor,
    concatenated in order, give the tensor's contents back. *)
Theorem shardVariables_partition (variables : list (string * tensor A))
    (n w : Z) (eval : bool) :
  variables <> [] ->
  NoDup variables.*1 ->
  1 <= n -> 0 < w ->
  Forall (fun kt => size0 kt.2 = n) variables ->
  exists shards dummies,
    shardVariables variables w eval = Py.Ok (shards, dummies) /\
    w * (Z.of_nat (length shards) - 1) < n <= w * Z.of_nat (length shards) /\
    forall k t, (k, t) ∈ variables ->
      (forall j s, shards !! j = Some s ->
         exists v, s !! k = Some v /\
           data v = take (Z.to_nat w) (drop (j * Z.to_nat w) (data t)) /\
           size0 v = Z.min w (n - Z.of_nat j * w)) /\
      cat_data (shard_column k shards) = data t.
Proof.
  intros Hne Hnd Hn Hw Hall.
  destruct variables as [|[k1 t1] rest]; [congruence|].
  unfold shardVariables.
  destruct (w =? 0) eqn:Ew; [apply Z.eqb_eq in Ew; lia|].
  rewrite n_shards_num_chunks by exact Hw.
  set (w' := Z.to_nat w) in *.
  assert (Hw' : (0 < w')%nat) by (unfold w'; lia).
  assert (Hlen : forall k t, (k, t) ∈ (k1, t1) :: rest ->
                   length (data t) = Z.to_nat n).
  { intros k t Hin. rewrite Forall_forall in Hall.
    specialize (Hall _ Hin). unfold size0 in Hall. simpl in Hall. lia. }
  rewrite (Hlen k1 t1) by apply list_elem_of_here.
  set (N := num_chunks (Z.to_nat n) w').
  destruct (num_chunks_bounds (Z.to_nat n) w' Hw') as (B1 & B2 & _).
  destruct (B2 ltac:(lia)) as [B3 B4]. fold N in B1, B3, B4.
  destruct (shard_loop_ok w eval ((k1, t1) :: rest) Hw Hnd
              (replicate N ∅) ∅) as (sh & d & E & L & Pa & _).
  { rewrite length_replicate. apply Forall_forall. intros [k t] Hin.
    simpl. rewrite (Hlen k t Hin). fold w'.
    rewrite num_splits_pos by lia. fold N. lia. }
  rewrite length_replicate in L.
  exists sh, d. split; [exact E|]. split; [rewrite L; unfold w' in *; nia|].
  intros k t Hin.
  assert (Hcol : forall j s, sh !! j = Some s ->
            s !! k = Some (chunk w' j (dummy t eval))).
  { intros j s Hs. pose proof (lookup_lt_Some _ _ _ Hs) as Hj.
    rewrite L in Hj.
    rewrite (Pa k t Hin j ∅ s); [|now apply lookup_replicate_2|exact Hs].
    rewrite (Hlen k t Hin). fold w'. rewrite num_splits_pos by lia. fold N.
    now rewrite decide_True by exact Hj. }
  split.
  - intros j s Hs. pose proof (lookup_lt_Some _ _ _ Hs) as Hj.
    rewrite L in Hj.
    exists (chunk w' j (dummy t eval)). split; [now apply Hcol|].
    simpl. rewrite dummy_data. split; [reflexivity|].
    unfold size0. simpl. rewrite dummy_data, length_take, length_drop.
    rewrite (Hlen k t Hin). unfold w' in *. nia.
  - unfold shard_column.
    rewrite (omap_column k (fun j => chunk w' j (dummy t eval)) sh 0%nat)
      by (intros j s Hs; now apply Hcol).
    rewrite L. unfold N. rewrite <- (Hlen k t Hin), <- (dummy_data t eval).
    rewrite cat_chunks by exact Hw'. reflexivity.
Qed.

(** C5 (as the code behaves): [shardVariables] does not compare extents.
    The number of shards comes from the first tensor; a tensor that splits
    into more chunks than that (a later one that is longer, or any tensor
    without slices when the first one has none, since [split] still gives
    one empty chunk) fails with IndexError when its chunks are stored; when
    no tensor splits into more chunks the call returns, also when extents
    differ, and the shards past a tensor's last chunk have no entry for
    it. *)
Theorem shardVariables_extents (k1 : string) (t1 : tensor A)
    (rest : list (string * tensor A)) (w : Z) (eval : bool) :
  0 < w ->
  (Exists (fun kt => (num_chunks (length (data t1)) (Z.to_nat w) <
                      num_splits (length (data kt.2)) (Z.to_nat w))%nat)
          ((k1, t1) :: rest) ->
   shardVariables ((k1, t1) :: rest) w eval = Py.Raise Py.IndexError) /\
  (NoDup ((k1, t1) :: rest).*1 ->
   Forall (fun kt => (num_splits (length (data kt.2)) (Z.to_nat w) <=
                      num_chunks (length (data t1)) (Z.to_nat w))%nat)
          ((k1, t1) :: rest) ->
   exists shards dummies,
     shardVariables ((k1, t1) :: rest) w eval = Py.Ok (shards, dummies) /\
     length shards = num_chunks (length (data t1)) (Z.to_nat w) /\
     forall k t, (k, t) ∈ (k1, t1) :: rest ->
       forall j s, shards !! j = Some s ->
         s !! k =
         if decide (j < num_splits (length (data t)) (Z.to_nat w))%nat
         then Some (chunk (Z.to_nat w) j (dummy t eval))
         else None).
Proof.
  intros Hw. unfold shardVariables.
  destruct (w =? 0) eqn:Ew; [apply Z.eqb_eq in Ew; lia|].
  rewrite n_shards_num_chunks by exact Hw.
  set (N := num_chunks (length (data t1)) (Z.to_nat w)).
  split.
  - intros Hex. apply shard_loop_fail; [exact Hw|].
    rewrite length_replicate. exact Hex.
  - intros Hnd Hall.
    destruct (shard_loop_ok w eval ((k1, t1) :: rest) Hw Hnd
                (replicate N ∅) ∅) as (sh & d & E & L & Pa & _).
    { rewrite length_replicate. exact Hall. }
    rewrite length_replicate in L.
    exists sh, d. split; [exact E|]. split; [exact L|].
    intros k t Hin j s Hs. pose proof (lookup_lt_Some _ _ _ Hs) as Hj.
    rewrite L in Hj.
    rewrite (Pa k t Hin j ∅ s); [|now apply lookup_replicate_2|exact Hs].
    now rewrite lookup_empty.
Qed.

End sharding.

Section sharding_examples.
Import Torch Loss Examples.

Lemma shardVariables_partition_witness :
  exists shards dummies,
    shardVariables [("out_t"%string, plain [1; 2; 3]);
                    ("targ_t"%string, plain [7; 8; 9])] 2 false
      = Py.Ok (shards, dummies) /\
    2 * (Z.of_nat (length shards) - 1) < 3 <= 2 * Z.of_nat (length shards) /\
    forall k t,
      (k, t) ∈ [("out_t"%string, plain [1; 2; 3]);
                ("targ_t"%string, plain [7; 8; 9])] ->
      (forall j s, shards !! j = Some s ->
         exists v, s !! k = Some v /\
           data v = take (Z.to_nat 2) (drop (j * Z.to_nat 2) (data t)) /\
           size0 v = Z.min 2 (3 - Z.of_nat j * 2)) /\
      cat_data (shard_column k shards) = data t.
Proof.
  apply (shardVariables_partition
           [("out_t"%string, plain [1; 2; 3]);
            ("targ_t"%string, plain [7; 8; 9])] 3 2 false).
  - discriminate.
  - simpl. apply NoDup_cons. split; [|apply NoDup_singleton].
    intros H. apply list_elem_of_singleton in H. discriminate H.
  - lia.
  - lia.
  - repeat constructor.
Defined.

Lemma shardVariables_extents_witness :
  0 < 1 /\
  shardVariables [("out_t"%string, plain [1]);
                  ("targ_t"%string, plain [7; 8; 9])] 1 false
  = Py.Raise Py.IndexError.
Proof.
  split; [lia|].
  apply (proj1 (shardVariables_extents "out_t" (plain [1])
                  [("targ_t"%string, plain [7; 8; 9])] 1 false eq_refl)).
  apply Exists_cons_tl, Exists_cons_hd. vm_compute. lia.
Defined.

(** C5 as stated fails: a variable set with extents 2 and 1 is not
    rejected. *)
Lemma shardVariables_accepts_mismatch :
  ~ (forall (variables : list (string * tensor Z)) (w : Z) (eval : bool),
       0 < w ->
       (exists kt kt', kt ∈ variables /\ kt' ∈ variables /\
                       size0 kt.2 <> size0 kt'.2) ->
       exists e, shardVariables variables w eval = Py.Raise e).
Proof.
  intros H.
  destruct (H [("out_t"%string, plain [1; 2]); ("targ_t"%string, plain [7])]
              1 false eq_refl) as [e He].
  - exists ("out_t"%string, plain [1; 2]), ("targ_t"%string, plain [7]).
    split; [apply list_elem_of_here|].
    split; [apply list_elem_of_further, list_elem_of_here|].
    vm_compute. discriminate.
  - vm_compute in He. discriminate He.
Qed.

(** What the call returns there: two shards, the second without the
    shorter tensor. *)
Example shardVariables_mismatch_result :
  (fun r => match r with
            | Py.Ok (shards, _) =>
                Some (map (fun s : gmap string (tensor Z) =>
                             (data <$> s !! "out_t", data <$> s !! "targ_t"))
                          shards)
            | Py.Raise _ => None
            end)
    (shardVariables [("out_t"%string, plain [1; 2]);
                     ("targ_t"%string, plain [7])] 1 false)
  = Some [(Some [1], Some [7]); (Some [2], None)].
Proof. vm_compute. reflexivity. Qed.

(** A first tensor without slices gives no shard, and its one empty chunk
    has nowhere to go. *)
Example shardVariables_empty_first :
  shardVariables [("out_t"%string, plain []); ("targ_t"%string, plain [])]
    2 false
  = Py.Raise Py.IndexError.
Proof. vm_compute. reflexivity. Qed.

(** A later tensor without slices leaves its empty chunk in the first
    shard. *)
Example shardVariables_empty_later :
  (fun r => match r with
            | Py.Ok (shards, _) =>
                Some (map (fun s : gmap string (tensor Z) =>
                             (data <$> s !! "out_t", data <$> s !! "targ_t"))
                          shards)
            | Py.Raise _ => None
            end)
    (shardVariables [("out_t"%string, plain [1; 2; 3]);
                     ("targ_t"%string, plain [])] 2 false)
  = Some [(Some [1; 2], Some []); (Some [3], None)].
Proof. vm_compute. reflexivity. Qed.

End sharding_examples.

(** ** The sharded loss *)

Section loss_facts.
Import Torch Loss Loss.MemoryEfficientLoss.
Context {A L : Type}.
Variable shard_forward :
  gmap string (tensor A) -> Py.result (L * Loss.Statistics.t).

Lemma shard_steps_ok (self : t) (batch : Batch A)
    (shards : list (gmap string (tensor A)))
    (results : list (L * Loss.Statistics.t)) :
  Forall2 (fun s r => shard_forward s = Py.Ok r) shards results ->
  forall (stats : Loss.Statistics.t) (trace : list (autograd_call L)),
  shard_steps shard_forward self batch shards stats trace =
  (trace ++ (if eval self then []
             else map (fun r => Backward r.1 (batchSize batch)) results),
   Py.Ok (foldl Loss.Statistics.update stats results.*2)).
Proof.
  induction 1 as [|s r shards results Hs _ IH]; intros stats trace; simpl.
  - now destruct (eval self); rewrite app_nil_r.
  - rewrite Hs. destruct r as [loss_t shard_stats]. rewrite IH. simpl.
    destruct (eval self); simpl; [reflexivity|].
    now rewrite <- app_assoc.
Qed.

(** C4 (as the code behaves): when not in evaluation mode,
    [MemoryEfficientLoss.loss] makes one backward call per shard, in order,
    each on the shard's loss divided by the batch's sentence count
    [batch.batchSize]; no normalization constant is passed in and no
    normalization method is consulted. *)
Theorem loss_divides_by_batchSize (self : t) (batch : Batch A)
    (outputs : tensor A) (attns : gmap string (tensor A))
    (vars : list (string * tensor A))
    (shards : list (gmap string (tensor A)))
    (dummies : gmap string (tensor A))
    (results : list (L * Loss.Statistics.t)) :
  eval self = false ->
  original self batch outputs attns = Py.Ok vars ->
  shardVariables vars (max_batches self) (eval self) = Py.Ok (shards, dummies) ->
  Forall2 (fun s r => shard_forward s = Py.Ok r) shards results ->
  loss shard_forward self batch outputs attns =
  (map (fun r => Backward r.1 (batchSize batch)) results,
   Py.Ok (foldl Loss.Statistics.update Loss.Statistics.init results.*2)).
Proof.
  intros He Ho Hs Hf. unfold loss. rewrite Ho, Hs.
  rewrite (shard_steps_ok self batch shards results Hf). now rewrite He.
Qed.

End loss_facts.

Section loss_examples.
Import Torch Loss Loss.MemoryEfficientLoss Examples.

(** Without accumulation every batch is a group of its own, and the
    constant [train] passes on is that batch's sentence or token count. *)
Lemma train_groups_single (self : Trainer.t) (padding_idx : Z)
    (train_iter : list (Batch (list Z))) :
  Trainer.grad_accum_count self = 1 ->
  Trainer.train_groups self padding_idx train_iter =
  map (fun b => ([b], Trainer.normalization_step self padding_idx 0 b))
      train_iter.
Proof.
  intros H1. unfold Trainer.train_groups.
  induction train_iter as [|b rest IH]; [reflexivity|].
  simpl. rewrite H1. simpl. now rewrite IH.
Qed.

Example train_groups_tokens :
  Trainer.train_groups (example_trainer "tokens") 0 [example_batch]
  = [([example_batch], 3)].
Proof. vm_compute. reflexivity. Qed.

Example train_groups_sents :
  Trainer.train_groups (example_trainer "sents") 0 [example_batch]
  = [([example_batch], 2)].
Proof. vm_compute. reflexivity. Qed.

Lemma loss_divides_by_batchSize_witness :
  eval example_loss = false /\
  loss example_forward example_loss example_batch example_outputs ∅ =
  ([Backward 7 2; Backward 7 2],
   Py.Ok (foldl Loss.Statistics.update Loss.Statistics.init
            [Loss.Statistics.init; Loss.Statistics.init])).
Proof.
  split; [reflexivity|].
  destruct (shardVariables
              [("out_t"%string, example_outputs);
               ("targ_t"%string, slice_from (tgt example_batch) 1)] 1 false)
    as [[shards dummies]|e] eqn:E; [|vm_compute in E; discriminate E].
  refine (loss_divides_by_batchSize example_forward example_loss example_batch
           example_outputs ∅ _ shards dummies
           [(7, Loss.Statistics.init); (7, Loss.Statistics.init)]
           eq_refl eq_refl E _).
  assert (length shards = 2%nat) as Hl.
  { vm_compute in E. injection E as <- _. reflexivity. }
  destruct shards as [|s1 [|s2 [|s3 rest]]]; try discriminate Hl.
  repeat constructor.
Defined.

(** C4 as stated fails: under the method "tokens" the trainer's constant
    for the example batch is 3, and the loss divides by 2. *)
Lemma loss_ignores_normalization :
  ~ (forall (trainer : Trainer.t) (padding_idx : Z)
            (self : t) (batch : Batch (list Z)) (outputs : tensor (list Z))
            (attns : gmap string (tensor (list Z)))
            (l : Z) (d : Z),
       eval self = false ->
       Backward l d ∈ (loss example_forward self batch outputs attns).1 ->
       d = Trainer.normalization_step trainer padding_idx 0 batch).
Proof.
  intros H.
  specialize (H (example_trainer "tokens") 0 example_loss example_batch
                example_outputs ∅ 7 2 eq_refl).
  assert (2 = 3) as Habs; [|discriminate Habs].
  apply H. vm_compute. apply list_elem_of_here.
Qed.

End loss_examples.

(** ** Validation and construction of the trainer *)

Section validate_facts.
Import Trainer.
Context {B Out : Type}.
Variable model_forward : B -> Py.result Out.
Variable monolithic_compute_loss : B -> Out -> Py.result Statistics.t.

Local Abbreviation batch_ok :=
  (Trainer.batch_ok model_forward monolithic_compute_loss).
Local Abbreviation batch_raises :=
  (Trainer.batch_raises model_forward monolithic_compute_loss).
Local Abbreviation calls_until_raise := (Trainer.calls_until_raise model_forward).

Lemma validate_loop_ok (batches : list B) (sts : list Statistics.t) :
  Forall2 batch_ok batches sts ->
  forall (stats : Statistics.t) (w : world B),
  training w = false ->
  validate_loop model_forward monolithic_compute_loss batches stats w =
  (mk_world false (log w ++ eval_calls batches),
   Py.Ok (foldl Statistics.update stats sts)).
Proof.
  induction 1 as [|b st batches sts (out & Hf & Hl) _ IH];
    intros stats w Hw; simpl.
  - rewrite app_nil_r. destruct w; simpl in *. now subst.
  - rewrite Hf, Hl, IH by (simpl; exact Hw). simpl. rewrite Hw.
    now rewrite <- !app_assoc.
Qed.

Lemma validate_loop_raises (pre : list B) (sts : list Statistics.t)
    (b : B) (e : Py.exn) (post : list B) :
  Forall2 batch_ok pre sts -> batch_raises b e ->
  forall (stats : Statistics.t) (w : world B),
  training w = false ->
  validate_loop model_forward monolithic_compute_loss
    (pre ++ b :: post) stats w =
  (mk_world false (log w ++ eval_calls pre ++ calls_until_raise b),
   Py.Raise e).
Proof.
  induction 1 as [|b0 st pre sts (out & Hf & Hl) _ IH];
    intros Hb stats w Hw; simpl.
  - unfold calls_until_raise, record.
    destruct Hb as [Hf|(out & Hf & Hl)].
    + rewrite Hf, Hw. reflexivity.
    + rewrite Hf, Hl, Hw. simpl. now rewrite <- app_assoc.
  - rewrite Hf, Hl, IH by (assumption || (simpl; exact Hw)).
    simpl. rewrite Hw. now rewrite <- !app_assoc.
Qed.

(** C6 (as the code behaves): [validate] puts the model in evaluation
    mode, runs the forward pass and the monolithic loss on every batch in
    that mode, with no gradient zeroing, sharded loss or optimiser step,
    and puts the model back in training mode before it returns; when a
    batch raises, the exception ends the call at once and the model stays
    in evaluation mode. *)
Theorem validate_modes (valid_iter : list B) (w : world B) :
  (forall sts, Forall2 batch_ok valid_iter sts ->
     validate model_forward monolithic_compute_loss valid_iter w =
     (mk_world true
        (log w ++ [ModelEval] ++ eval_calls valid_iter ++ [ModelTrain]),
      Py.Ok (foldl Statistics.update Statistics.init sts))) /\
  (forall pre sts b e post,
     valid_iter = pre ++ b :: post ->
     Forall2 batch_ok pre sts -> batch_raises b e ->
     validate model_forward monolithic_compute_loss valid_iter w =
     (mk_world false
        (log w ++ [ModelEval] ++ eval_calls pre ++ calls_until_raise b),
      Py.Raise e)).
Proof.
  split.
  - intros sts H. unfold validate.
    rewrite (validate_loop_ok valid_iter sts H) by reflexivity.
    unfold model_train, model_eval. simpl. now rewrite <- !app_assoc.
  - intros pre sts b e post -> Hpre Hb. unfold validate.
    rewrite (validate_loop_raises pre sts b e post Hpre Hb) by reflexivity.
    unfold model_eval. simpl. now rewrite <- !app_assoc.
Qed.

End validate_facts.

Section validate_examples.
Import Trainer Examples.

Lemma validate_modes_witness :
  validate failing_forward constant_loss [1; 2] (mk_world true [])
  = (mk_world true
       [ModelEval; ModelForward false 1; MonolithicComputeLoss 1;
        ModelForward false 2; MonolithicComputeLoss 2; ModelTrain],
     Py.Ok (Statistics.mk 2%float 2 2 0 0)) /\
  validate failing_forward constant_loss [1; 0; 2] (mk_world true [])
  = (mk_world false
       [ModelEval; ModelForward false 1; MonolithicComputeLoss 1;
        ModelForward false 0],
     Py.Raise Py.RuntimeError).
Proof.
  split.
  - apply (proj1 (validate_modes failing_forward constant_loss [1; 2]
                    (mk_world true []))
             [Statistics.mk 1%float 1 1 0 0; Statistics.mk 1%float 1 1 0 0]).
    constructor; [exists 1; split; reflexivity|].
    constructor; [exists 2; split; reflexivity|].
    constructor.
  - apply (proj2 (validate_modes failing_forward constant_loss [1; 0; 2]
                    (mk_world true []))
             [1] [Statistics.mk 1%float 1 1 0 0] 0 Py.RuntimeError [2]
             eq_refl).
    + constructor; [exists 1; split; reflexivity|].
      constructor.
    + left. reflexivity.
Defined.

End validate_examples.

Section trainer_examples.
Import Trainer Examples.

(** C6 as stated fails: an exception in the batch loop leaves the model in
    evaluation mode. *)
Lemma validate_leaves_eval_mode :
  ~ (forall (model_forward : Z -> Py.result Z)
            (monolithic_compute_loss : Z -> Z -> Py.result Statistics.t)
            (valid_iter : list Z) (w : world Z),
       training
         (validate model_forward monolithic_compute_loss valid_iter w).1
       = true).
Proof.
  intros H.
  specialize (H failing_forward constant_loss [1; 0; 2] (mk_world true [])).
  vm_compute in H. discriminate H.
Qed.

(** C8: with [grad_accum_count > 0], construction with
    [grad_accum_count > 1] and a non-zero [trunc_size] fails with an
    AssertionError before the model is touched; with [grad_accum_count = 1],
    or [grad_accum_count > 1] and [trunc_size = 0], it succeeds and sets the
    model in training mode. *)
Theorem init_accum_truncation {B : Type} (w : world B)
    (trunc_size shard_size : Z) (data_type norm_method : string)
    (grad_accum_count : Z) (elmo : bool) :
  0 < grad_accum_count ->
  (1 < grad_accum_count /\ trunc_size <> 0 ->
   init w trunc_size shard_size data_type norm_method grad_accum_count elmo
   = (w, Py.Raise Py.AssertionError)) /\
  (grad_accum_count = 1 \/ (1 < grad_accum_count /\ trunc_size = 0) ->
   init w trunc_size shard_size data_type norm_method grad_accum_count elmo
   = (model_train w,
      Py.Ok (mk trunc_size shard_size data_type norm_method
                grad_accum_count 0 elmo))).
Proof.
  intros Hpos. unfold init.
  destruct (0 <? grad_accum_count) eqn:E0;
    [|apply Z.ltb_ge in E0; lia]. simpl.
  split.
  - intros [H1 Ht].
    destruct (1 <? grad_accum_count) eqn:E1;
      [|apply Z.ltb_ge in E1; lia].
    destruct (trunc_size =? 0) eqn:Et; [apply Z.eqb_eq in Et; lia|].
    reflexivity.
  - intros [H1|[H1 Ht]].
    + destruct (1 <? grad_accum_count) eqn:E1;
        [apply Z.ltb_lt in E1; lia|]. reflexivity.
    + subst trunc_size. rewrite andb_false_r. reflexivity.
Qed.

Lemma init_accum_truncation_witness :
  0 < 4 /\
  init (mk_world false ([] : list (call Z))) 5 32 "text" "sents" 4 false
  = (mk_world false [], Py.Raise Py.AssertionError).
Proof.
  split; [lia|].
  apply (proj1 (init_accum_truncation (mk_world false ([] : list (call Z)))
                  5 32 "text" "sents" 4 false eq_refl)).
  split; [lia|discriminate].
Defined.

End trainer_examples.

Section ppl_facts.


















(** What [ppl()] does there, whatever [exp] is. *)
Example ppl_overflow (math_exp : float -> Py.result float) :
  Statistics.ppl math_exp (Statistics.mk 1%float (2 ^ 1024) 0 0 0)
  = Py.Raise Py.OverflowError /\
  Loss.Statistics.ppl math_exp
    (Loss.Statistics.mk 1%float 0%float (2 ^ 1024) 0 0)
  = Py.Raise Py.OverflowError.
Proof.
  unfold Statistics.ppl, Loss.Statistics.ppl, Py.ppl_of.
  cbn [Statistics.loss Statistics.n_words Loss.Statistics.loss
       Loss.Statistics.n_words].
  assert (Py.truediv 1 (2 ^ 1024) = Py.Raise Py.OverflowError) as ->
    by (vm_compute; reflexivity).
  split; reflexivity.
Qed.

End ppl_facts.

(** ** The order of floats *)

Section float_order.

Lemma SFltb_key (x y : spec_float) :
  SFltb x y = true <->
  exists a b, sf_key x = Some a /\ sf_key y = Some b /\ key_lt a b.
Proof.
  unfold SFltb, key_lt.
  destruct x as [sx|sx| |sx mx ex], y as [sy|sy| |sy my ey]; simpl;
    try (split; [discriminate|intros (a & b & Ha & Hb & H); discriminate]).
  all: try (destruct sx); try (destruct sy); simpl.
  all: try (split; [discriminate|
                    intros (a & b & Ha & Hb & H);
                    injection Ha as <-; injection Hb as <-; simpl in H; lia]).
  all: try (split; [intros _; eexists; eexists;
                    split; [reflexivity|split; [reflexivity|simpl; lia]]|
                    reflexivity]).
  - change (PosDef.Pos.compare_cont Eq mx my) with (Pos.compare mx my).
    destruct (Z.compare_spec ex ey) as [He|He|He];
      [destruct (Pos.compare_spec mx my) as [Hm|Hm|Hm]| |]; simpl.
    all: try (split; [discriminate|
                      intros (a & b & Ha & Hb & H);
                      injection Ha as <-; injection Hb as <-; simpl in H; lia]).
    all: try (split; [intros _; eexists; eexists;
                      split; [reflexivity|split; [reflexivity|simpl; lia]]|
                      reflexivity]).
  - change (PosDef.Pos.compare_cont Eq mx my) with (Pos.compare mx my).
    destruct (Z.compare_spec ex ey) as [He|He|He];
      [destruct (Pos.compare_spec mx my) as [Hm|Hm|Hm]| |]; simpl.
    all: try (split; [discriminate|
                      intros (a & b & Ha & Hb & H);
                      injection Ha as <-; injection Hb as <-; simpl in H; lia]).
    all: try (split; [intros _; eexists; eexists;
                      split; [reflexivity|split; [reflexivity|simpl; lia]]|
                      reflexivity]).
Qed.

Lemma float_lt_trans (a b c : float) :
  Py.float_lt a b = true -> Py.float_lt b c = true -> Py.float_lt a c = true.
Proof.
  unfold Py.float_lt. rewrite !FloatAxioms.ltb_spec, !SFltb_key.
  intros (ka & kb & Ha & Hb & H1) (kb' & kc & Hb' & Hc & H2).
  rewrite Hb in Hb'. injection Hb' as <-.
  exists ka, kc. split; [exact Ha|]. split; [exact Hc|].
  unfold key_lt in *. lia.
Qed.

Lemma float_lt_irrefl (a : float) : Py.float_lt a a = false.
Proof.
  destruct (Py.float_lt a a) eqn:E; [|reflexivity].
  unfold Py.float_lt in E. rewrite FloatAxioms.ltb_spec, SFltb_key in E.
  destruct E as (ka & kb & Ha & Hb & H). rewrite Ha in Hb.
  injection Hb as <-. unfold key_lt in H. lia.
Qed.

Lemma float_lt_asym (a b : float) :
  Py.float_lt a b = true -> Py.float_lt b a = false.
Proof.
  intros H. destruct (Py.float_lt b a) eqn:E; [|reflexivity].
  pose proof (float_lt_trans a b a H E) as H'.
  now rewrite float_lt_irrefl in H'.
Qed.

(** A NaN is on neither side of any float. *)
Lemma float_nan_unordered (x y : float) :
  is_nan x = true -> Py.float_lt x y = false /\ Py.float_lt y x = false.
Proof.
  unfold is_nan, Py.float_lt. rewrite FloatAxioms.eqb_spec, !FloatAxioms.ltb_spec.
  intros H. apply negb_true_iff in H.
  assert (Prim2SF x = S754_nan) as ->.
  { destruct (Prim2SF x) as [s|s| |s m e]; try reflexivity;
      unfold SFeqb in H; simpl in H.
    - discriminate.
    - destruct s; discriminate.
    - change (PosDef.Pos.compare_cont Eq m m) with (Pos.compare m m) in H.
      rewrite Z.compare_refl, Pos.compare_refl in H.
      destruct s; discriminate. }
  unfold SFltb. simpl. split; [reflexivity|].
  now destruct (Prim2SF y).
Qed.

End float_order.

(** ** More on the patience state machine *)

Section early_stopping_more.
Import EarlyStopping.

Lemma call_keeps_not_below (s : t) (x y : float) :
  Py.float_lt x (best_score s) = false ->
  Py.float_lt x (best_score (call s y)) = false.
Proof.
  intros Hx. unfold call.
  destruct (Py.float_lt y (best_score s)) eqn:Ey; simpl; [|exact Hx].
  destruct (Py.float_lt x y) eqn:Exy; [|reflexivity].
  now rewrite (float_lt_trans x y (best_score s) Exy Ey) in Hx.
Qed.

Lemma call_not_below_itself (s : t) (y : float) :
  Py.float_lt y (best_score (call s y)) = false.
Proof.
  unfold call. destruct (Py.float_lt y (best_score s)) eqn:Ey; simpl.
  - apply float_lt_irrefl.
  - exact Ey.
Qed.

Lemma call_best_cases (s : t) (y : float) :
  best_score (call s y) = best_score s \/ best_score (call s y) = y.
Proof.
  unfold call. destruct (Py.float_lt y (best_score s)); simpl; auto.
Qed.

Lemma foldl_call_keeps_not_below (scores : list float) :
  forall (s : t) (x : float),
  Py.float_lt x (best_score s) = false ->
  Py.float_lt x (best_score (foldl call s scores)) = false.
Proof.
  induction scores as [|y ys IH]; intros s x Hx; simpl; [exact Hx|].
  apply IH. now apply call_keeps_not_below.
Qed.

(** X1: after any sequence of calls, no score of the sequence is strictly
    below the best score kept, the best score kept is not above the one
    before the sequence, and it is the one before the sequence or one of
    the scores fed. *)
Theorem best_score_lower_bound (s : t) (scores : list float) :
  (forall x, x ∈ scores ->
     Py.float_lt x (best_score (foldl call s scores)) = false) /\
  Py.float_lt (best_score s) (best_score (foldl call s scores)) = false /\
  (best_score (foldl call s scores) = best_score s \/
   best_score (foldl call s scores) ∈ scores).
Proof.
  split; [|split].
  - revert s. induction scores as [|y ys IH]; intros s x Hx; simpl.
    + inversion Hx.
    + apply elem_of_cons in Hx as [->|Hx]; [|now apply IH].
      apply foldl_call_keeps_not_below, call_not_below_itself.
  - apply foldl_call_keeps_not_below, float_lt_irrefl.
  - revert s. induction scores as [|y ys IH]; intros s; simpl; [now left|].
    destruct (IH (call s y)) as [H|H].
    + rewrite H. destruct (call_best_cases s y) as [H'|H'].
      * now left.
      * right. rewrite H'. apply list_elem_of_here.
    + right. now apply list_elem_of_further.
Qed.

(** X2: a NaN score is neither an improvement nor a deterioration: nothing
    is saved, the best score and the remaining tolerance stay, and the
    status is recomputed from the remaining tolerance alone. *)
Theorem nan_score_ignored (s : t) (x : float) :
  is_nan x = true ->
  saves_best s x = false /\
  current_tolerance (call s x) = current_tolerance s /\
  best_score (call s x) = best_score s /\
  status (call s x) = if 0 <? current_tolerance s then DECREASING else STOPPED.
Proof.
  intros H. destruct (float_nan_unordered x (best_score s) H) as [H1 H2].
  unfold saves_best, call, Py.float_gt. fold (Py.float_lt (best_score s) x).
  rewrite H1, H2. simpl. auto.
Qed.

Lemma nan_score_ignored_witness :
  is_nan nan = true /\
  status (call (call (init 1) 5%float) nan) = DECREASING /\
  current_tolerance (call (call (init 1) 5%float) nan) = 1.
Proof.
  split; [reflexivity|].
  destruct (nan_score_ignored (call (init 1) 5%float) nan eq_refl)
    as (_ & H1 & _ & H2).
  split; [exact H2|exact H1].
Defined.

(** X3: scores that are all above the best score take one unit of
    tolerance each and leave the best score alone; after at least one of
    them the status is STOPPED exactly when no tolerance is left. *)
Theorem patience_countdown (s : t) (scores : list float) :
  (forall x, x ∈ scores -> Py.float_gt x (best_score s) = true) ->
  current_tolerance (foldl call s scores)
    = current_tolerance s - Z.of_nat (length scores) /\
  best_score (foldl call s scores) = best_score s /\
  (scores <> [] ->
   status (foldl call s scores) =
     if 0 <? current_tolerance s - Z.of_nat (length scores)
     then DECREASING else STOPPED).
Proof.
  revert s. induction scores as [|y ys IH]; intros s H.
  - simpl. split; [lia|]. split; [reflexivity|]. congruence.
  - assert (Hy : Py.float_gt y (best_score s) = true)
      by (apply H, list_elem_of_here).
    assert (Hlt : Py.float_lt y (best_score s) = false)
      by (apply float_lt_asym; exact Hy).
    assert (Ec : call s y =
              mk (tolerance s) (current_tolerance s - 1) (best_score s)
                 (if 0 <? current_tolerance s - 1 then DECREASING else STOPPED)).
    { unfold call. now rewrite Hlt, Hy. }
    simpl foldl. destruct (IH (call s y)) as (H1 & H2 & H3).
    { intros x Hx. rewrite Ec. simpl. apply H. now apply list_elem_of_further. }
    rewrite H1, H2.
    split; [rewrite Ec; simpl length; simpl current_tolerance; lia|].
    split; [now rewrite Ec|]. intros _.
    destruct ys as [|y' ys'].
    + simpl. now rewrite Ec.
    + rewrite H3 by discriminate. rewrite Ec. simpl current_tolerance.
      replace (current_tolerance s - 1 - Z.of_nat (length (y' :: ys')))
        with (current_tolerance s - Z.of_nat (length (y :: y' :: ys')))
        by (simpl length; lia).
      reflexivity.
Qed.

Lemma patience_countdown_witness :
  (forall x, x ∈ [6%float; 7%float] ->
     Py.float_gt x (best_score (call (init 3) 5%float)) = true) /\
  current_tolerance (foldl call (call (init 3) 5%float) [6%float; 7%float]) = 1.
Proof.
  assert (H : forall x, x ∈ [6%float; 7%float] ->
            Py.float_gt x (best_score (call (init 3) 5%float)) = true).
  { intros x Hx. apply elem_of_cons in Hx as [->|Hx]; [reflexivity|].
    apply list_elem_of_singleton in Hx as ->. reflexivity. }
  split; [exact H|].
  exact (proj1 (patience_countdown (call (init 3) 5%float)
                  [6%float; 7%float] H)).
Defined.

(** X4: in every state reachable from construction with tolerance [tol],
    the configured tolerance is [tol], the remaining tolerance never
    exceeds it, and it equals it whenever the status is IMPROVING. *)
Theorem tolerance_bounds (tol : Z) (s : t) :
  reachable tol s ->
  tolerance s = tol /\
  current_tolerance s <= tol /\
  (status s = IMPROVING -> current_tolerance s = tol).
Proof.
  induction 1 as [|s x Hr (IH1 & IH2 & IH3)]; [simpl; auto with zarith|].
  unfold call. destruct (Py.float_lt x (best_score s)); simpl.
  - auto with zarith.
  - split; [exact IH1|]. split.
    + destruct (Py.float_gt x (best_score s)); lia.
    + destruct (0 <? _); discriminate.
Qed.

Lemma tolerance_bounds_witness :
  reachable 2 (call (call (init 2) 5%float) 6%float) /\
  current_tolerance (call (call (init 2) 5%float) 6%float) <= 2.
Proof.
  split; [do 2 constructor; constructor|].
  exact (proj1 (proj2 (tolerance_bounds 2 _
           (reach_call 2 _ _ (reach_call 2 _ _ (reach_init 2)))))).
Defined.

(** X5: after a call, [is_improving] holds exactly when the call saved the
    best model; a call that stops saves nothing; a call that saves records
    the score as the best one and restores the full tolerance. *)
Theorem improving_iff_saved (s : t) (x : float) :
  is_improving (call s x) = saves_best s x /\
  (has_stopped (call s x) = true -> saves_best s x = false) /\
  (saves_best s x = true ->
   best_score (call s x) = x /\ current_tolerance (call s x) = tolerance s).
Proof.
  unfold is_improving, has_stopped, saves_best, call.
  destruct (Py.float_lt x (best_score s)); simpl.
  - repeat split; discriminate.
  - split; [now destruct (0 <? _)|]. split; [reflexivity|discriminate].
Qed.

End early_stopping_more.

(** ** Statistics *)

Section statistics_more.

Lemma total_perm {S : Type} (field : S -> Z) (sts sts' : list S) :
  Permutation sts sts' -> total field sts = total field sts'.
Proof.
  unfold total. induction 1; simpl; lia.
Qed.

Lemma foldl_update_counts (sts : list Statistics.t) :
  forall s : Statistics.t,
  Statistics.n_words (foldl Statistics.update s sts)
    = Statistics.n_words s + total Statistics.n_words sts /\
  Statistics.n_correct (foldl Statistics.update s sts)
    = Statistics.n_correct s + total Statistics.n_correct sts /\
  Statistics.n_src_words (foldl Statistics.update s sts)
    = Statistics.n_src_words s /\
  Statistics.n_mt_words (foldl Statistics.update s sts)
    = Statistics.n_mt_words s.
Proof.
  unfold total. induction sts as [|st sts IH]; intros s; simpl.
  - repeat split; lia.
  - destruct (IH (Statistics.update s st)) as (H1 & H2 & H3 & H4).
    rewrite H1, H2, H3, H4. simpl. repeat split; lia.
Qed.

Lemma foldl_loss_update_counts (sts : list Loss.Statistics.t) :
  forall s : Loss.Statistics.t,
  Loss.Statistics.n_words (foldl Loss.Statistics.update s sts)
    = Loss.Statistics.n_words s + total Loss.Statistics.n_words sts /\
  Loss.Statistics.n_correct (foldl Loss.Statistics.update s sts)
    = Loss.Statistics.n_correct s + total Loss.Statistics.n_correct sts /\
  Loss.Statistics.n_src_words (foldl Loss.Statistics.update s sts)
    = Loss.Statistics.n_src_words s.
Proof.
  unfold total. induction sts as [|st sts IH]; intros s; simpl.
  - repeat split; lia.
  - destruct (IH (Loss.Statistics.update s st)) as (H1 & H2 & H3).
    rewrite H1, H2, H3. simpl. repeat split; lia.
Qed.

(** X6: merging a list of statistics with [update] adds up their word and
    correct-word counts, never touches the source-word and MT-word counts,
    and gives the same two counts for every order of the list. *)
Theorem update_counts (s : Statistics.t) (sts sts' : list Statistics.t) :
  Permutation sts sts' ->
  Statistics.n_words (foldl Statistics.update s sts)
    = Statistics.n_words s + total Statistics.n_words sts /\
  Statistics.n_correct (foldl Statistics.update s sts)
    = Statistics.n_correct s + total Statistics.n_correct sts /\
  Statistics.n_src_words (foldl Statistics.update s sts)
    = Statistics.n_src_words s /\
  Statistics.n_mt_words (foldl Statistics.update s sts)
    = Statistics.n_mt_words s /\
  Statistics.n_words (foldl Statistics.update s sts')
    = Statistics.n_words (foldl Statistics.update s sts) /\
  Statistics.n_correct (foldl Statistics.update s sts')
    = Statistics.n_correct (foldl Statistics.update s sts).
Proof.
  intros Hp.
  destruct (foldl_update_counts sts s) as (H1 & H2 & H3 & H4).
  destruct (foldl_update_counts sts' s) as (H1' & H2' & _ & _).
  rewrite H1, H2, H3, H4, H1', H2'.
  rewrite (total_perm Statistics.n_words sts sts' Hp).
  rewrite (total_perm Statistics.n_correct sts sts' Hp).
  repeat split; reflexivity.
Qed.

Lemma update_counts_witness :
  Permutation [Statistics.mk 1%float 2 1 0 0; Statistics.mk 2%float 3 2 0 0]
              [Statistics.mk 2%float 3 2 0 0; Statistics.mk 1%float 2 1 0 0] /\
  Statistics.n_words
    (foldl Statistics.update Statistics.init
       [Statistics.mk 2%float 3 2 0 0; Statistics.mk 1%float 2 1 0 0])
  = Statistics.n_words
      (foldl Statistics.update Statistics.init
         [Statistics.mk 1%float 2 1 0 0; Statistics.mk 2%float 3 2 0 0]).
Proof.
  split; [apply perm_swap|].
  exact (proj1 (proj2 (proj2 (proj2 (proj2
           (update_counts Statistics.init _ _
              (perm_swap (Statistics.mk 2%float 3 2 0 0)
                 (Statistics.mk 1%float 2 1 0 0)
                 nil))))))).
Defined.

Lemma float_of_int_0 : Py.float_of_int 0 = Py.Ok 0%float.
Proof. vm_compute. reflexivity. Qed.

Lemma truediv_by_0 (a : float) : Py.truediv a 0 = Py.Raise Py.ZeroDivisionError.
Proof. unfold Py.truediv. rewrite float_of_int_0. reflexivity. Qed.

(** X7: statistics without words raise instead of reporting: [ppl], [xent]
    and [accuracy] of [Trainer.py] and [ppl] of [Loss.py] raise
    ZeroDivisionError; [accuracy] of [Loss.py] raises ZeroDivisionError, or
    OverflowError when its count of correct words does not convert to a
    float. *)
Theorem no_words_raises (math_exp : float -> Py.result float)
    (s : Statistics.t) (s' : Loss.Statistics.t) :
  Statistics.n_words s = 0 -> Loss.Statistics.n_words s' = 0 ->
  Statistics.ppl math_exp s = Py.Raise Py.ZeroDivisionError /\
  Statistics.xent s = Py.Raise Py.ZeroDivisionError /\
  Statistics.accuracy s = Py.Raise Py.ZeroDivisionError /\
  Loss.Statistics.ppl math_exp s' = Py.Raise Py.ZeroDivisionError /\
  (Loss.Statistics.accuracy s' = Py.Raise Py.ZeroDivisionError \/
   Loss.Statistics.accuracy s' = Py.Raise Py.OverflowError).
Proof.
  intros H H'.
  unfold Statistics.ppl, Statistics.xent, Statistics.accuracy,
    Loss.Statistics.ppl, Loss.Statistics.accuracy, Py.ppl_of.
  rewrite H, H', !truediv_by_0, float_of_int_0. simpl.
  repeat split; try reflexivity.
  unfold Py.int_div_float, Py.float_of_int.
  destruct (is_infinity _); [now right|now left].
Qed.

Lemma no_words_raises_witness :
  Statistics.n_words Statistics.init = 0 /\
  Loss.Statistics.n_words Loss.Statistics.init = 0 /\
  Statistics.accuracy Statistics.init = Py.Raise Py.ZeroDivisionError.
Proof.
  split; [reflexivity|]. split; [reflexivity|].
  exact (proj1 (proj2 (proj2 (no_words_raises Examples.example_exp
           Statistics.init Loss.Statistics.init eq_refl eq_refl)))).
Defined.

Lemma Prim2SF_nan (x : float) : is_nan x = true <-> Prim2SF x = S754_nan.
Proof.
  unfold is_nan. rewrite FloatAxioms.eqb_spec, negb_true_iff. unfold SFeqb.
  destruct (Prim2SF x) as [s|s| |s m e]; simpl.
  - split; discriminate.
  - split; [destruct s; discriminate|discriminate].
  - split; reflexivity.
  - change (PosDef.Pos.compare_cont Eq m m) with (Pos.compare m m).
    rewrite Z.compare_refl, Pos.compare_refl.
    split; [destruct s; discriminate|discriminate].
Qed.

(** X8: the clamp of [ppl] at 100 does not catch NaN: when the loss is NaN
    the quotient is NaN and [math.exp] receives it unchanged. *)
Theorem ppl_nan_not_clamped (math_exp : float -> Py.result float)
    (s : Statistics.t) (q : float) :
  is_nan (Statistics.loss s) = true ->
  Py.truediv (Statistics.loss s) (Statistics.n_words s) = Py.Ok q ->
  is_nan q = true /\ Statistics.ppl math_exp s = math_exp q.
Proof.
  intros Hn Hq.
  assert (is_nan q = true) as Hqn.
  { unfold Py.truediv in Hq.
    destruct (Py.float_of_int (Statistics.n_words s)) as [b|e]; [|discriminate].
    destruct (b =? 0)%float; [discriminate|]. injection Hq as <-.
    apply Prim2SF_nan. rewrite FloatAxioms.div_spec.
    apply Prim2SF_nan in Hn. rewrite Hn. reflexivity. }
  split; [exact Hqn|].
  unfold Statistics.ppl, Py.ppl_of. rewrite Hq. unfold Py.min_100.
  destruct (float_nan_unordered q 100%float Hqn) as [_ H].
  unfold Py.float_lt in H. now rewrite H.
Qed.

Lemma ppl_nan_not_clamped_witness :
  is_nan (Statistics.loss (Statistics.mk nan 4 0 0 0)) = true /\
  Py.truediv nan 4 = Py.Ok nan /\
  Statistics.ppl Examples.example_exp (Statistics.mk nan 4 0 0 0)
  = Examples.example_exp nan.
Proof.
  split; [reflexivity|]. split; [reflexivity|].
  exact (proj2 (ppl_nan_not_clamped Examples.example_exp
                  (Statistics.mk nan 4 0 0 0) nan eq_refl eq_refl)).
Defined.

End statistics_more.

(** ** More on sharding *)

Section sharding_more.
Import Torch Loss.
Context {A : Type}.

Lemma shard_loop_dummies (batches : Z) (eval : bool)
    (variables : list (string * tensor A)) :
  forall (shards shards' : list (gmap string (tensor A)))
         (dummies dummies' : gmap string (tensor A)),
  shard_loop variables batches eval shards dummies = Py.Ok (shards', dummies') ->
  dummies' =
  foldl (fun acc kt => <[kt.1 := dummy kt.2 eval]> acc) dummies variables.
Proof.
  induction variables as [|[k v] rest IH];
    intros shards shards' dummies dummies' H; simpl in *.
  - now injection H as _ <-.
  - destruct (split (dummy v eval) batches) as [splits|e]; [|discriminate].
    simpl in H.
    destruct (store_splits k 0 splits shards) as [sh1|e]; [|discriminate].
    simpl in H. exact (IH _ _ _ _ H).
Qed.

Lemma foldl_insert_lookup (eval : bool) (variables : list (string * tensor A)) :
  NoDup variables.*1 ->
  forall (d0 : gmap string (tensor A)),
  let d := foldl (fun acc kt => <[kt.1 := dummy kt.2 eval]> acc) d0 variables in
  (forall k t, (k, t) ∈ variables -> d !! k = Some (dummy t eval)) /\
  (forall k, k ∉ variables.*1 -> d !! k = d0 !! k).
Proof.
  induction variables as [|[k v] rest IH]; intros Hnd d0; simpl.
  - split; [intros k t H; inversion H|reflexivity].
  - simpl in Hnd. apply NoDup_cons in Hnd as [Hk Hnd].
    destruct (IH Hnd (<[k := dummy v eval]> d0)) as [H1 H2].
    split.
    + intros k' t Hin. apply elem_of_cons in Hin as [Heq|Hin].
      * injection Heq as -> ->. rewrite (H2 k Hk). apply lookup_insert_eq.
      * now apply H1.
    + intros k' Hk'. apply not_elem_of_cons in Hk' as [Hne Hk'].
      rewrite (H2 k' Hk'). now apply lookup_insert_ne.
Qed.

(** X9: when [shardVariables] returns, the dictionary of dummies has
    exactly the keys of the variables; each dummy shares the data of its
    variable, is a fresh variable with [requires_grad = not eval] and
    [volatile = eval] when the variable requires a gradient, and is the
    variable itself otherwise. *)
Theorem shardVariables_dummies (variables : list (string * tensor A))
    (batches : Z) (eval : bool)
    (shards : list (gmap string (tensor A)))
    (dummies : gmap string (tensor A)) :
  NoDup variables.*1 ->
  shardVariables variables batches eval = Py.Ok (shards, dummies) ->
  (forall k t, (k, t) ∈ variables ->
     dummies !! k = Some (dummy t eval) /\
     data (dummy t eval) = data t /\
     (is_variable t && requires_grad t = true ->
      is_variable (dummy t eval) = true /\
      requires_grad (dummy t eval) = negb eval /\
      volatile (dummy t eval) = eval) /\
     (is_variable t && requires_grad t = false -> dummy t eval = t)) /\
  (forall k, k ∉ variables.*1 -> dummies !! k = None).
Proof.
  intros Hnd H. unfold shardVariables in H.
  destruct variables as [|[k1 t1] rest] eqn:Ev; [discriminate|].
  destruct (batches =? 0); [discriminate|].
  apply shard_loop_dummies in H. rewrite <- Ev in *. subst dummies.
  destruct (foldl_insert_lookup eval variables Hnd ∅) as [H1 H2].
  split.
  - intros k t Hin. split; [now apply H1|].
    split; [apply dummy_data|]. unfold dummy.
    split; intros ->; simpl; auto.
  - intros k Hk. rewrite (H2 k Hk). apply lookup_empty.
Qed.

End sharding_more.

Section sharding_more_examples.
Import Torch Loss.

Lemma shardVariables_dummies_witness :
  exists shards dummies,
    shardVariables [("out_t"%string, mk_tensor [1; 2; 3] true true false)]
      2 true = Py.Ok (shards, dummies) /\
    dummies !! "out_t"%string = Some (mk_tensor [1; 2; 3] true false true).
Proof.
  destruct (shardVariables
              [("out_t"%string, mk_tensor [1; 2; 3] true true false)] 2 true)
    as [[sh d]|e] eqn:E; [|vm_compute in E; discriminate E].
  exists sh, d. split; [reflexivity|].
  assert (Hnd : NoDup [("out_t"%string, mk_tensor [1; 2; 3] true true false)].*1)
    by apply NoDup_singleton.
  destruct (shardVariables_dummies _ 2 true sh d Hnd E) as [H _].
  exact (proj1 (H "out_t"%string _ (list_elem_of_here _ _))).
Defined.

End sharding_more_examples.

Section sharding_entries.
Import Torch Loss.
Context {A : Type}.

(** X10: when [shardVariables] returns for a positive width, every entry
    of every shard is a chunk of the dummy of a variable under the entry's
    key, at the shard's index: no shard holds anything else.  The entry is
    empty only for a variable without slices, whose one empty chunk is in
    the first shard. *)
Theorem shardVariables_entries (variables : list (string * tensor A))
    (batches : Z) (eval : bool)
    (shards : list (gmap string (tensor A)))
    (dummies : gmap string (tensor A)) :
  0 < batches ->
  NoDup variables.*1 ->
  shardVariables variables batches eval = Py.Ok (shards, dummies) ->
  forall (j : nat) (s : gmap string (tensor A)) (k : string) (v : tensor A),
  shards !! j = Some s -> s !! k = Some v ->
  exists t, (k, t) ∈ variables /\
            v = chunk (Z.to_nat batches) j (dummy t eval) /\
            (j < num_splits (length (data t)) (Z.to_nat batches))%nat /\
            (data v = [] <-> data t = []) /\
            (data t = [] -> j = 0%nat).
Proof.
  intros Hw Hnd H j s k v Hs Hv.
  unfold shardVariables in H.
  destruct variables as [|[k1 t1] rest] eqn:Ev; [discriminate|].
  destruct (batches =? 0); [discriminate|].
  rewrite n_shards_num_chunks in H by exact Hw.
  rewrite <- Ev in *.
  set (N := num_chunks (length (data t1)) (Z.to_nat batches)) in *.
  assert (Hall : Forall (fun kt => (num_splits (length (data kt.2))
                                      (Z.to_nat batches)
                                    <= length (replicate N (∅ : gmap string (tensor A))))%nat)
                   variables).
  { apply Forall_forall. intros kt Hin.
    destruct (decide (num_splits (length (data kt.2)) (Z.to_nat batches)
                      <= length (replicate N (∅ : gmap string (tensor A))))%nat)
      as [Hle|Hgt]; [exact Hle|].
    rewrite (shard_loop_fail batches eval variables Hw) in H; [discriminate|].
    apply Exists_exists. exists kt. split; [exact Hin|lia]. }
  destruct (shard_loop_ok batches eval variables Hw Hnd _ ∅ Hall)
    as (sh & d & E & L & Pa & Pb).
  rewrite E in H. injection H as <- <-.
  rewrite length_replicate in L.
  pose proof (lookup_lt_Some _ _ _ Hs) as Hj. rewrite L in Hj.
  assert (H0 : replicate N (∅ : gmap string (tensor A)) !! j = Some ∅)
    by now apply lookup_replicate_2.
  destruct (decide (k ∈ variables.*1)) as [Hin|Hnin].
  - apply list_elem_of_fmap in Hin as ([k' t] & -> & Hin). simpl in *.
    rewrite (Pa k' t Hin j ∅ s H0 Hs) in Hv.
    destruct (decide (j < num_splits (length (data t)) (Z.to_nat batches))%nat)
      as [Hlt|Hge]; [|now rewrite lookup_empty in Hv].
    injection Hv as <-. exists t. split; [exact Hin|].
    split; [reflexivity|]. split; [exact Hlt|].
    simpl. rewrite dummy_data.
    assert (Hw' : (0 < Z.to_nat batches)%nat) by lia.
    destruct (num_chunks_bounds (length (data t)) (Z.to_nat batches) Hw')
      as (B1 & B2 & B3).
    destruct (length (data t)) as [|n] eqn:En.
    + apply length_zero_iff_nil in En.
      rewrite num_splits_0 in Hlt by exact Hw'.
      split; [|intros _; lia].
      split; [intros _; exact En|].
      intros _. now rewrite En, drop_nil, take_nil.
    + rewrite num_splits_pos in Hlt by lia.
      destruct (B2 ltac:(lia)) as [B4 B5].
      split.
      * split; intros Habs; apply (f_equal length) in Habs.
        -- rewrite length_take, length_drop, En in Habs. simpl in Habs. nia.
        -- rewrite En in Habs. discriminate Habs.
      * intros Habs. apply (f_equal length) in Habs. rewrite En in Habs.
        discriminate Habs.
  - rewrite (Pb k Hnin j ∅ s H0 Hs), lookup_empty in Hv. discriminate.
Qed.

End sharding_entries.

Section sharding_entries_examples.
Import Torch Loss.

Lemma shardVariables_entries_witness :
  exists shards dummies s v,
    shardVariables [("out_t"%string, mk_tensor [1; 2; 3] true true false)]
      2 false = Py.Ok (shards, dummies) /\
    shards !! 1%nat = Some s /\ s !! "out_t"%string = Some v /\
    data v <> [].
Proof.
  destruct (shardVariables
              [("out_t"%string, mk_tensor [1; 2; 3] true true false)] 2 false)
    as [[sh d]|e] eqn:E; [|vm_compute in E; discriminate E].
  destruct (sh !! 1%nat) as [s|] eqn:Es;
    [|vm_compute in E; injection E as <- _; discriminate Es].
  destruct (s !! "out_t"%string) as [v|] eqn:Ev;
    [|vm_compute in E; injection E as <- _; vm_compute in Es;
      injection Es as <-; discriminate Ev].
  exists sh, d, s, v. split; [reflexivity|]. split; [exact Es|].
  split; [exact Ev|].
  assert (Hnd : NoDup [("out_t"%string, mk_tensor [1; 2; 3] true true false)].*1)
    by apply NoDup_singleton.
  destruct (shardVariables_entries _ 2 false sh d eq_refl Hnd E 1%nat s
              "out_t"%string v Es Ev) as (t & Hin & _ & _ & [H _] & _).
  apply list_elem_of_singleton in Hin. injection Hin as ->.
  intros Habs. discriminate (H Habs).
Defined.

End sharding_entries_examples.

(** ** More on the sharded loss *)

Section loss_more.
Import Torch Loss Loss.MemoryEfficientLoss.
Context {A L : Type}.
Variable shard_forward :
  gmap string (tensor A) -> Py.result (L * Loss.Statistics.t).

Lemma shard_steps_eval (self : t) (batch : Batch A)
    (shards : list (gmap string (tensor A))) :
  eval self = true ->
  forall (stats : Loss.Statistics.t) (trace : list (autograd_call L)),
  (shard_steps shard_forward self batch shards stats trace).1 = trace.
Proof.
  intros He. induction shards as [|s rest IH]; intros stats trace; simpl.
  - reflexivity.
  - destruct (shard_forward s) as [[loss_t st]|e]; [|reflexivity].
    rewrite He. simpl. apply IH.
Qed.

(** X11: in evaluation mode [MemoryEfficientLoss.loss] never calls
    [backward], whatever the forward computation does. *)
Theorem loss_eval_no_backward (self : t) (batch : Batch A)
    (outputs : tensor A) (attns : gmap string (tensor A)) :
  eval self = true ->
  (loss shard_forward self batch outputs attns).1 = [].
Proof.
  intros He. unfold loss.
  destruct (original self batch outputs attns) as [vars|e]; [|reflexivity].
  destruct (shardVariables vars (max_batches self) (eval self))
    as [[shards d]|e]; [|reflexivity].
  now apply shard_steps_eval.
Qed.

Lemma original_ok (self : t) (batch : Batch A) (outputs : tensor A)
    (attns : gmap string (tensor A)) :
  (forall k, k ∈ required_keys self -> is_Some (attns !! k)) ->
  exists vars, original self batch outputs attns = Py.Ok vars /\
               vars.*1 = original_keys self.
Proof.
  unfold required_keys, original_keys, original, getitem.
  destruct self as [ev mb cp cv ex fe]; simpl.
  intros H.
  assert (Hget : forall k, k ∈
            (if cv then ["coverage"%string] else []) ++
            (if cp then ["copy"%string] else []) ++
            (if ex then ["upper_bounds"%string] else []) ++
            (if fe then ["true_fertility_vals"%string;
                         "predicted_fertility_vals"%string] else []) ->
            exists v, attns !! k = Some v).
  { intros k Hk. destruct (H k Hk) as [v Hv]. eauto. }
  destruct cv, cp, ex, fe; simpl in *;
    repeat match goal with
    | |- context [attns !! ?k] =>
        let v := fresh "v" in let Hv := fresh "Hv" in
        destruct (Hget k) as [v Hv];
          [repeat first [apply list_elem_of_here|apply list_elem_of_further]
          |rewrite Hv; simpl]
    end;
    eexists; (split; [reflexivity|reflexivity]).
Qed.

Lemma original_missing (self : t) (batch : Batch A) (outputs : tensor A)
    (attns : gmap string (tensor A)) (k : string) :
  k ∈ required_keys self -> attns !! k = None ->
  original self batch outputs attns = Py.Raise Py.KeyError.
Proof.
  unfold required_keys, original, getitem.
  destruct self as [ev mb cp cv ex fe]; simpl.
  intros Hk Hnone.
  destruct cv, cp, ex, fe; simpl in *;
    repeat (apply elem_of_cons in Hk as [->|Hk];
            [rewrite Hnone; simpl;
             repeat (match goal with
                     | |- context [attns !! ?k'] => destruct (attns !! k')
                     end; simpl); reflexivity|]);
    try (now inversion Hk);
    repeat (match goal with
            | |- context [attns !! ?k'] =>
                destruct (attns !! k') eqn:?; simpl
            end); try reflexivity; try congruence.
Qed.

Lemma original_keys_NoDup (self : t) : NoDup (original_keys self).
Proof.
  unfold original_keys.
  destruct (coverage_loss self), (copy_loss self), (exhaustion_loss self),
    (fertility_loss self); simpl;
    repeat (apply NoDup_cons; split;
            [intros Hin;
             repeat (apply elem_of_cons in Hin as [Hin|Hin];
                     [discriminate Hin|]); inversion Hin|]);
    apply NoDup_nil; exact I.
Qed.

(** X12: [loss] raises KeyError before any forward computation when the
    attention dictionary lacks a key that the configuration reads;
    otherwise the variables to shard are built, with the keys of the
    configuration in order and without repetition. *)
Theorem loss_attention_keys (self : t) (batch : Batch A)
    (outputs : tensor A) (attns : gmap string (tensor A)) :
  ((exists k, k ∈ required_keys self /\ attns !! k = None) ->
   loss shard_forward self batch outputs attns = ([], Py.Raise Py.KeyError)) /\
  ((forall k, k ∈ required_keys self -> is_Some (attns !! k)) ->
   exists vars, original self batch outputs attns = Py.Ok vars /\
                vars.*1 = original_keys self /\ NoDup vars.*1).
Proof.
  split.
  - intros (k & Hk & Hnone). unfold loss.
    now rewrite (original_missing self batch outputs attns k Hk Hnone).
  - intros H. destruct (original_ok self batch outputs attns H) as (vars & E & K).
    exists vars. split; [exact E|]. split; [exact K|].
    rewrite K. apply original_keys_NoDup.
Qed.

Lemma shard_steps_raise (self : t) (batch : Batch A)
    (pre : list (gmap string (tensor A)))
    (results : list (L * Loss.Statistics.t))
    (s : gmap string (tensor A)) (e : Py.exn)
    (post : list (gmap string (tensor A))) :
  Forall2 (fun s r => shard_forward s = Py.Ok r) pre results ->
  shard_forward s = Py.Raise e ->
  forall (stats : Loss.Statistics.t) (trace : list (autograd_call L)),
  shard_steps shard_forward self batch (pre ++ s :: post) stats trace =
  (trace ++ (if eval self then []
             else map (fun r => Backward r.1 (batchSize batch)) results),
   Py.Raise e).
Proof.
  induction 1 as [|s0 r pre results Hs _ IH]; intros He stats trace; simpl.
  - rewrite He. now destruct (eval self); rewrite app_nil_r.
  - rewrite Hs. destruct r as [loss_t st]. rewrite IH by exact He. simpl.
    destruct (eval self); simpl; [reflexivity|]. now rewrite <- app_assoc.
Qed.

(** X13: when the forward computation fails on a shard, [loss] raises that
    exception; in training mode the gradients of the shards before it have
    already been propagated, one [backward] each with the divisor
    [batch.batchSize], and in evaluation mode nothing has. *)
Theorem loss_shard_failure (self : t) (batch : Batch A)
    (outputs : tensor A) (attns : gmap string (tensor A))
    (vars : list (string * tensor A))
    (pre : list (gmap string (tensor A)))
    (s : gmap string (tensor A))
    (post : list (gmap string (tensor A)))
    (dummies : gmap string (tensor A))
    (results : list (L * Loss.Statistics.t)) (e : Py.exn) :
  original self batch outputs attns = Py.Ok vars ->
  shardVariables vars (max_batches self) (eval self)
    = Py.Ok (pre ++ s :: post, dummies) ->
  Forall2 (fun s r => shard_forward s = Py.Ok r) pre results ->
  shard_forward s = Py.Raise e ->
  loss shard_forward self batch outputs attns =
  ((if eval self then []
    else map (fun r => Backward r.1 (batchSize batch)) results),
   Py.Raise e).
Proof.
  intros Ho Hs Hpre He. unfold loss. rewrite Ho, Hs.
  now rewrite (shard_steps_raise self batch pre results s e post Hpre He).
Qed.

Lemma forward_results (shards : list (gmap string (tensor A))) :
  (forall s, s ∈ shards -> exists r, shard_forward s = Py.Ok r) ->
  exists results,
    Forall2 (fun s r => shard_forward s = Py.Ok r) shards results.
Proof.
  induction shards as [|s rest IH]; intros H.
  - exists []. constructor.
  - destruct (H s (list_elem_of_here _ _)) as [r Hr].
    destruct IH as [rs Hrs].
    { intros s' Hs'. apply H. now apply list_elem_of_further. }
    exists (r :: rs). now constructor.
Qed.

(** X14: in training mode, with variables that all have [n >= 1] rows and
    a forward computation that never fails, [loss] returns and calls
    [backward] once per shard, that is ceil(n / max_batches) times, every
    time with the divisor [batch.batchSize]. *)
Theorem loss_backward_count (self : t) (batch : Batch A)
    (outputs : tensor A) (attns : gmap string (tensor A))
    (vars : list (string * tensor A)) (n : Z) :
  eval self = false ->
  0 < max_batches self -> 1 <= n ->
  original self batch outputs attns = Py.Ok vars ->
  Forall (fun kt => size0 kt.2 = n) vars ->
  (forall s, exists r, shard_forward s = Py.Ok r) ->
  exists (calls : list (autograd_call L)) (stats : Loss.Statistics.t),
    loss shard_forward self batch outputs attns = (calls, Py.Ok stats) /\
    max_batches self * (Z.of_nat (length calls) - 1) < n
      <= max_batches self * Z.of_nat (length calls) /\
    Forall (fun c => match c with Backward _ d => d = batchSize batch end)
           calls.
Proof.
  intros He Hw Hn Ho Hall Htotal.
  assert (Hnd : NoDup vars.*1).
  { assert (Hk : forall k, k ∈ required_keys self -> is_Some (attns !! k)).
    { intros k Hin. destruct (attns !! k) eqn:Ek; [eauto|].
      rewrite (original_missing self batch outputs attns k Hin Ek) in Ho.
      discriminate. }
    destruct (original_ok self batch outputs attns Hk) as (vars' & E & K).
    rewrite Ho in E. injection E as <-. rewrite K.
    apply original_keys_NoDup. }
  assert (Hne : vars <> []).
  { intros ->. unfold original in Ho.
    destruct (coverage_loss self), (copy_loss self), (exhaustion_loss self),
      (fertility_loss self); simpl in Ho;
      repeat (match type of Ho with
              | context [getitem attns ?k] => destruct (getitem attns k)
              end; simpl in Ho); discriminate. }
  destruct vars as [|[k1 t1] rest] eqn:Ev; [congruence|].
  rewrite <- Ev in *.
  assert (Hlen : forall k t, (k, t) ∈ vars -> length (data t) = Z.to_nat n).
  { intros k t Hin. rewrite Forall_forall in Hall.
    specialize (Hall _ Hin). unfold size0 in Hall. simpl in Hall. lia. }
  set (w := Z.to_nat (max_batches self)).
  assert (Hw' : (0 < w)%nat) by (unfold w; lia).
  set (N := num_chunks (Z.to_nat n) w).
  destruct (num_chunks_bounds (Z.to_nat n) w Hw') as (B1 & B2 & _).
  destruct (B2 ltac:(lia)) as [B3 B4]. fold N in B1, B3, B4.
  destruct (shard_loop_ok (max_batches self) (eval self) vars Hw Hnd
              (replicate N ∅) ∅) as (sh & d & E & Lsh & _).
  { rewrite length_replicate. apply Forall_forall. intros [k t] Hin.
    simpl. rewrite (Hlen k t Hin). fold w.
    rewrite num_splits_pos by lia. fold N. lia. }
  rewrite length_replicate in Lsh.
  assert (Hsv : shardVariables vars (max_batches self) (eval self)
                = Py.Ok (sh, d)).
  { rewrite Ev. unfold shardVariables.
    destruct (max_batches self =? 0) eqn:E0; [apply Z.eqb_eq in E0; lia|].
    rewrite n_shards_num_chunks by exact Hw.
    rewrite (Hlen k1 t1) by (rewrite Ev; apply list_elem_of_here).
    fold w. fold N. rewrite <- Ev. exact E. }
  destruct (forward_results sh) as [results Hres]; [intros s _; apply Htotal|].
  exists (map (fun r => Backward r.1 (batchSize batch)) results),
         (foldl Loss.Statistics.update Loss.Statistics.init results.*2).
  split.
  - unfold loss. rewrite Ho, Hsv.
    rewrite (shard_steps_ok shard_forward self batch sh results Hres).
    now rewrite He.
  - rewrite length_map, <- (Forall2_length _ _ _ Hres), Lsh.
    split; [unfold w in *; nia|].
    apply Forall_forall. intros c Hc.
    apply list_elem_of_fmap in Hc as (r & -> & _). reflexivity.
Qed.

End loss_more.

Section loss_more_examples.
Import Torch Loss Loss.MemoryEfficientLoss Examples.

Lemma loss_eval_no_backward_witness :
  (loss example_forward (mk true 1 false false false false) example_batch
     example_outputs ∅).1 = [].
Proof.
  exact (loss_eval_no_backward example_forward
           (mk true 1 false false false false) example_batch example_outputs
           ∅ eq_refl).
Defined.

Lemma loss_shard_failure_witness :
  loss failing_shard_forward example_loss example_batch example_outputs ∅
  = ([Backward 7 2], Py.Raise Py.RuntimeError).
Proof.
  destruct (shardVariables
              [("out_t"%string, example_outputs);
               ("targ_t"%string, slice_from (tgt example_batch) 1)] 1 false)
    as [[shards dummies]|e] eqn:E; [|vm_compute in E; discriminate E].
  assert (exists s1 s2, shards = [] ++ [s1] ++ s2 :: [] /\
            failing_shard_forward s1 = Py.Ok (7, Loss.Statistics.init) /\
            failing_shard_forward s2 = Py.Raise Py.RuntimeError)
    as (s1 & s2 & -> & H1 & H2).
  { vm_compute in E. injection E as <- _. eexists. eexists.
    split; [reflexivity|]. split; vm_compute; reflexivity. }
  assert (Hpre : Forall2 (fun s r => failing_shard_forward s = Py.Ok r)
                   [s1] [(7, Loss.Statistics.init)])
    by (constructor; [exact H1|constructor]).
  exact (loss_shard_failure failing_shard_forward example_loss example_batch
           example_outputs ∅ _ [s1] s2 [] dummies
           [(7, Loss.Statistics.init)] Py.RuntimeError eq_refl E Hpre H2).
Defined.

Lemma loss_backward_count_witness :
  exists calls stats,
    loss example_forward example_loss example_batch example_outputs ∅
      = (calls, Py.Ok stats) /\
    1 * (Z.of_nat (length calls) - 1) < 2 <= 1 * Z.of_nat (length calls) /\
    Forall (fun c => match c with Backward _ d => d = 2 end) calls.
Proof.
  apply (loss_backward_count example_forward example_loss example_batch
           example_outputs ∅
           [("out_t"%string, example_outputs);
            ("targ_t"%string, slice_from (tgt example_batch) 1)] 2).
  - reflexivity.
  - reflexivity.
  - lia.
  - reflexivity.
  - repeat constructor.
  - intros s. eexists. reflexivity.
Defined.

End loss_more_examples.

(** ** The training loop *)

Section train_groups_more.
Import Trainer.
Implicit Types (b : Loss.Batch (list Z)) (tb iter : list (Loss.Batch (list Z))).

Lemma normalization_step_add (self : t) (padding_idx n : Z) b :
  normalization_step self padding_idx n b = n + batch_norm self padding_idx b.
Proof.
  unfold batch_norm, normalization_step.
  destruct (String.eqb _ _); lia.
Qed.

Lemma total_snoc {S : Type} (f : S -> Z) (l : list S) (x : S) :
  total f (l ++ [x]) = total f l + f x.
Proof.
  unfold total. induction l as [|y l IH]; simpl; lia.
Qed.

Lemma train_loop_concat (self : t) (padding_idx : Z) iter :
  forall tb (accum normalization : Z),
  concat (train_loop self padding_idx iter tb accum normalization).*1
  = tb ++ iter.
Proof.
  induction iter as [|b rest IH]; intros tb accum normalization; simpl.
  - destruct tb; simpl; [reflexivity|]. now rewrite !app_nil_r.
  - destruct (accum + 1 =? grad_accum_count self); simpl.
    + rewrite IH. simpl. now rewrite <- app_assoc.
    + rewrite IH. now rewrite <- app_assoc.
Qed.

Lemma train_loop_norm (self : t) (padding_idx : Z) iter :
  forall tb (accum normalization : Z),
  normalization = total (batch_norm self padding_idx) tb ->
  Forall (fun g => g.2 = total (batch_norm self padding_idx) g.1)
         (train_loop self padding_idx iter tb accum normalization).
Proof.
  induction iter as [|b rest IH]; intros tb accum normalization Hn; simpl.
  - destruct tb; constructor; [exact Hn|constructor].
  - assert (Hn' : normalization_step self padding_idx normalization b
                  = total (batch_norm self padding_idx) (tb ++ [b])).
    { now rewrite normalization_step_add, Hn, total_snoc. }
    destruct (accum + 1 =? grad_accum_count self).
    + constructor; [exact Hn'|]. now apply IH.
    + now apply IH.
Qed.

Lemma train_loop_sizes (self : t) (padding_idx : Z) iter :
  0 < grad_accum_count self ->
  forall tb (accum normalization : Z),
  accum = Z.of_nat (length tb) -> accum < grad_accum_count self ->
  forall (i : nat) g,
    train_loop self padding_idx iter tb accum normalization !! i = Some g ->
    0 < Z.of_nat (length g.1) <= grad_accum_count self /\
    ((S i < length (train_loop self padding_idx iter tb accum normalization))%nat
     -> Z.of_nat (length g.1) = grad_accum_count self).
Proof.
  intros Hpos. induction iter as [|b rest IH];
    intros tb accum normalization Ha Hlt i g Hi; simpl in *.
  - destruct tb as [|b0 tb]; [discriminate|].
    destruct i; [|discriminate]. injection Hi as <-. simpl in *.
    split; [lia|]. lia.
  - destruct (accum + 1 =? grad_accum_count self) eqn:E.
    + apply Z.eqb_eq in E. destruct i as [|i]; simpl in *.
      * injection Hi as <-. simpl. rewrite length_app. simpl. lia.
      * destruct (IH [] 0 0 eq_refl Hpos i g Hi) as [H1 H2].
        split; [exact H1|]. intros Hl. apply H2. lia.
    + apply Z.eqb_neq in E.
      apply (IH (tb ++ [b]) (accum + 1)
                (normalization_step self padding_idx normalization b));
        [rewrite length_app; simpl; lia|lia|exact Hi].
Qed.

Lemma concat_length_bounds {T : Type} (c : Z) (ls : list (list T)) :
  (forall (i : nat) l, ls !! i = Some l ->
     0 < Z.of_nat (length l) <= c /\
     ((S i < length ls)%nat -> Z.of_nat (length l) = c)) ->
  ls <> [] ->
  c * (Z.of_nat (length ls) - 1) < Z.of_nat (length (concat ls))
    <= c * Z.of_nat (length ls).
Proof.
  induction ls as [|l ls IH]; intros H Hne; [congruence|].
  simpl concat. rewrite length_app.
  destruct ls as [|l' ls'].
  - destruct (H 0%nat l eq_refl) as [H1 _]. simpl. lia.
  - destruct (H 0%nat l eq_refl) as [_ H2].
    specialize (H2 ltac:(simpl; lia)).
    assert (IH' : c * (Z.of_nat (length (l' :: ls')) - 1)
                  < Z.of_nat (length (concat (l' :: ls')))
                  <= c * Z.of_nat (length (l' :: ls'))).
    { apply IH; [|discriminate]. intros i l0 Hi.
      destruct (H (S i) l0 Hi) as [H3 H4]. split; [exact H3|].
      intros Hl. apply H4. simpl in *. lia. }
    simpl length in *. lia.
Qed.

(** X15: for a positive accumulation count, the groups that [train] hands
    to [_gradient_accumulation] are the batches of the iterator in order,
    none lost and none repeated; every group is non-empty and at most
    [grad_accum_count] long, all but the last are exactly that long, and
    there are ceil(len / grad_accum_count) of them. *)
Theorem train_groups_partition (self : t) (padding_idx : Z) iter :
  0 < grad_accum_count self ->
  concat (train_groups self padding_idx iter).*1 = iter /\
  (forall (i : nat) g, train_groups self padding_idx iter !! i = Some g ->
     0 < Z.of_nat (length g.1) <= grad_accum_count self /\
     ((S i < length (train_groups self padding_idx iter))%nat ->
      Z.of_nat (length g.1) = grad_accum_count self)) /\
  (iter = [] -> train_groups self padding_idx iter = []) /\
  (iter <> [] ->
   grad_accum_count self
     * (Z.of_nat (length (train_groups self padding_idx iter)) - 1)
   < Z.of_nat (length iter)
   <= grad_accum_count self
      * Z.of_nat (length (train_groups self padding_idx iter))).
Proof.
  intros Hpos.
  assert (Hc : concat (train_groups self padding_idx iter).*1 = iter)
    by apply (train_loop_concat self padding_idx iter [] 0 0).
  assert (Hs : forall (i : nat) g,
             train_groups self padding_idx iter !! i = Some g ->
             0 < Z.of_nat (length g.1) <= grad_accum_count self /\
             ((S i < length (train_groups self padding_idx iter))%nat ->
              Z.of_nat (length g.1) = grad_accum_count self))
    by (apply train_loop_sizes; [exact Hpos|reflexivity|exact Hpos]).
  split; [exact Hc|]. split; [exact Hs|]. split; [now intros ->|].
  intros Hne.
  pose proof (concat_length_bounds (grad_accum_count self)
                (train_groups self padding_idx iter).*1) as Hb.
  rewrite Hc, length_fmap in Hb. apply Hb.
  - intros i l Hi. rewrite list_lookup_fmap in Hi.
    destruct (train_groups self padding_idx iter !! i) as [g|] eqn:Eg;
      [|discriminate]. injection Hi as <-. now apply Hs.
  - intros Habs. rewrite Habs in Hc. simpl in Hc. congruence.
Qed.

(** X16: the normalization constant passed with a group is the sum over
    the group's batches alone (it restarts at 0 with each group) of the
    target tokens that are not padding under the method [tokens], and of
    [batch.batch_size] under any other method. *)
Theorem train_groups_normalization (self : t) (padding_idx : Z) iter :
  Forall (fun g => g.2 = total (batch_norm self padding_idx) g.1)
         (train_groups self padding_idx iter) /\
  (forall b, batch_norm self padding_idx b =
     if String.eqb (norm_method self) "tokens"
     then num_tokens padding_idx b else Loss.batch_size b).
Proof.
  split.
  - now apply train_loop_norm.
  - intros b. unfold batch_norm, normalization_step.
    now destruct (String.eqb _ _).
Qed.

End train_groups_more.

Section train_groups_examples.
Import Trainer Examples.

Lemma train_groups_partition_witness :
  0 < 2 /\
  concat (train_groups (mk 0 32 "text" "sents" 2 0 false) 0
            [example_batch; example_batch; example_batch]).*1
  = [example_batch; example_batch; example_batch].
Proof.
  split; [lia|].
  exact (proj1 (train_groups_partition (mk 0 32 "text" "sents" 2 0 false) 0
                  [example_batch; example_batch; example_batch] eq_refl)).
Defined.

End train_groups_examples.

(** ** Gradient accumulation *)

Section range_facts.
Import GradientAccumulation.

Lemma range_len_pos (stop step : Z) :
  0 < step -> 0 < stop ->
  0 < range_len 0 stop step /\
  step * (range_len 0 stop step - 1) < stop <= step * range_len 0 stop step.
Proof.
  intros Hs Hstop. unfold range_len.
  destruct (0 <? step) eqn:E; [|apply Z.ltb_ge in E; lia].
  destruct (0 <? stop) eqn:E'; [|apply Z.ltb_ge in E'; lia].
  rewrite Z.sub_0_r.
  pose proof (Z.div_mod (stop - 1) step ltac:(lia)) as D.
  pose proof (Z.mod_pos_bound (stop - 1) step Hs) as M.
  set (q := (stop - 1) / step) in *. set (r := (stop - 1) mod step) in *.
  assert (0 <= q) by nia. split; [lia|]. nia.
Qed.

Lemma range_len_nonpos (stop step : Z) :
  0 < step -> stop <= 0 -> range_len 0 stop step = 0.
Proof.
  intros Hs Hstop. unfold range_len.
  destruct (0 <? step) eqn:E; [|apply Z.ltb_ge in E; lia].
  destruct (0 <? stop) eqn:E'; [apply Z.ltb_lt in E'; lia|reflexivity].
Qed.

End range_facts.

Section accumulation_facts.
Import GradientAccumulation.
Context {B S Out : Type}.
Variable target_size : B -> Z.
Variable src_lengths_sum : B -> Z.
Variable model_forward :
  B -> Z -> Z -> option S -> Py.result (Out * option S).
Variable sharded_compute_loss :
  B -> Out -> Z -> Z -> Z -> Z -> Py.result Statistics.t.
Variable zero_grad : list (call B) -> Py.result unit.
Variable optim_step : list (call B) -> Py.result unit.
Variable detach : list (call B) -> Py.result unit.

Local Abbreviation effective_trunc :=
  (GradientAccumulation.effective_trunc target_size).
Local Abbreviation windows := (GradientAccumulation.windows target_size).

(** X17: for a positive truncation in force, the windows of a batch start
    at the multiples of it below [target_size - 1], every row below
    [target_size - 1] falls in one window, and there are
    ceil((target_size - 1) / trunc_size) windows. *)
Theorem windows_cover (self : Trainer.t) (batch : B) :
  0 < effective_trunc self batch ->
  exists js,
    windows self batch = RangeOk js /\
    js = map (fun i : nat => Z.of_nat i * effective_trunc self batch)
             (seq 0 (length js)) /\
    (forall j, j ∈ js -> 0 <= j < target_size batch - 1) /\
    (forall row, 0 <= row < target_size batch - 1 ->
       exists j, j ∈ js /\ j <= row < j + effective_trunc self batch) /\
    (1 < target_size batch ->
     effective_trunc self batch * (Z.of_nat (length js) - 1)
       < target_size batch - 1
       <= effective_trunc self batch * Z.of_nat (length js)).
Proof.
  intros Ht. unfold GradientAccumulation.windows, py_range.
  set (t := effective_trunc self batch) in *.
  set (n := target_size batch) in *.
  destruct (t =? 0) eqn:E0; [apply Z.eqb_eq in E0; lia|].
  eexists. split; [reflexivity|].
  rewrite length_map, length_seq.
  set (k := Z.to_nat (range_len 0 (n - 1) t)).
  split; [apply map_ext; intros i; lia|].
  destruct (Z_lt_le_dec 0 (n - 1)) as [Hn|Hn].
  - destruct (range_len_pos (n - 1) t Ht Hn) as [Hk Hb].
    split; [|split].
    + intros j Hj. apply list_elem_of_fmap in Hj as (i & -> & Hi).
      apply elem_of_seq in Hi. unfold k in Hi. nia.
    + intros row Hrow. exists (Z.of_nat (Z.to_nat (row / t)) * t).
      pose proof (Z.div_mod row t ltac:(lia)) as D.
      pose proof (Z.mod_pos_bound row t Ht) as M.
      assert (0 <= row / t) by (apply Z.div_pos; lia).
      split.
      * apply list_elem_of_fmap. exists (Z.to_nat (row / t)).
        split; [lia|]. apply elem_of_seq. unfold k. split; [lia|].
        simpl. assert (row / t < range_len 0 (n - 1) t) by nia. lia.
      * rewrite Z2Nat.id by lia. nia.
    + intros _. unfold k. rewrite Z2Nat.id by lia. exact Hb.
  - assert (k = 0%nat) as ->
      by (unfold k; now rewrite (range_len_nonpos (n - 1) t Ht Hn)).
    simpl.
    split; [intros j Hj; inversion Hj|]. split; [intros row Hrow; lia|lia].
Qed.

Local Abbreviation window_body :=
  (GradientAccumulation.window_body model_forward sharded_compute_loss
     zero_grad optim_step detach).
Local Abbreviation window_steps :=
  (GradientAccumulation.window_steps model_forward sharded_compute_loss
     zero_grad optim_step detach).
Local Abbreviation batch_steps :=
  (GradientAccumulation.batch_steps target_size src_lengths_sum
     model_forward sharded_compute_loss zero_grad optim_step detach).
Local Abbreviation _gradient_accumulation :=
  (GradientAccumulation._gradient_accumulation target_size src_lengths_sum
     model_forward sharded_compute_loss zero_grad optim_step detach).
Local Abbreviation window_count :=
  (GradientAccumulation.window_count target_size).
Local Abbreviation src_words :=
  (GradientAccumulation.src_words src_lengths_sum).
Local Abbreviation windows_total :=
  (GradientAccumulation.windows_total target_size).
Local Abbreviation loop_call := (@GradientAccumulation.loop_call B).
Local Abbreviation same_updates := (@GradientAccumulation.same_updates B).
Local Abbreviation same_stats := (@GradientAccumulation.same_stats B).

Lemma same_updates_refl (st : state B) : same_updates st st.
Proof. unfold same_updates. lia. Qed.

Lemma same_updates_trans (a b c : state B) :
  same_updates a b -> same_updates b c -> same_updates a c.
Proof. unfold same_updates. lia. Qed.

Lemma count_app (kind : call B -> bool) (l1 l2 : list (call B)) :
  count kind (l1 ++ l2) = (count kind l1 + count kind l2)%nat.
Proof. unfold count. now rewrite List.filter_app, length_app. Qed.

Lemma same_stats_refl (st : state B) : same_stats st st.
Proof. unfold same_stats, same_updates. lia. Qed.

Lemma same_stats_trans (a b c : state B) :
  same_stats a b -> same_stats b c -> same_stats a c.
Proof. unfold same_stats, same_updates. lia. Qed.

Lemma same_stats_eq (st st' : state B) :
  total_stats st' = total_stats st -> report_stats st' = report_stats st ->
  same_stats st st'.
Proof. intros Ht Hr. unfold same_stats, same_updates. rewrite Ht, Hr. lia. Qed.

Lemma emit_same (c : call B) (st : state B) : same_stats st (emit c st).
Proof. now apply same_stats_eq. Qed.

Lemma update_both_same (bs : Statistics.t) (st : state B) :
  same_stats st (update_both bs st).
Proof. unfold same_stats, same_updates. simpl. lia. Qed.

(** A call that may raise is recorded either way and leaves the statistics
    alone; when it does not complete, it is the call that raised. *)
Lemma effect_if_spec (cond : bool)
    (returns : list (call B) -> Py.result unit) (c : call B)
    (st st' : state B) (o : outcome) :
  effect_if cond returns c st = (st', o) ->
  calls st' = calls st ++ (if cond then [c] else []) /\
  same_stats st st' /\
  (o = Completed \/
   (cond = true /\ exists e, o = Raised e /\ returns (calls st) = Py.Raise e)).
Proof.
  unfold effect_if, effect. destruct cond.
  - destruct (returns (calls st)) as [u|e] eqn:E; intros H;
      injection H as <- <-; (split; [reflexivity|]);
      (split; [apply emit_same|]).
    + now left.
    + right. split; [reflexivity|]. now exists e.
  - intros H. injection H as <- <-. rewrite app_nil_r.
    split; [reflexivity|]. split; [apply same_stats_refl|now left].
Qed.

Lemma loop_call_zero_grad (self : Trainer.t) (normalization : Z) :
  Forall (loop_call self normalization)
    (if Trainer.grad_accum_count self =? 1 then [ZeroGrad] else []).
Proof.
  destruct (Trainer.grad_accum_count self =? 1) eqn:E; repeat constructor.
  simpl. now apply Z.eqb_eq.
Qed.

Lemma loop_call_step (self : Trainer.t) (normalization : Z) :
  Forall (loop_call self normalization)
    (if Trainer.grad_accum_count self =? 1 then [Step] else []).
Proof.
  destruct (Trainer.grad_accum_count self =? 1) eqn:E; repeat constructor.
  simpl. now apply Z.eqb_eq.
Qed.

Lemma loop_call_detach (self : Trainer.t) (normalization : Z) (cond : bool) :
  Forall (loop_call self normalization) (if cond then [Detach] else []).
Proof. destruct cond; repeat constructor. Qed.

(** One window: the calls it adds, and their number when it completes. *)
Lemma window_body_spec (self : Trainer.t) (batch : B)
    (trunc_size normalization j : Z) (dec_state ds' : option S)
    (st st' : state B) (o : outcome) :
  window_body self batch trunc_size normalization j dec_state st
    = (st', o, ds') ->
  exists new,
    calls st' = calls st ++ new /\
    Forall (loop_call self normalization) new /\
    same_stats st st' /\
    (o = Completed ->
     count is_forward new = 1%nat /\
     count is_sharded_loss new = 1%nat /\
     (Trainer.grad_accum_count self = 1 ->
      count is_zero_grad new = 1%nat /\ count is_step new = 1%nat)).
Proof.
  unfold GradientAccumulation.window_body. intros H.
  pose proof (loop_call_zero_grad self normalization) as Hz.
  pose proof (loop_call_step self normalization) as Hs.
  set (once := Trainer.grad_accum_count self =? 1) in *.
  destruct (effect_if once zero_grad ZeroGrad st) as [st1 o1] eqn:E1.
  apply effect_if_spec in E1 as (C1 & S1 & O1).
  destruct o1;
    [|injection H as <- <- _; eexists; split; [exact C1|]; split; [exact Hz|];
      split; [exact S1|discriminate]..].
  set (fw := Forward batch j (j + trunc_size) (is_not_None dec_state)) in *.
  set (st2 := emit fw st1) in *.
  assert (S2 : same_stats st st2)
    by (eapply same_stats_trans; [exact S1|apply emit_same]).
  assert (C2 : calls st2 = calls st ++ (if once then [ZeroGrad] else [])
                             ++ [fw]).
  { unfold st2. cbn [emit calls]. rewrite C1. now rewrite <- app_assoc. }
  destruct (model_forward batch j (j + trunc_size) dec_state)
    as [[outputs ds1]|e].
  2:{ injection H as <- <- _. eexists. split; [exact C2|].
      split; [apply Forall_app; split; [exact Hz|repeat constructor]|].
      split; [exact S2|discriminate]. }
  set (sl := ShardedLoss batch j trunc_size (Trainer.shard_size self)
               normalization) in *.
  set (st3 := emit sl st2) in *.
  assert (S3 : same_stats st st3)
    by (eapply same_stats_trans; [exact S2|apply emit_same]).
  assert (C3 : calls st3 = calls st ++ (if once then [ZeroGrad] else [])
                             ++ [fw] ++ [sl]).
  { unfold st3. cbn [emit calls]. rewrite C2. now rewrite <- !app_assoc. }
  assert (Hl : Forall (loop_call self normalization) [sl])
    by (repeat constructor).
  assert (Hf : Forall (loop_call self normalization) [fw])
    by (repeat constructor).
  destruct (sharded_compute_loss batch outputs j trunc_size
              (Trainer.shard_size self) normalization) as [bs|e].
  2:{ injection H as <- <- _. eexists. split; [exact C3|].
      split; [repeat (apply Forall_app; split); assumption|].
      split; [exact S3|discriminate]. }
  destruct (effect_if once optim_step Step st3) as [st4 o4] eqn:E4.
  apply effect_if_spec in E4 as (C4 & S4 & O4).
  assert (S4' : same_stats st st4)
    by (eapply same_stats_trans; [exact S3|exact S4]).
  assert (C4' : calls st4 = calls st ++ (if once then [ZeroGrad] else [])
                              ++ [fw] ++ [sl] ++ (if once then [Step] else [])).
  { rewrite C4, C3. now rewrite <- !app_assoc. }
  destruct o4;
    [|injection H as <- <- _; eexists; split; [exact C4'|];
      split; [repeat (apply Forall_app; split); assumption|];
      split; [exact S4'|discriminate]..].
  destruct (effect_if (is_not_None ds1) detach Detach (update_both bs st4))
    as [st6 o6] eqn:E6.
  apply effect_if_spec in E6 as (C6 & S6 & O6).
  injection H as <- <- _.
  eexists. split.
  { rewrite C6. cbn [update_both calls]. rewrite C4', <- !app_assoc.
    reflexivity. }
  split.
  { repeat (apply Forall_app; split); try assumption.
    apply loop_call_detach. }
  split.
  { eapply same_stats_trans; [exact S4'|].
    eapply same_stats_trans; [apply update_both_same|exact S6]. }
  intros _. rewrite !count_app.
  split; [destruct once, (is_not_None ds1); reflexivity|].
  split; [destruct once, (is_not_None ds1); reflexivity|].
  intros H1. assert (once = true) as -> by (unfold once; now apply Z.eqb_eq).
  split; destruct (is_not_None ds1); reflexivity.
Qed.

Lemma window_steps_spec (self : Trainer.t) (batch : B)
    (trunc_size normalization : Z) (js : list Z) :
  forall (dec_state : option S) (st st' : state B) (o : outcome),
  window_steps self batch trunc_size normalization js dec_state st = (st', o) ->
  exists new,
    calls st' = calls st ++ new /\
    Forall (loop_call self normalization) new /\
    same_stats st st' /\
    (o = Completed ->
     count is_forward new = length js /\
     count is_sharded_loss new = length js /\
     (Trainer.grad_accum_count self = 1 ->
      count is_zero_grad new = length js /\ count is_step new = length js)).
Proof.
  induction js as [|j rest IH]; intros dec_state st st' o H;
    cbn [GradientAccumulation.window_steps] in H.
  - injection H as <- <-. exists []. rewrite app_nil_r.
    split; [reflexivity|]. split; [constructor|].
    split; [apply same_stats_refl|].
    intros _. repeat split; reflexivity.
  - destruct (window_body self batch trunc_size normalization j dec_state st)
      as [[st1 o1] ds1] eqn:E1.
    apply window_body_spec in E1 as (new1 & C1 & F1 & S1 & K1).
    destruct o1;
      [|injection H as <- <-; exists new1; split; [exact C1|];
        split; [exact F1|]; split; [exact S1|discriminate]..].
    apply IH in H as (new & Hc & Hf & Hu & Hcount).
    exists (new1 ++ new).
    split; [rewrite Hc, C1, <- app_assoc; reflexivity|].
    split; [apply Forall_app; split; assumption|].
    split; [eapply same_stats_trans; [exact S1|exact Hu]|].
    intros Ho. destruct (Hcount Ho) as (A1 & A2 & A3).
    destruct (K1 eq_refl) as (B1 & B2 & B3).
    rewrite !count_app, A1, A2, B1, B2.
    split; [reflexivity|]. split; [reflexivity|].
    intros Hg. destruct (A3 Hg) as [A4 A5]. destruct (B3 Hg) as [B4 B5].
    rewrite ?count_app, A4, A5, B4, B5. split; reflexivity.
Qed.

Lemma add_src_words_same (n : Z) (st : state B) :
  same_updates st (add_src_words n st) /\
  calls (add_src_words n st) = calls st /\
  Statistics.n_src_words (report_stats (add_src_words n st))
  = Statistics.n_src_words (report_stats st) + n.
Proof.
  destruct st as [tot [l w c sw mw] cs]. unfold same_updates. simpl.
  repeat split; lia.
Qed.

Lemma batch_steps_spec (self : Trainer.t) (normalization : Z)
    (batches : list B) :
  forall (st st' : state B) (o : outcome),
  batch_steps self normalization batches st = (st', o) ->
  exists new,
    calls st' = calls st ++ new /\
    Forall (loop_call self normalization) new /\
    same_updates st st' /\
    (o = Completed ->
     count is_forward new = windows_total self batches /\
     count is_sharded_loss new = windows_total self batches /\
     (Trainer.grad_accum_count self = 1 ->
      count is_zero_grad new = windows_total self batches /\
      count is_step new = windows_total self batches) /\
     Statistics.n_src_words (report_stats st')
     = Statistics.n_src_words (report_stats st) + src_words self batches).
Proof.
  induction batches as [|b rest IH]; intros st st' o H;
    cbn [GradientAccumulation.batch_steps] in H.
  - injection H as <- <-. exists []. rewrite app_nil_r.
    split; [reflexivity|]. split; [constructor|].
    split; [apply same_updates_refl|]. intros _.
    unfold GradientAccumulation.src_words, total. simpl.
    destruct (String.eqb _ _); repeat split; try reflexivity; lia.
  - cbn zeta in H.
    set (st1 := if String.eqb (Trainer.data_type self) "text"
                then add_src_words (src_lengths_sum b) st else st) in *.
    assert (H1 : same_updates st st1 /\ calls st1 = calls st /\
                 Statistics.n_src_words (report_stats st1)
                 = Statistics.n_src_words (report_stats st)
                   + src_words self [b]).
    { unfold st1, GradientAccumulation.src_words, total. simpl.
      destruct (String.eqb _ _).
      - destruct (add_src_words_same (src_lengths_sum b) st) as (A1 & A2 & A3).
        split; [exact A1|]. split; [exact A2|]. lia.
      - split; [apply same_updates_refl|]. split; [reflexivity|]. lia. }
    destruct H1 as (U1 & C1 & N1).
    unfold GradientAccumulation.windows_total,
      GradientAccumulation.window_count. simpl.
    destruct (windows self b) as [js|] eqn:Ew.
    2:{ injection H as <- <-. exists []. rewrite app_nil_r.
        split; [now rewrite C1|]. split; [constructor|].
        split; [exact U1|discriminate]. }
    unfold next in H.
    destruct (window_steps self b (effective_trunc self b) normalization js
                None st1) as [st2 o2] eqn:E2.
    apply window_steps_spec in E2 as (new2 & C2 & F2 & [U2 N2] & K2).
    destruct o2.
    + apply IH in H as (new3 & C3 & F3 & U3 & K3).
      exists (new2 ++ new3).
      split; [rewrite C3, C2, C1, <- app_assoc; reflexivity|].
      split; [apply Forall_app; auto|].
      split; [eapply same_updates_trans; [exact U1|];
              eapply same_updates_trans; [exact U2|exact U3]|].
      intros Ho. destruct (K2 eq_refl) as (A1 & A2 & A3).
      destruct (K3 Ho) as (B1 & B2 & B3 & B4).
      rewrite !count_app, A1, A2, B1, B2.
      fold (windows_total self rest).
      split; [reflexivity|]. split; [reflexivity|]. split.
      * intros Hg. destruct (A3 Hg) as [A4 A5]. destruct (B3 Hg) as [B5 B6].
        rewrite ?count_app, A4, A5, B5, B6. split; reflexivity.
      * rewrite B4, N2, N1. unfold GradientAccumulation.src_words, total.
        simpl. destruct (String.eqb _ _); lia.
    + injection H as <- <-. exists new2.
      split; [now rewrite C2, C1|]. split; [exact F2|].
      split; [eapply same_updates_trans; [exact U1|exact U2]|discriminate].
    + injection H as <- <-. exists new2.
      split; [now rewrite C2, C1|]. split; [exact F2|].
      split; [eapply same_updates_trans; [exact U1|exact U2]|discriminate].
Qed.

Lemma loop_calls_no_step (self : Trainer.t) (normalization : Z)
    (new : list (call B)) :
  Forall (loop_call self normalization) new ->
  Trainer.grad_accum_count self <> 1 ->
  count is_step new = 0%nat /\ count is_zero_grad new = 0%nat.
Proof.
  intros H Hg. induction H as [|c new Hc _ [IH1 IH2]]; [split; reflexivity|].
  unfold count in *. simpl.
  destruct c; simpl in *; try (split; assumption); contradiction.
Qed.

(** The three stages of a run with their traces: the first [zero_grad],
    the loop over the batches, the last [step]. *)
Lemma run_stages (self : Trainer.t) (true_batchs : list B)
    (total report : Statistics.t) (normalization : Z)
    (st : state B) (o : outcome) :
  _gradient_accumulation self true_batchs total report normalization
    = (st, o) ->
  let many := 1 <? Trainer.grad_accum_count self in
  let first := if many then [ZeroGrad] else [] in
  same_updates (mk_state total report []) st /\
  ((* the first zero_grad raised *)
   (many = true /\ calls st = [ZeroGrad] /\
    exists e, o = Raised e /\ zero_grad [] = Py.Raise e) \/
   (* the loop over the batches raised *)
   (o <> Completed /\
    exists new, calls st = first ++ new /\
                Forall (loop_call self normalization) new) \/
   (* the loop completed *)
   (exists new,
      Forall (loop_call self normalization) new /\
      calls st = first ++ new ++ (if many then [Step] else []) /\
      count is_forward new = windows_total self true_batchs /\
      count is_sharded_loss new = windows_total self true_batchs /\
      (Trainer.grad_accum_count self = 1 ->
       count is_zero_grad new = windows_total self true_batchs /\
       count is_step new = windows_total self true_batchs) /\
      Statistics.n_src_words (report_stats st)
      = Statistics.n_src_words report + src_words self true_batchs /\
      (o = Completed \/
       (many = true /\
        exists e, o = Raised e /\ optim_step (first ++ new) = Py.Raise e)))).
Proof.
  unfold GradientAccumulation._gradient_accumulation, next. intros H.
  cbn zeta in *.
  set (many := 1 <? Trainer.grad_accum_count self) in *.
  destruct (effect_if many zero_grad ZeroGrad (mk_state total report []))
    as [st0 o0] eqn:E0.
  apply effect_if_spec in E0 as (C0 & [S0 N0] & O0). cbn [calls] in C0, O0.
  rewrite app_nil_l in C0.
  destruct o0.
  2:{ destruct O0 as [O0|(Hm & e' & He & Hz)]; [discriminate|].
      injection H as <- <-. split; [exact S0|]. left.
      rewrite Hm in C0. split; [exact Hm|]. split; [exact C0|].
      now exists e'. }
  2:{ destruct O0 as [O0|(Hm & e' & He & Hz)]; discriminate. }
  destruct (batch_steps self normalization true_batchs st0)
    as [st1 o1] eqn:E1.
  apply batch_steps_spec in E1 as (new & C1 & F1 & U1 & K1).
  rewrite C0 in C1.
  assert (S1 : same_updates (mk_state total report []) st1)
    by (eapply same_updates_trans; [exact S0|exact U1]).
  destruct o1.
  2:{ injection H as <- <-. split; [exact S1|]. right. left.
      split; [discriminate|]. now exists new. }
  2:{ injection H as <- <-. split; [exact S1|]. right. left.
      split; [discriminate|]. now exists new. }
  apply effect_if_spec in H as (C2 & [S2 N2] & O2).
  split; [eapply same_updates_trans; [exact S1|exact S2]|].
  right. right. exists new.
  destruct (K1 eq_refl) as (A1 & A2 & A3 & A4).
  split; [exact F1|].
  split; [rewrite C2, C1, <- app_assoc; reflexivity|].
  split; [exact A1|]. split; [exact A2|]. split; [exact A3|].
  split; [rewrite N2, A4, N0; reflexivity|].
  rewrite C1 in O2. exact O2.
Qed.

(** X18: a run of [_gradient_accumulation] that completes makes one
    forward pass and one sharded loss per window; with accumulation count
    1 it zeroes the gradients and steps the optimiser once per window, and
    with a count above 1 it does each exactly once, first and last. *)
Theorem accumulation_steps (self : Trainer.t) (true_batchs : list B)
    (total report : Statistics.t) (normalization : Z)
    (st : state B) :
  _gradient_accumulation self true_batchs total report normalization
    = (st, Completed) ->
  count is_forward (calls st) = windows_total self true_batchs /\
  count is_sharded_loss (calls st) = windows_total self true_batchs /\
  (Trainer.grad_accum_count self = 1 ->
   count is_zero_grad (calls st) = windows_total self true_batchs /\
   count is_step (calls st) = windows_total self true_batchs) /\
  (1 < Trainer.grad_accum_count self ->
   count is_zero_grad (calls st) = 1%nat /\
   count is_step (calls st) = 1%nat /\
   head (calls st) = Some ZeroGrad /\
   last (calls st) = Some Step).
Proof.
  intros H. apply run_stages in H as [_ H]. cbn zeta in H.
  set (many := 1 <? Trainer.grad_accum_count self) in *.
  destruct H as [(_ & _ & e & He & _)|[[Ho _]|H]]; [discriminate|congruence|].
  destruct H as (new & F1 & C & A1 & A2 & A3 & _ & _).
  rewrite C, !count_app, A1, A2.
  split; [destruct many; unfold count; simpl; lia|].
  split; [destruct many; unfold count; simpl; lia|].
  split.
  - intros Hg. destruct (A3 Hg) as [A4 A5]. rewrite ?count_app, A4, A5.
    assert (many = false) as -> by (unfold many; apply Z.ltb_ge; lia).
    unfold count. simpl. lia.
  - intros Hg.
    destruct (loop_calls_no_step self normalization new F1 ltac:(lia))
      as [N1 N2].
    assert (many = true) as -> by (unfold many; apply Z.ltb_lt; lia).
    rewrite ?count_app, N1, N2. unfold count. simpl.
    split; [reflexivity|]. split; [reflexivity|]. split; [reflexivity|].
    apply (last_snoc Step (ZeroGrad :: new)).
Qed.

(** X19: with an accumulation count above 1, a run that ends with an
    exception has called [zero_grad] once, as its first action, and has
    either not called [optim.step] at all, or called it once as its last
    action, after the windows of all batches: the exception is then the
    one [optim.step] raised. *)
Theorem accumulation_failure (self : Trainer.t) (true_batchs : list B)
    (total report : Statistics.t) (normalization : Z)
    (st : state B) (o : outcome) :
  1 < Trainer.grad_accum_count self ->
  _gradient_accumulation self true_batchs total report normalization
    = (st, o) ->
  o <> Completed ->
  count is_zero_grad (calls st) = 1%nat /\
  head (calls st) = Some ZeroGrad /\
  (count is_step (calls st) = 0%nat \/
   (count is_step (calls st) = 1%nat /\
    count is_forward (calls st) = windows_total self true_batchs /\
    count is_sharded_loss (calls st) = windows_total self true_batchs /\
    exists before e,
      calls st = before ++ [Step] /\
      optim_step before = Py.Raise e /\ o = Raised e)).
Proof.
  intros Hg H Ho. apply run_stages in H as [_ H]. cbn zeta in H.
  assert ((1 <? Trainer.grad_accum_count self) = true) as Hm
    by (apply Z.ltb_lt; lia).
  rewrite Hm in H.
  destruct H as [(_ & C & _)|[(_ & new & C & F)|H]].
  - rewrite C. split; [reflexivity|]. split; [reflexivity|]. now left.
  - destruct (loop_calls_no_step self normalization new F ltac:(lia))
      as [N1 N2].
    rewrite C, !count_app, N1, N2.
    split; [reflexivity|]. split; [reflexivity|]. now left.
  - destruct H as (new & F & C & A1 & A2 & _ & _ & [O|(_ & e & He & Hs)]);
      [congruence|].
    destruct (loop_calls_no_step self normalization new F ltac:(lia))
      as [N1 N2].
    rewrite C, !count_app, N1, N2, A1, A2.
    split; [reflexivity|]. split; [reflexivity|]. right.
    split; [reflexivity|].
    split; [unfold count; simpl; lia|].
    split; [unfold count; simpl; lia|].
    exists ([ZeroGrad] ++ new), e.
    split; [now rewrite <- app_assoc|]. split; [exact Hs|exact He].
Qed.

(** X20: whatever the outcome, [total_stats] and [report_stats] receive
    the same increments of words and correct words, only [report_stats]
    counts source words (those of all batches for text data when the run
    completes), and every sharded loss gets the normalization constant and
    the shard size of the trainer. *)
Theorem accumulation_statistics (self : Trainer.t) (true_batchs : list B)
    (total report : Statistics.t) (normalization : Z)
    (st : state B) (o : outcome) :
  _gradient_accumulation self true_batchs total report normalization
    = (st, o) ->
  Statistics.n_words (total_stats st) - Statistics.n_words total
  = Statistics.n_words (report_stats st) - Statistics.n_words report /\
  Statistics.n_correct (total_stats st) - Statistics.n_correct total
  = Statistics.n_correct (report_stats st) - Statistics.n_correct report /\
  Statistics.n_src_words (total_stats st) = Statistics.n_src_words total /\
  (o = Completed ->
   Statistics.n_src_words (report_stats st)
   = Statistics.n_src_words report + src_words self true_batchs) /\
  Forall (fun c => match c with
                   | ShardedLoss _ _ _ sz nz =>
                       nz = normalization /\ sz = Trainer.shard_size self
                   | _ => True
                   end) (calls st).
Proof.
  intros H. apply run_stages in H as [U H]. cbn zeta in H.
  unfold GradientAccumulation.same_updates in U. cbn [total_stats report_stats] in U.
  destruct U as (U1 & U2 & U3).
  split; [exact U1|]. split; [exact U2|]. split; [exact U3|].
  set (many := 1 <? Trainer.grad_accum_count self) in *.
  assert (Hweak : forall new, Forall (loop_call self normalization) new ->
            Forall (fun c => match c with
                     | ShardedLoss _ _ _ sz nz =>
                         nz = normalization /\ sz = Trainer.shard_size self
                     | _ => True
                     end) new).
  { intros new F. eapply Forall_impl; [exact F|].
    intros c Hc. destruct c; simpl in *; auto. }
  destruct H as [(_ & C & e & He & _)|[(Ho & new & C & F)|H]].
  - split; [intros ->; discriminate|]. rewrite C. repeat constructor.
  - split; [intros ->; congruence|]. rewrite C. apply Forall_app.
    split; [destruct many; repeat constructor|now apply Hweak].
  - destruct H as (new & F & C & _ & _ & _ & N & _).
    split; [intros _; exact N|]. rewrite C.
    repeat (apply Forall_app; split);
      [destruct many; repeat constructor|now apply Hweak
      |destruct many; repeat constructor].
Qed.

(** X21: with [trunc_size = 0] the whole target is one window: a target of
    2 rows or more gives the single window [0, target_size), a target of 1
    row gives none, and a target of 0 rows makes [range] raise ValueError
    for its zero step, which ends the run (unless the [zero_grad] that
    opens a run with accumulation has already raised). *)
Theorem windows_untruncated (self : Trainer.t) (batch : B) :
  Trainer.trunc_size self = 0 ->
  (target_size batch = 0 ->
   windows self batch = RangeValueError /\
   forall (rest : list B) (total report : Statistics.t) (normalization : Z),
     snd (_gradient_accumulation self (batch :: rest) total report
            normalization) = RaisedValueError \/
     (1 < Trainer.grad_accum_count self /\
      exists e, zero_grad [] = Py.Raise e /\
                snd (_gradient_accumulation self (batch :: rest) total report
                       normalization) = Raised e)) /\
  (target_size batch = 1 -> windows self batch = RangeOk []) /\
  (2 <= target_size batch ->
   windows self batch = RangeOk [0] /\
   0 + effective_trunc self batch = target_size batch).
Proof.
  intros H0.
  unfold GradientAccumulation.windows, GradientAccumulation.effective_trunc.
  rewrite H0. simpl.
  split; [|split].
  - intros Hn. split; [now rewrite Hn|]. intros rest total report normalization.
    unfold GradientAccumulation._gradient_accumulation, next, effect_if, effect.
    cbn [calls GradientAccumulation.batch_steps].
    unfold GradientAccumulation.windows, GradientAccumulation.effective_trunc.
    rewrite H0, Hn. simpl.
    destruct (1 <? Trainer.grad_accum_count self) eqn:Em; [|now left].
    apply Z.ltb_lt in Em.
    destruct (zero_grad []) as [u|e]; [now left|].
    right. split; [exact Em|]. now exists e.
  - intros ->. reflexivity.
  - intros Hn. split; [|lia]. unfold py_range, range_len.
    destruct (target_size batch =? 0) eqn:E; [apply Z.eqb_eq in E; lia|].
    destruct (0 <? target_size batch) eqn:E1; [|apply Z.ltb_ge in E1; lia].
    destruct (0 <? target_size batch - 1) eqn:E2; [|apply Z.ltb_ge in E2; lia].
    assert ((target_size batch - 1 - 0 - 1) / target_size batch = 0) as ->
      by (apply Z.div_small; lia).
    simpl. reflexivity.
Qed.

End accumulation_facts.

Section accumulation_examples.
Import GradientAccumulation Examples.

Lemma windows_cover_witness :
  0 < effective_trunc size_of (truncating_trainer 1) 10 /\
  windows size_of (truncating_trainer 1) 10 = RangeOk [0; 4; 8].
Proof.
  split; [reflexivity|].
  destruct (windows_cover size_of (truncating_trainer 1) 10 eq_refl)
    as (js & E & _).
  rewrite E. vm_compute in E. injection E as <-. reflexivity.
Defined.

Lemma windows_untruncated_witness :
  Trainer.trunc_size (Examples.example_trainer "sents") = 0 /\
  windows size_of (Examples.example_trainer "sents") 10 = RangeOk [0].
Proof.
  split; [reflexivity|].
  apply (proj2 (proj2 (windows_untruncated size_of three_words steady_model
                         one_word_loss returns returns returns
                         (Examples.example_trainer "sents") 10 eq_refl))).
  vm_compute. discriminate.
Defined.

(** The accumulating trainer is one that [__init__] accepts. *)
Example accumulating_trainer_init :
  (Trainer.init (Trainer.mk_world false ([] : list (Trainer.call Z)))
     0 32 "text" "sents" 2 false).2
  = Py.Ok accumulating_trainer.
Proof. reflexivity. Qed.

Lemma accumulation_steps_witness :
  exists st,
    _gradient_accumulation size_of three_words steady_model one_word_loss
      returns returns returns
      accumulating_trainer [10; 6] Statistics.init Statistics.init 16
    = (st, Completed) /\
    count is_forward (calls st) = 2%nat /\
    count is_step (calls st) = 1%nat.
Proof.
  destruct (_gradient_accumulation size_of three_words steady_model
              one_word_loss returns returns returns accumulating_trainer
              [10; 6] Statistics.init Statistics.init 16) as [st o] eqn:E.
  assert (o = Completed) as -> by (vm_compute in E; now injection E as _ <-).
  exists st. split; [reflexivity|].
  destruct (accumulation_steps size_of three_words steady_model one_word_loss
              returns returns returns accumulating_trainer [10; 6]
              Statistics.init Statistics.init 16 st E) as (H1 & _ & _ & H2).
  split; [exact H1|]. exact (proj1 (proj2 (H2 eq_refl))).
Defined.

Lemma accumulation_failure_witness :
  exists st,
    1 < Trainer.grad_accum_count accumulating_trainer /\
    _gradient_accumulation size_of three_words model_failing_on_6
      one_word_loss returns returns returns accumulating_trainer [10; 6]
      Statistics.init Statistics.init 16 = (st, Raised Py.RuntimeError) /\
    count is_zero_grad (calls st) = 1%nat /\
    head (calls st) = Some ZeroGrad.
Proof.
  destruct (_gradient_accumulation size_of three_words model_failing_on_6
              one_word_loss returns returns returns accumulating_trainer
              [10; 6] Statistics.init Statistics.init 16) as [st o] eqn:E.
  assert (o = Raised Py.RuntimeError) as ->
    by (vm_compute in E; now injection E as _ <-).
  exists st. split; [reflexivity|]. split; [reflexivity|].
  destruct (accumulation_failure size_of three_words model_failing_on_6
              one_word_loss returns returns returns accumulating_trainer
              [10; 6] Statistics.init Statistics.init 16 st _ eq_refl E
              ltac:(discriminate)) as (H1 & H2 & _).
  split; [exact H1|exact H2].
Defined.

(** The two ways such a run fails: in the second batch, without any step,
    and in the last [optim.step], after both batches. *)
Example accumulation_failure_in_loop :
  (fun r : state Z * outcome => (calls r.1, r.2))
    (_gradient_accumulation size_of three_words model_failing_on_6
       one_word_loss returns returns returns accumulating_trainer [10; 6]
       Statistics.init Statistics.init 16)
  = ([ZeroGrad; Forward 10 0 10 false; ShardedLoss 10 0 10 32 16; Detach;
      Forward 6 0 6 false], Raised Py.RuntimeError).
Proof. vm_compute. reflexivity. Qed.

Example accumulation_failure_in_step :
  (fun r : state Z * outcome => (calls r.1, r.2))
    (_gradient_accumulation size_of three_words steady_model
       one_word_loss returns raises returns accumulating_trainer [10; 6]
       Statistics.init Statistics.init 16)
  = ([ZeroGrad; Forward 10 0 10 false; ShardedLoss 10 0 10 32 16; Detach;
      Forward 6 0 6 false; ShardedLoss 6 0 6 32 16; Detach; Step],
     Raised Py.RuntimeError).
Proof. vm_compute. reflexivity. Qed.

Lemma accumulation_statistics_witness :
  exists st,
    _gradient_accumulation size_of three_words steady_model one_word_loss
      returns returns returns
      (truncating_trainer 1) [10] Statistics.init Statistics.init 2
    = (st, Completed) /\
    Statistics.n_src_words (report_stats st) = 3 /\
    Statistics.n_src_words (total_stats st) = 0.
Proof.
  destruct (_gradient_accumulation size_of three_words steady_model
              one_word_loss returns returns returns (truncating_trainer 1)
              [10] Statistics.init Statistics.init 2) as [st o] eqn:E.
  assert (o = Completed) as -> by (vm_compute in E; now injection E as _ <-).
  exists st. split; [reflexivity|].
  destruct (accumulation_statistics size_of three_words steady_model
              one_word_loss returns returns returns (truncating_trainer 1)
              [10] Statistics.init Statistics.init 2 st Completed E)
    as (_ & _ & H3 & H4 & _).
  split; [exact (H4 eq_refl)|exact H3].
Defined.

End accumulation_examples.

(** ** [train.py] *)

Section train_py.
Import Train.

Lemma mod_minus_one (batch r : Z) :
  r <> 0 -> (batch mod r = (-1) mod r <-> (batch + 1) mod r = 0).
Proof.
  intros Hr. split; intros H.
  - rewrite <- (Z.add_mod_idemp_l batch 1 r) by exact Hr. rewrite H.
    rewrite Z.add_mod_idemp_l by exact Hr. simpl. apply Z.mod_0_l. exact Hr.
  - replace batch with ((batch + 1) + (-1)) at 1 by lia.
    rewrite <- (Z.add_mod_idemp_l (batch + 1) (-1) r) by exact Hr.
    rewrite H. reflexivity.
Qed.

(** X22: [report_func] raises ZeroDivisionError for [report_every = 0];
    otherwise it reports, and returns fresh statistics, exactly at the
    batches with [(batch + 1) mod report_every = 0], and returns the
    statistics it was given at all others. *)
Theorem report_func_schedule (output : Statistics.t -> Py.result unit)
    (report_every batch : Z) (report_stats : Statistics.t) :
  (report_every = 0 ->
   report_func output report_every batch report_stats
   = Py.Raise Py.ZeroDivisionError) /\
  (report_every <> 0 -> (batch + 1) mod report_every = 0 ->
   report_func output report_every batch report_stats
   = match output report_stats with
     | Py.Ok _ => Py.Ok Statistics.init
     | Py.Raise e => Py.Raise e
     end) /\
  (report_every <> 0 -> (batch + 1) mod report_every <> 0 ->
   report_func output report_every batch report_stats = Py.Ok report_stats).
Proof.
  unfold report_func, py_mod. split; [intros ->; reflexivity|].
  split; intros Hr Hm;
    (destruct (report_every =? 0) eqn:E; [apply Z.eqb_eq in E; congruence|]);
    simpl.
  - apply (mod_minus_one batch report_every Hr) in Hm.
    apply Z.eqb_eq in Hm. rewrite Hm. now destruct (output report_stats).
  - destruct (batch mod report_every =? -1 mod report_every) eqn:E';
      [|reflexivity].
    apply Z.eqb_eq in E'. apply (mod_minus_one batch report_every Hr) in E'.
    congruence.
Qed.

Lemma widest_src_snoc (es : list example) (e : example) :
  widest_src (es ++ [e])
  = Z.max (widest_src es) (Z.of_nat (length (src e)) + 2).
Proof. unfold widest_src. induction es as [|e0 es IH]; simpl; lia. Qed.

Lemma widest_tgt_snoc (es : list example) (e : example) :
  widest_tgt (es ++ [e])
  = Z.max (widest_tgt es) (Z.of_nat (length (tgt e)) + 1).
Proof. unfold widest_tgt. induction es as [|e0 es IH]; simpl; lia. Qed.

Lemma fill_batch_from (examples : list example) :
  forall (seen : list example) (count sofar : Z) (g : globals),
  count = Z.of_nat (length seen) + 1 ->
  (seen <> [] -> max_src_in_batch g = widest_src seen /\
                 max_tgt_in_batch g = widest_tgt seen) ->
  forall (i : nat) (e : example), examples !! i = Some e ->
  fill_batch examples count sofar g !! i
  = Some ((count + Z.of_nat i)
          * Z.max (widest_src (seen ++ take (S i) examples))
                  (widest_tgt (seen ++ take (S i) examples))).
Proof.
  induction examples as [|new rest IH];
    intros seen count sofar g Hc Hg i e Hi; [discriminate|].
  assert (Hstep :
    batch_size_fn new count sofar g =
    (mk_globals (widest_src (seen ++ [new])) (widest_tgt (seen ++ [new])),
     count * Z.max (widest_src (seen ++ [new])) (widest_tgt (seen ++ [new])))).
  { unfold batch_size_fn. rewrite widest_src_snoc, widest_tgt_snoc.
    destruct seen as [|s0 seen'].
    - simpl in Hc. subst count. simpl. f_equal. lia.
    - destruct (Hg ltac:(discriminate)) as [H1 H2].
      destruct (count =? 1) eqn:E;
        [apply Z.eqb_eq in E; simpl in Hc; lia|].
      rewrite H1, H2. f_equal. simpl in Hc. nia. }
  cbn [fill_batch]. rewrite Hstep.
  destruct i as [|i].
  - simpl. rewrite Z.add_0_r. reflexivity.
  - simpl in Hi. simpl lookup.
    rewrite (IH (seen ++ [new]) (count + 1) _ _) with (e := e);
      [|rewrite length_app; simpl; lia|intros _; split; reflexivity|exact Hi].
    f_equal. rewrite <- app_assoc. simpl.
    replace (count + 1 + Z.of_nat i) with (count + Z.of_nat (S i)) by lia.
    reflexivity.
Qed.

(** X23: called on the examples of a batch in turn with the counts 1, 2,
    ..., [batch_size_fn] returns at the i-th example i times the widest
    padded length so far (source length + 2 or target length + 1); the
    first call resets the two maxima, so what they held before has no
    effect. *)
Theorem batch_size_fn_padded (examples : list example) (sofar : Z)
    (g : globals) :
  length (fill_batch examples 1 sofar g) = length examples /\
  forall (i : nat) (e : example), examples !! i = Some e ->
    fill_batch examples 1 sofar g !! i
    = Some (Z.of_nat (S i)
            * Z.max (widest_src (take (S i) examples))
                    (widest_tgt (take (S i) examples))).
Proof.
  split.
  - generalize 1 at 1. generalize sofar g.
    induction examples as [|new rest IH]; intros s g0 c; [reflexivity|].
    simpl. f_equal. apply IH.
  - intros i e Hi.
    rewrite (fill_batch_from examples [] 1 sofar g eq_refl
               ltac:(congruence) i e Hi).
    simpl app. f_equal. lia.
Qed.

Lemma tally_fold (ps : list (string * Z)) :
  forall enc dec : Z,
  foldl tally_step (enc, dec) ps =
  (enc + foldr Z.add 0
           (map snd (List.filter (fun p => contains "encoder" p.1) ps)),
   dec + foldr Z.add 0
           (map snd (List.filter (fun p => negb (contains "encoder" p.1)) ps))).
Proof.
  induction ps as [|[name n] ps IH]; intros enc dec; simpl.
  - f_equal; lia.
  - destruct (contains "encoder" name) eqn:E; simpl.
    + rewrite IH. f_equal; lia.
    + change (str_or_bool "decoder" (contains "generator" name)) with true.
      simpl. rewrite IH. f_equal; lia.
Qed.

(** X24: [tally_parameters] counts under the decoder every parameter whose
    name does not contain [encoder], whether or not it contains [decoder]
    or [generator]: the two counters add up to the total. *)
Theorem tally_parameters_split (named_parameters : list (string * Z)) :
  exists enc dec,
    tally_parameters named_parameters
    = (foldr Z.add 0 (map snd named_parameters), enc, dec) /\
    enc + dec = foldr Z.add 0 (map snd named_parameters) /\
    enc = foldr Z.add 0
            (map snd (List.filter (fun p => contains "encoder" p.1)
                        named_parameters)) /\
    dec = foldr Z.add 0
            (map snd (List.filter (fun p => negb (contains "encoder" p.1))
                        named_parameters)).
Proof.
  unfold tally_parameters. rewrite tally_fold. simpl.
  eexists. eexists. split; [reflexivity|]. split; [|split; reflexivity].
  induction named_parameters as [|[name n] ps IH]; simpl; [reflexivity|].
  destruct (contains "encoder" name); simpl; lia.
Qed.

Lemma epoch_loop_None (start_checkpoint_at : Z) (valid_ppl : Z -> float)
    (epochs : list Z) :
  epoch_loop start_checkpoint_at valid_ppl epochs None
  = (flat_map (plain_epoch start_checkpoint_at valid_ppl) epochs, None).
Proof.
  induction epochs as [|e rest IH]; [reflexivity|].
  simpl. rewrite IH. unfold plain_epoch. simpl.
  now destruct (start_checkpoint_at <=? e).
Qed.

(** X25: with the plain trainer, a tolerance of 0 is the same as none: no
    patience object exists, every epoch of [range(start_epoch, epochs + 1)]
    is trained, validated and stepped, and a checkpoint is dropped for the
    epochs from [start_checkpoint_at] on. *)
Theorem train_model_without_patience (earlystop_tolerance : option Z)
    (start_epoch last_epoch start_checkpoint_at : Z)
    (valid_ppl : Z -> float) :
  earlystop_tolerance = None \/ earlystop_tolerance = Some 0 ->
  train_model earlystop_tolerance start_epoch last_epoch start_checkpoint_at
    valid_ppl
  = (flat_map (plain_epoch start_checkpoint_at valid_ppl)
       (map (fun i : nat => start_epoch + Z.of_nat i)
            (seq 0 (Z.to_nat (last_epoch + 1 - start_epoch)))),
     None).
Proof.
  intros [-> | ->]; unfold train_model; simpl; apply epoch_loop_None.
Qed.

Lemma train_model_without_patience_witness :
  trained (train_model (Some 0) 1 3 2 (fun _ => 5%float)).1 = [1; 2; 3] /\
  dropped (train_model (Some 0) 1 3 2 (fun _ => 5%float)).1 = [2; 3].
Proof.
  rewrite (train_model_without_patience (Some 0) 1 3 2 (fun _ => 5%float)
             (or_intror eq_refl)).
  split; reflexivity.
Defined.

Lemma trained_app (a b : list epoch_call) :
  trained (a ++ b) = trained a ++ trained b.
Proof. unfold trained. apply omap_app. Qed.

Lemma dropped_app (a b : list epoch_call) :
  dropped (a ++ b) = dropped a ++ dropped b.
Proof. unfold dropped. apply omap_app. Qed.

Lemma epoch_loop_Some (start_checkpoint_at : Z) (valid_ppl : Z -> float)
    (e : Z) (rest : list Z) (p0 : EarlyStopping.t) :
  let p1 := EarlyStopping.call p0 (valid_ppl e) in
  let head := [TrainEpoch e; Validate e; EpochStep e (valid_ppl e)] in
  let save := if EarlyStopping.saves_best p0 (valid_ppl e)
              then [SaveBest e] else [] in
  let drop := if start_checkpoint_at <=? e then [DropCheckpoint e] else [] in
  let next := epoch_loop start_checkpoint_at valid_ppl rest (Some p1) in
  epoch_loop start_checkpoint_at valid_ppl (e :: rest) (Some p0)
  = if EarlyStopping.has_stopped p1
    then (head ++ save, Some p1)
    else (head ++ save ++ drop ++ next.1, next.2).
Proof.
  cbn zeta. cbn [epoch_loop].
  destruct (EarlyStopping.has_stopped _); [reflexivity|].
  now destruct (epoch_loop _ _ rest _).
Qed.

(** X26: with a patience object the epoch loop trains a prefix of the
    epochs, feeding the patience the validation perplexity of each; it
    goes on as long as the patience has not stopped and ends at the first
    epoch where it has; a checkpoint is dropped for the trained epochs from
    [start_checkpoint_at] on, except the epoch at which the patience
    stopped. *)
Theorem epoch_loop_patience (start_checkpoint_at : Z) (valid_ppl : Z -> float)
    (epochs : list Z) :
  forall p0 : EarlyStopping.t,
  exists k : nat,
    (k <= length epochs)%nat /\
    let run j := foldl EarlyStopping.call p0 (map valid_ppl (take j epochs)) in
    let result :=
      epoch_loop start_checkpoint_at valid_ppl epochs (Some p0) in
    result.2 = Some (run k) /\
    trained result.1 = take k epochs /\
    (forall j, (0 < j < k)%nat -> EarlyStopping.has_stopped (run j) = false) /\
    ((k < length epochs)%nat ->
     (0 < k)%nat /\ EarlyStopping.has_stopped (run k) = true) /\
    dropped result.1 =
    filter (fun e => start_checkpoint_at <= e)
      (take (if (0 <? k)%nat && EarlyStopping.has_stopped (run k)
             then (k - 1)%nat else k) epochs).
Proof.
  induction epochs as [|e rest IH]; intros p0.
  - exists 0%nat. simpl. repeat split; try reflexivity; intros; lia.
  - pose proof (epoch_loop_Some start_checkpoint_at valid_ppl e rest p0) as Hl.
    cbn zeta in Hl.
    set (p1 := EarlyStopping.call p0 (valid_ppl e)) in *.
    set (head := [TrainEpoch e; Validate e; EpochStep e (valid_ppl e)]) in *.
    set (save := if EarlyStopping.saves_best p0 (valid_ppl e)
                 then [SaveBest e] else []) in *.
    set (drop := if start_checkpoint_at <=? e then [DropCheckpoint e] else [])
      in *.
    assert (Hhead_t : trained head = [e]) by reflexivity.
    assert (Hhead_d : dropped head = []) by reflexivity.
    assert (Hsave_t : trained save = [])
      by (unfold save; now destruct (EarlyStopping.saves_best _ _)).
    assert (Hsave_d : dropped save = [])
      by (unfold save; now destruct (EarlyStopping.saves_best _ _)).
    assert (Hdrop_t : trained drop = [])
      by (unfold drop; now destruct (start_checkpoint_at <=? e)).
    assert (Hdrop_d : dropped drop
                      = filter (fun e => start_checkpoint_at <= e) [e]).
    { unfold drop. destruct (start_checkpoint_at <=? e) eqn:E.
      - apply Z.leb_le in E. rewrite filter_cons_True by exact E.
        reflexivity.
      - apply Z.leb_gt in E. rewrite filter_cons_False by lia. reflexivity. }
    assert (Hfilter : forall l,
              filter (fun e => start_checkpoint_at <= e) (e :: l)
              = filter (fun e => start_checkpoint_at <= e) [e]
                ++ filter (fun e => start_checkpoint_at <= e) l).
    { intros l. change (e :: l) with ([e] ++ l). apply filter_app. }
    clearbody head save drop.
    destruct (EarlyStopping.has_stopped p1) eqn:Es.
    + exists 1%nat. cbn beta zeta. rewrite Hl. cbn [fst snd].
      cbn [firstn map foldl length]; rewrite ?take_0; cbn [map foldl]. fold p1. rewrite Es.
      split; [lia|]. split; [reflexivity|].
      split; [rewrite trained_app, Hhead_t, Hsave_t; reflexivity|].
      split; [intros j Hj; lia|]. split; [intros _; split; [lia|reflexivity]|].
      rewrite dropped_app, Hhead_d, Hsave_d. reflexivity.
    + destruct (IH p1) as (k & Hk & Hp & Ht & Hj & Hlt & Hd).
      cbn beta zeta in *.
      exists (S k). rewrite Hl. cbn [fst snd].
      cbn [firstn map foldl length]; rewrite ?take_0; cbn [map foldl]. fold p1.
      split; [lia|]. split; [exact Hp|].
      split.
      { rewrite !trained_app, Hhead_t, Hsave_t, Hdrop_t, Ht. reflexivity. }
      split.
      { intros [|[|j]] Hjk; [lia| |].
        - exact Es.
        - cbn [firstn map foldl]; rewrite ?take_0; cbn [map foldl]. fold p1. apply (Hj (S j)). lia. }
      split.
      { intros Hlen. destruct (Hlt ltac:(lia)) as [_ H]. split; [lia|exact H]. }
      rewrite !dropped_app, Hhead_d, Hsave_d, Hdrop_d, Hd. cbn [app].
      destruct k as [|k].
      * cbn [firstn map foldl]; rewrite ?take_0; cbn [map foldl]. rewrite Es. cbn [Nat.ltb Nat.leb andb firstn]; rewrite ?take_0.
        rewrite filter_nil, app_nil_r. reflexivity.
      * change ((0 <? S (S k))%nat) with true.
        change ((0 <? S k)%nat) with true. cbn [andb].
        destruct (EarlyStopping.has_stopped
                    (foldl EarlyStopping.call p1
                       (map valid_ppl (take (S k) rest)))).
        -- replace (S (S k) - 1)%nat with (S (S k - 1)) by lia.
           cbn [firstn]. rewrite (Hfilter (take (S k - 1) rest)).
           reflexivity.
        -- cbn [firstn]. rewrite (Hfilter (take (S k) rest)). reflexivity.
Qed.

End train_py.

Section dataset_iterator.
Import DatasetLazyIter.
Context {D B : Type}.
Variable batches_of : D -> list B.
Variable iter_len : D -> Py.result Z.

Local Abbreviation drain := (DatasetLazyIter.drain batches_of).
Local Abbreviation __iter__ := (DatasetLazyIter.__iter__ batches_of).
Local Abbreviation __len__ := (@DatasetLazyIter.__len__ D iter_len).

Lemma drain_spec (rest : list D) :
  forall self : @t D,
  datasets self = rest ->
  (drain rest self).1
  = flat_map (fun d => map (fun b => (b, Some d)) (batches_of d)) rest /\
  datasets (drain rest self).2 = [] /\
  cur_iter (drain rest self).2 = None.
Proof.
  induction rest as [|d rest IH]; intros self Hd.
  - simpl. unfold _next_dataset_iterator. rewrite Hd. simpl.
    repeat split; reflexivity.
  - cbn [DatasetLazyIter.drain].
    assert (Hn : _next_dataset_iterator self = mk rest (Some d) (Some d))
      by (unfold _next_dataset_iterator; now rewrite Hd).
    rewrite Hn.
    destruct (IH (mk rest (Some d) (Some d)) eq_refl) as (H1 & H2 & H3).
    destruct (drain rest (mk rest (Some d) (Some d))) as [ys final].
    cbn [fst snd] in *. rewrite H1, H2, H3.
    repeat split; reflexivity.
Qed.

(** X27: constructing the iterator over no dataset fails its assertion;
    over at least one dataset, [len] is that of the first dataset's
    iterator alone, one pass yields the batches of all datasets in order,
    each while [get_cur_dataset()] is its dataset, and the pass uses the
    object up: a second pass yields nothing and [len] then fails its
    assertion. *)
Theorem dataset_iter_single_pass (ds : list D) :
  (ds = [] -> init ds = Py.Raise Py.AssertionError) /\
  (forall d rest, ds = d :: rest ->
   exists self,
     init ds = Py.Ok self /\
     __len__ self = iter_len d /\
     (__iter__ self).1
     = flat_map (fun d => map (fun b => (b, Some d)) (batches_of d)) ds /\
     (__iter__ (__iter__ self).2).1 = [] /\
     __len__ (__iter__ self).2 = Py.Raise Py.AssertionError).
Proof.
  split; [intros ->; reflexivity|].
  intros d rest ->. exists (mk rest (Some d) (Some d)).
  split; [reflexivity|]. split; [reflexivity|].
  set (self := mk rest (Some d) (Some d)).
  assert (Hit : __iter__ self
                = (yields batches_of self d ++ (drain rest self).1,
                   (drain rest self).2)).
  { unfold DatasetLazyIter.__iter__. cbn [cur_iter datasets self].
    now destruct (drain rest _). }
  rewrite Hit. cbn [fst snd].
  destruct (drain_spec rest self eq_refl) as (H1 & H2 & H3).
  rewrite H1. split; [reflexivity|].
  unfold DatasetLazyIter.__iter__, DatasetLazyIter.__len__. rewrite H3.
  split; reflexivity.
Qed.

End dataset_iterator.
